(** * Engineering-manager MCP server: the daily-standup report engine

    A shallow embedding of [src/jira-handler.ts], [src/utils/cache.ts] and
    [src/utils/errors.ts] (with the schemas of [src/utils/validation.ts]),
    and the properties of the report engine proved over it.

    Conventions of the embedding.
    - A JavaScript string is a [string]; its characters stand for UTF-16 code
      units below 256.
    - A JavaScript number that the code only uses as an integer (ids, counts,
      milliseconds, HTTP statuses) is a [Z]; where the code can produce [NaN]
      the type [number] keeps it apart.
    - Arithmetic on milliseconds is exact, and [Math.floor] of a quotient is
      the division of [Z].
    - [undefined] and [null] are [None].
    - Built-ins of the platform whose behaviour is not part of the repository
      (case mapping, locale collation, date parsing, number printing) are the
      fields of the class [Runtime]; nothing is assumed about them unless a
      statement says so.
    - Asynchronous code is sequential code over a [World]: the clock, the
      cache store, and the log of upstream requests and back-off delays.
      Synchronous code runs at one clock value. *)

From Stdlib Require Import ZArith String Ascii List Lia Sorted Permutation.
From stdpp Require Import base list gmap strings.
Import ListNotations.
Set Warnings "-register-all,-abstract-large-number".
Open Scope string_scope.
Open Scope Z_scope.

(* ================================================================== *)
(** * JavaScript values used by the code *)
(* ================================================================== *)

(** A number that may be [NaN]. *)
Inductive number : Type :=
  | NaN
  | Num (z : Z).

(** [a > b] on numbers: false as soon as one side is [NaN]. *)
Definition number_gtb (a : number) (b : Z) : bool :=
  match a with
  | NaN => false
  | Num z => b <? z
  end.

(** [s || d] for a possibly absent string: the empty string is falsy. *)
Definition strOr (s : option string) (d : string) : string :=
  match s with
  | Some EmptyString => d
  | Some v => v
  | None => d
  end.

(** [s || null]. *)
Definition strOrNull (s : option string) : option string :=
  match s with
  | Some EmptyString => None
  | Some v => Some v
  | None => None
  end.

(** [hay.includes(needle)]. *)
Fixpoint includes (hay needle : string) : bool :=
  if String.prefix needle hay then true
  else match hay with
       | EmptyString => false
       | String _ rest => includes rest needle
       end.

(** [labels.includes(x)] on an array of strings. *)
Definition arrayIncludes (l : list string) (x : string) : bool :=
  existsb (String.eqb x) l.

(** [s.substring(0, n)]. *)
Definition substring0 (n : nat) (s : string) : string := String.substring 0 n s.

(** [parts.join(sep)]. *)
Fixpoint join (sep : string) (parts : list string) : string :=
  match parts with
  | [] => ""
  | [p] => p
  | p :: rest => p ++ sep ++ join sep rest
  end.

(** Plain comparison of two strings, code unit by code unit. *)
Fixpoint lexCompare (a b : string) : comparison :=
  match a, b with
  | EmptyString, EmptyString => Eq
  | EmptyString, String _ _ => Lt
  | String _ _, EmptyString => Gt
  | String x a', String y b' =>
      match N.compare (N_of_ascii x) (N_of_ascii y) with
      | Eq => lexCompare a' b'
      | c => c
      end
  end.

Definition lexLe (a b : string) : Prop := lexCompare a b <> Gt.

(** The built-ins of the platform the code calls. *)
Class Runtime : Type := {
  (** [s.toLowerCase()] *)
  toLowerCase : string -> string;
  (** [s.toUpperCase()] *)
  toUpperCase : string -> string;
  (** [a.localeCompare(b)]: negative, zero or positive *)
  localeCompare : string -> string -> Z;
  (** [new Date(s).getTime()], [None] for an invalid date *)
  dateParse : string -> option Z;
  (** [new Date(ms).toISOString().split('T')[0]] *)
  isoDate : Z -> string;
  (** a number inside a template literal *)
  numToString : Z -> string;
  (** zod's [z.string().email()] test *)
  isEmail : string -> bool;
  (** [process.env.NODE_ENV === 'development'] *)
  development : bool;
  (** [config.getJiraBaseUrl()] *)
  jiraBaseUrl : string
}.

(* ================================================================== *)
(** * Error model ([src/types/index.ts], [src/utils/errors.ts]) *)
(* ================================================================== *)

Inductive ErrorCode : Type :=
  | CONFIG_MISSING | CONFIG_INVALID
  | VALIDATION_FAILED | INVALID_INPUT
  | API_ERROR | API_TIMEOUT | API_RATE_LIMIT | API_UNAUTHORIZED | API_NOT_FOUND
  | JIRA_BOARD_NOT_FOUND | JIRA_SPRINT_NOT_FOUND | JIRA_ISSUE_NOT_FOUND
  | JIRA_PROJECT_NOT_FOUND | JIRA_PERMISSION_DENIED
  | SLACK_CHANNEL_NOT_FOUND | SLACK_USER_NOT_FOUND | SLACK_MESSAGE_TOO_LONG
  | SLACK_RATE_LIMITED
  | UNKNOWN_TOOL | INTERNAL_ERROR.

Definition ErrorCode_eqb (a b : ErrorCode) : bool :=
  match a, b with
  | CONFIG_MISSING, CONFIG_MISSING | CONFIG_INVALID, CONFIG_INVALID
  | VALIDATION_FAILED, VALIDATION_FAILED | INVALID_INPUT, INVALID_INPUT
  | API_ERROR, API_ERROR | API_TIMEOUT, API_TIMEOUT
  | API_RATE_LIMIT, API_RATE_LIMIT | API_UNAUTHORIZED, API_UNAUTHORIZED
  | API_NOT_FOUND, API_NOT_FOUND
  | JIRA_BOARD_NOT_FOUND, JIRA_BOARD_NOT_FOUND
  | JIRA_SPRINT_NOT_FOUND, JIRA_SPRINT_NOT_FOUND
  | JIRA_ISSUE_NOT_FOUND, JIRA_ISSUE_NOT_FOUND
  | JIRA_PROJECT_NOT_FOUND, JIRA_PROJECT_NOT_FOUND
  | JIRA_PERMISSION_DENIED, JIRA_PERMISSION_DENIED
  | SLACK_CHANNEL_NOT_FOUND, SLACK_CHANNEL_NOT_FOUND
  | SLACK_USER_NOT_FOUND, SLACK_USER_NOT_FOUND
  | SLACK_MESSAGE_TOO_LONG, SLACK_MESSAGE_TOO_LONG
  | SLACK_RATE_LIMITED, SLACK_RATE_LIMITED
  | UNKNOWN_TOOL, UNKNOWN_TOOL | INTERNAL_ERROR, INTERNAL_ERROR => true
  | _, _ => false
  end.

(** The subclasses of [BaseError]. *)
Inductive ErrorClass : Type :=
  | ClsConfigError | ClsValidationError | ClsApiError | ClsJiraError
  | ClsSlackError.

(** [e instanceof ApiError]: [JiraError] and [SlackError] extend [ApiError]. *)
Definition instanceofApiError (c : ErrorClass) : bool :=
  match c with
  | ClsApiError | ClsJiraError | ClsSlackError => true
  | ClsConfigError | ClsValidationError => false
  end.

(** The [context] objects the code attaches to its errors. *)
Inductive ErrorContext : Type :=
  | CtxBoardId (boardId : Z)
  | CtxIssueKey (issueKey : string)
  | CtxResource (resource : string)
  | CtxRequest (baseURL : option string) (timeout : option Z).

Module BaseError.
Record t : Type := mk {
    cls : ErrorClass;
    message : string;
    code : ErrorCode;
    statusCode : option Z;
    timestamp : Z;
    context : option ErrorContext;
    endpoint : option string;
    method : option string
  }.
End BaseError.

(** What a [throw] can carry in this code base: an instance of [BaseError],
    a standard [Error] (a [TypeError], the [ValidationError] of
    [validation.ts], which extends [Error] and not [BaseError], an error of
    the PDF engine), or [undefined] ([RetryHelper.retry] throws its
    [lastError], which starts undefined). *)
Inductive Thrown : Type :=
  | ThrownBase (e : BaseError.t)
  | ThrownError (name message : string)
  | ThrownUndefined.

(** The body of a failed HTTP response, as [fromAxiosError] reads it. *)
Module ErrorBody.
Record t : Type := mk {
    errorMessages : option (list string);
    message : option string;
    error : option string
  }.
End ErrorBody.

Module AxiosError.
Record t : Type := mk {
    status : option Z;
    data : option ErrorBody.t;
    url : option string;
    method : option string;
    baseURL : option string;
    timeout : option Z
  }.
End AxiosError.

(* ================================================================== *)
(** * Data model ([src/types/index.ts]) *)
(* ================================================================== *)

Module Sprint.
Record t : Type := mk { id : Z; name : string }.
End Sprint.

Module Assignee.
Record t : Type := mk {
    displayName : option string;
    emailAddress : option string
  }.
End Assignee.

(** The [body] of a comment: a string, an Atlassian document seen through
    [content?.[0]?.content?.[0]?.text], or anything else. *)
Inductive CommentBody : Type :=
  | BodyAbsent
  | BodyString (s : string)
  | BodyDocument (text : option string)
  | BodyOther.

Module Comment.
Record t : Type := mk {
    author : option string;
    created : option string;
    body : CommentBody
  }.
End Comment.

(** A raw issue; every field the code reads through [?.] is optional. *)
Module JiraIssue.
Record t : Type := mk {
    key : string;
    summary : option string;
    status : option string;
    assignee : option Assignee.t;
    updated : option string;
    created : option string;
    duedate : option string;
    priority : option string;
    labels : option (list string);
    project : option string;
    comments : option (list Comment.t)
  }.
End JiraIssue.

Module LastComment.
Record t : Type := mk { author : string; created : string; body : string }.
End LastComment.

Module IssueData.
Record t : Type := mk {
    key : string;
    summary : string;
    status : string;
    assignee : string;
    assigneeEmail : option string;
    updated : string;
    duedate : option string;
    priority : string;
    daysSinceUpdate : number;
    url : string;
    labels : list string;
    lastComment : option LastComment.t
  }.
End IssueData.

Inductive Category : Type := stale | overdue | unassigned | blocked.

Definition Category_eqb (a b : Category) : bool :=
  match a, b with
  | stale, stale | overdue, overdue | unassigned, unassigned
  | blocked, blocked => true
  | _, _ => false
  end.

(** [categories.includes(c)]. *)
Definition hasCategory (cs : list Category) (c : Category) : bool :=
  existsb (Category_eqb c) cs.

Module CategorizedIssue.
Record t : Type := mk {
    data : IssueData.t;
    categories : list Category
  }.
End CategorizedIssue.

Module AssigneeReport.
Record t : Type := mk {
    name : string;
    email : option string;
    issues : list IssueData.t;
    staleCount : Z;
    overdueCount : Z
  }.
End AssigneeReport.

Module SprintSummary.
Record t : Type := mk {
    totalSprintIssues : Z;
    completedIssues : Z;
    inProgressIssues : Z;
    todoIssues : Z;
    projectFiltered : bool;
    projectKey : option string
  }.
End SprintSummary.

Module StandupReport.
Record t : Type := mk {
    sprintName : string;
    sprintId : Z;
    date : string;
    staleIssues : list IssueData.t;
    overdueIssues : list IssueData.t;
    unassignedIssues : list IssueData.t;
    blockedIssues : list IssueData.t;
    byAssignee : gmap string AssigneeReport.t;
    summary : SprintSummary.t
  }.
End StandupReport.

Inductive StatusCategory : Type := completed | inProgress | todo.

(* ================================================================== *)
(** * Issue classifier ([src/jira-handler.ts]) *)
(* ================================================================== *)

Section Classifier.
Context `{Runtime}.

  (** [extractCommentText]. *)
Definition extractCommentText (commentBody : CommentBody) : string :=
    match commentBody with
    | BodyAbsent => "No text content"
    | BodyString EmptyString => "No text content"
    | BodyString s => substring0 200 s
    | BodyDocument (Some EmptyString) => "No text content"
    | BodyDocument (Some text) => substring0 200 text
    | BodyDocument None => "No text content"
    | BodyOther => "No text content"
    end.

  (** [categorizeStatus]. *)
Definition categorizeStatus (status : string) : StatusCategory :=
    let statusLower := toLowerCase status in
    if String.eqb statusLower "done" || String.eqb statusLower "closed"
       || String.eqb statusLower "resolved"
    then completed
    else if includes statusLower "progress" || includes statusLower "review"
            || includes statusLower "testing"
    then inProgress
    else todo.

Definition msPerDay : Z := 1000 * 60 * 60 * 24.

  (** [Math.floor((new Date().getTime() - new Date(updated).getTime()) / msPerDay)],
      or 0 when [updated] is empty. *)
Definition computeDaysSinceUpdate (now : Z) (updated : string) : number :=
    match updated with
    | EmptyString => Num 0
    | _ => match dateParse updated with
           | Some t => Num ((now - t) / msPerDay)
           | None => NaN
           end
    end.

  (** [duedate && new Date(duedate) < new Date()]. *)
Definition isOverdue (now : Z) (duedate : option string) : bool :=
    match duedate with
    | Some d => match dateParse d with
                | Some t => t <? now
                | None => false
                end
    | None => false
    end.

  (** The last comment of the issue, if it has one. *)
Definition extractLastComment (comments : option (list Comment.t))
    : option LastComment.t :=
    match comments with
    | Some cs =>
        match last (cs : list Comment.t) with
        | Some comment =>
            Some {| LastComment.author := strOr (Comment.author comment) "Unknown";
                    LastComment.created := strOr (Comment.created comment) "";
                    LastComment.body := extractCommentText (Comment.body comment) |}
        | None => None
        end
    | None => None
    end.

  (** The category list of [processIssue], in the order of its pushes. *)
Definition computeCategories (now : Z) (issue : JiraIssue.t) (status : string)
      (daysSinceUpdate : number) (duedate : option string) (daysStale : Z)
    : list Category :=
    let statusLower := toLowerCase status in
    match categorizeStatus status with
    | completed => []
    | _ =>
        (if number_gtb daysSinceUpdate daysStale then [stale] else [])
        ++ (if isOverdue now duedate then [overdue] else [])
        ++ (match JiraIssue.assignee issue with
            | None => [unassigned]
            | Some _ => []
            end)
        ++ (let labels := default [] (JiraIssue.labels issue) in
            if arrayIncludes labels "blocked"
               || arrayIncludes labels "impediment"
               || includes statusLower "blocked"
            then [blocked] else [])
    end.

  (** [processIssue], run at clock value [now]. *)
Definition processIssue (now : Z) (issue : JiraIssue.t) (baseUrl : string)
      (daysStale : Z) : CategorizedIssue.t :=
    let status := strOr (JiraIssue.status issue) "Unknown" in
    let updated :=
      strOr (JiraIssue.updated issue) (strOr (JiraIssue.created issue) "") in
    let duedate := strOrNull (JiraIssue.duedate issue) in
    let daysSinceUpdate := computeDaysSinceUpdate now updated in
    let lastComment := extractLastComment (JiraIssue.comments issue) in
    let categories :=
      computeCategories now issue status daysSinceUpdate duedate daysStale in
    {| CategorizedIssue.data :=
         {| IssueData.key := JiraIssue.key issue;
            IssueData.summary := strOr (JiraIssue.summary issue) "No summary";
            IssueData.status := status;
            IssueData.assignee :=
              strOr (JiraIssue.assignee issue ≫= Assignee.displayName)
                    "Unassigned";
            IssueData.assigneeEmail :=
              strOrNull (JiraIssue.assignee issue ≫= Assignee.emailAddress);
            IssueData.updated := updated;
            IssueData.duedate := duedate;
            IssueData.priority := strOr (JiraIssue.priority issue) "None";
            IssueData.daysSinceUpdate := daysSinceUpdate;
            IssueData.url := baseUrl ++ "/browse/" ++ JiraIssue.key issue;
            IssueData.labels := default [] (JiraIssue.labels issue);
            IssueData.lastComment := lastComment |};
       CategorizedIssue.categories := categories |}.

End Classifier.

(* ================================================================== *)
(** * Standup report builder ([handleJiraTool], case
      [jira_daily_standup_report], after the fetch) *)
(* ================================================================== *)

(** The property names every object literal inherits from
    [Object.prototype]; [report.byAssignee[k]] is truthy for them although
    the report never created the bucket. *)
Definition objectPrototypeKeys : list string :=
  [ "constructor"; "__proto__"; "hasOwnProperty"; "isPrototypeOf";
    "propertyIsEnumerable"; "toLocaleString"; "toString"; "valueOf";
    "__defineGetter__"; "__defineSetter__"; "__lookupGetter__";
    "__lookupSetter__" ].

Definition inheritedKey (k : string) : bool := arrayIncludes objectPrototypeKeys k.

(** [Array.prototype.sort(compare)]: the sort is stable, and a comparator
    result of [NaN] counts as 0. For a consistent comparator the result
    does not depend on the algorithm; the model inserts the elements one
    by one, from the last to the first. *)
Definition compareValue (n : number) : Z :=
  match n with
  | NaN => 0
  | Num z => z
  end.

Fixpoint sortInsert {A : Type} (compare : A -> A -> number) (x : A) (l : list A)
  : list A :=
  match l with
  | [] => [x]
  | y :: rest =>
      if compareValue (compare x y) <=? 0 then x :: y :: rest
      else y :: sortInsert compare x rest
  end.

Definition arraySort {A : Type} (compare : A -> A -> number) (l : list A)
  : list A :=
  foldr (sortInsert compare) [] l.

(** [x - y] on numbers. *)
Definition number_sub (x y : number) : number :=
  match x, y with
  | Num a, Num b => Num (a - b)
  | _, _ => NaN
  end.

Section Builder.
Context `{Runtime}.

  (** [(a, b) => b.daysSinceUpdate - a.daysSinceUpdate]. *)
Definition compareStale (a b : IssueData.t) : number :=
    number_sub (IssueData.daysSinceUpdate b) (IssueData.daysSinceUpdate a).

  (** [(a, b) => (a.duedate || '').localeCompare(b.duedate || '')]. *)
Definition compareOverdue (a b : IssueData.t) : number :=
    Num (localeCompare (strOr (IssueData.duedate a) "")
                       (strOr (IssueData.duedate b) "")).

  (** The report before the first issue is processed. *)
Definition initialReport (now : Z) (activeSprint : Sprint.t)
      (projectKey : option string) : StandupReport.t :=
    {| StandupReport.sprintName := Sprint.name activeSprint;
       StandupReport.sprintId := Sprint.id activeSprint;
       StandupReport.date := isoDate now;
       StandupReport.staleIssues := [];
       StandupReport.overdueIssues := [];
       StandupReport.unassignedIssues := [];
       StandupReport.blockedIssues := [];
       StandupReport.byAssignee := ∅;
       StandupReport.summary :=
         {| SprintSummary.totalSprintIssues := 0;
            SprintSummary.completedIssues := 0;
            SprintSummary.inProgressIssues := 0;
            SprintSummary.todoIssues := 0;
            SprintSummary.projectFiltered :=
              match strOrNull projectKey with Some _ => true | None => false end;
            SprintSummary.projectKey := strOrNull projectKey |} |}.

  (** [validatedArgs.projectKey && issue.fields?.project?.key !== validatedArgs.projectKey]. *)
Definition filteredOut (projectKey : option string) (issue : JiraIssue.t)
    : bool :=
    match strOrNull projectKey with
    | Some pk =>
        match JiraIssue.project issue with
        | Some k => negb (String.eqb k pk)
        | None => true
        end
    | None => false
    end.

Definition pushIf {A : Type} (b : bool) (l : list A) (x : A) : list A :=
    if b then l ++ [x] else l.

Definition incrIf (b : bool) (n : Z) : Z := if b then n + 1 else n.

Definition bumpSummary (s : SprintSummary.t) (c : StatusCategory)
    : SprintSummary.t :=
    {| SprintSummary.totalSprintIssues := SprintSummary.totalSprintIssues s + 1;
       SprintSummary.completedIssues :=
         incrIf (match c with completed => true | _ => false end)
                (SprintSummary.completedIssues s);
       SprintSummary.inProgressIssues :=
         incrIf (match c with inProgress => true | _ => false end)
                (SprintSummary.inProgressIssues s);
       SprintSummary.todoIssues :=
         incrIf (match c with todo => true | _ => false end)
                (SprintSummary.todoIssues s);
       SprintSummary.projectFiltered := SprintSummary.projectFiltered s;
       SprintSummary.projectKey := SprintSummary.projectKey s |}.

Definition withSummary (report : StandupReport.t) (s : SprintSummary.t)
    : StandupReport.t :=
    {| StandupReport.sprintName := StandupReport.sprintName report;
       StandupReport.sprintId := StandupReport.sprintId report;
       StandupReport.date := StandupReport.date report;
       StandupReport.staleIssues := StandupReport.staleIssues report;
       StandupReport.overdueIssues := StandupReport.overdueIssues report;
       StandupReport.unassignedIssues := StandupReport.unassignedIssues report;
       StandupReport.blockedIssues := StandupReport.blockedIssues report;
       StandupReport.byAssignee := StandupReport.byAssignee report;
       StandupReport.summary := s |}.

  (** The "group by assignee" block: look the bucket up (creating it on
      first encounter), push the issue and count its categories. For a key
      that [Object.prototype] already answers, the bucket is not created and
      [.issues.push] fails with a [TypeError]. *)
Definition groupByAssignee (m : gmap string AssigneeReport.t)
      (p : CategorizedIssue.t) : Thrown + gmap string AssigneeReport.t :=
    let issueData := CategorizedIssue.data p in
    let categories := CategorizedIssue.categories p in
    let assigneeKey := IssueData.assignee issueData in
    let add (bucket : AssigneeReport.t) :=
      {| AssigneeReport.name := AssigneeReport.name bucket;
         AssigneeReport.email := AssigneeReport.email bucket;
         AssigneeReport.issues := AssigneeReport.issues bucket ++ [issueData];
         AssigneeReport.staleCount :=
           incrIf (hasCategory categories stale) (AssigneeReport.staleCount bucket);
         AssigneeReport.overdueCount :=
           incrIf (hasCategory categories overdue)
                  (AssigneeReport.overdueCount bucket) |} in
    match m !! assigneeKey with
    | Some bucket => inr (<[assigneeKey := add bucket]> m)
    | None =>
        if inheritedKey assigneeKey
        then inl (ThrownError "TypeError"
                    "Cannot read properties of undefined (reading 'push')")
        else inr (<[assigneeKey :=
                     add {| AssigneeReport.name := assigneeKey;
                            AssigneeReport.email := IssueData.assigneeEmail issueData;
                            AssigneeReport.issues := [];
                            AssigneeReport.staleCount := 0;
                            AssigneeReport.overdueCount := 0 |}]> m)
    end.

  (** The body of [issues.forEach]. *)
Definition processOne (now : Z) (projectKey : option string) (daysStale : Z)
      (report : StandupReport.t) (issue : JiraIssue.t)
    : Thrown + StandupReport.t :=
    if filteredOut projectKey issue then inr report
    else
      let processedIssue := processIssue now issue jiraBaseUrl daysStale in
      let issueData := CategorizedIssue.data processedIssue in
      let categories := CategorizedIssue.categories processedIssue in
      let statusCategory := categorizeStatus (IssueData.status issueData) in
      let summary' := bumpSummary (StandupReport.summary report) statusCategory in
      match statusCategory with
      | completed => inr (withSummary report summary')
      | _ =>
          match groupByAssignee (StandupReport.byAssignee report) processedIssue with
          | inl e => inl e
          | inr byAssignee' =>
              inr {| StandupReport.sprintName := StandupReport.sprintName report;
                     StandupReport.sprintId := StandupReport.sprintId report;
                     StandupReport.date := StandupReport.date report;
                     StandupReport.staleIssues :=
                       pushIf (hasCategory categories stale)
                              (StandupReport.staleIssues report) issueData;
                     StandupReport.overdueIssues :=
                       pushIf (hasCategory categories overdue)
                              (StandupReport.overdueIssues report) issueData;
                     StandupReport.unassignedIssues :=
                       pushIf (hasCategory categories unassigned)
                              (StandupReport.unassignedIssues report) issueData;
                     StandupReport.blockedIssues :=
                       pushIf (hasCategory categories blocked)
                              (StandupReport.blockedIssues report) issueData;
                     StandupReport.byAssignee := byAssignee';
                     StandupReport.summary := summary' |}
          end
      end.

  (** [issues.forEach(...)]: the first exception ends the loop. *)
Fixpoint processAll (now : Z) (projectKey : option string) (daysStale : Z)
      (report : StandupReport.t) (issues : list JiraIssue.t)
    : Thrown + StandupReport.t :=
    match issues with
    | [] => inr report
    | issue :: rest =>
        match processOne now projectKey daysStale report issue with
        | inl e => inl e
        | inr report' => processAll now projectKey daysStale report' rest
        end
    end.

  (** The two [sort] calls. *)
Definition sortReport (report : StandupReport.t) : StandupReport.t :=
    {| StandupReport.sprintName := StandupReport.sprintName report;
       StandupReport.sprintId := StandupReport.sprintId report;
       StandupReport.date := StandupReport.date report;
       StandupReport.staleIssues :=
         arraySort compareStale (StandupReport.staleIssues report);
       StandupReport.overdueIssues :=
         arraySort compareOverdue (StandupReport.overdueIssues report);
       StandupReport.unassignedIssues := StandupReport.unassignedIssues report;
       StandupReport.blockedIssues := StandupReport.blockedIssues report;
       StandupReport.byAssignee := StandupReport.byAssignee report;
       StandupReport.summary := StandupReport.summary report |}.

  (** From "Initialize report" to the end of the sorting: the report that
      the handler caches and returns. *)
Definition buildReport (now : Z) (activeSprint : Sprint.t)
      (issues : list JiraIssue.t) (projectKey : option string) (daysStale : Z)
    : Thrown + StandupReport.t :=
    match processAll now projectKey daysStale
            (initialReport now activeSprint projectKey) issues with
    | inl e => inl e
    | inr report => inr (sortReport report)
    end.

End Builder.

(* ================================================================== *)
(** * Cache store ([src/utils/cache.ts]) *)
(* ================================================================== *)

(** What the handler keeps in [sprintCache]: a sprint, the issues of a
    sprint, or a finished report. All of them are truthy. *)
Inductive JsData : Type :=
  | DSprint (s : Sprint.t)
  | DIssues (l : list JiraIssue.t)
  | DReport (r : StandupReport.t).

Module CacheEntry.
Record t : Type := mk { data : JsData; expiry : Z; key : string }.
End CacheEntry.

Module CacheManager.

  (** The [Map] of a cache, in insertion order, with its counters and its
      configuration. *)
Record t : Type := mk {
    cache : list (string * CacheEntry.t);
    defaultTTL : Z;
    maxSize : Z;
    prefix : option string;
    hitCount : Z;
    missCount : Z
  }.

  (** [Map.prototype.get]. *)
Fixpoint mapGet (k : string) (m : list (string * CacheEntry.t))
    : option CacheEntry.t :=
    match m with
    | [] => None
    | (k', e) :: rest => if String.eqb k' k then Some e else mapGet k rest
    end.

  (** [Map.prototype.delete]; a [Map] holds a key at most once. *)
Definition mapDelete (k : string) (m : list (string * CacheEntry.t))
    : list (string * CacheEntry.t) :=
    List.filter (fun kv => negb (String.eqb (fst kv) k)) m.

  (** [Map.prototype.set]: an existing key keeps its place, a new key goes
      last. *)
Fixpoint mapSet (k : string) (v : CacheEntry.t)
      (m : list (string * CacheEntry.t)) : list (string * CacheEntry.t) :=
    match m with
    | [] => [(k, v)]
    | (k', e) :: rest =>
        if String.eqb k' k then (k, v) :: rest else (k', e) :: mapSet k v rest
    end.

Definition withCache (c : t) (m : list (string * CacheEntry.t)) : t :=
    {| cache := m; defaultTTL := defaultTTL c; maxSize := maxSize c;
       prefix := prefix c; hitCount := hitCount c; missCount := missCount c |}.

  (** [getFullKey]. *)
Definition getFullKey (c : t) (key : string) : string :=
    match strOrNull (prefix c) with
    | Some p => p ++ ":" ++ key
    | None => key
    end.

  (** The scan of [evictOldest]: the first entry whose expiry is strictly
      below every expiry before it; [None] is the initial [Infinity]. *)
Fixpoint oldest (m : list (string * CacheEntry.t))
      (oldestKey : option string) (oldestExpiry : option Z) : option string :=
    match m with
    | [] => oldestKey
    | (k, e) :: rest =>
        let smaller := match oldestExpiry with
                       | None => true
                       | Some x => CacheEntry.expiry e <? x
                       end in
        if smaller then oldest rest (Some k) (Some (CacheEntry.expiry e))
        else oldest rest oldestKey oldestExpiry
    end.

  (** [evictOldest]. *)
Definition evictOldest (c : t) : t :=
    match strOrNull (oldest (cache c) None None) with
    | Some k => withCache c (mapDelete k (cache c))
    | None => c
    end.

  (** [set], at clock value [now]; [ttlSeconds || this.defaultTTL]. *)
Definition set (now : Z) (c : t) (key : string) (data : JsData)
      (ttlSeconds : option Z) : t :=
    let ttl := match ttlSeconds with
               | Some 0 => defaultTTL c
               | Some s => s
               | None => defaultTTL c
               end in
    let fullKey := getFullKey c key in
    let c1 :=
      if (maxSize c <=? Z.of_nat (length (cache c)))
         && negb (bool_decide (is_Some (mapGet fullKey (cache c))))
      then evictOldest c else c in
    withCache c1
      (mapSet fullKey
         {| CacheEntry.data := data;
            CacheEntry.expiry := now + ttl * 1000;
            CacheEntry.key := fullKey |}
         (cache c1)).

  (** [get], at clock value [now]. *)
Definition get (now : Z) (c : t) (key : string) : option JsData * t :=
    let fullKey := getFullKey c key in
    match mapGet fullKey (cache c) with
    | None =>
        (None, {| cache := cache c; defaultTTL := defaultTTL c;
                  maxSize := maxSize c; prefix := prefix c;
                  hitCount := hitCount c; missCount := missCount c + 1 |})
    | Some entry =>
        if CacheEntry.expiry entry <? now
        then (None, {| cache := mapDelete fullKey (cache c);
                       defaultTTL := defaultTTL c; maxSize := maxSize c;
                       prefix := prefix c; hitCount := hitCount c;
                       missCount := missCount c + 1 |})
        else (Some (CacheEntry.data entry),
              {| cache := cache c; defaultTTL := defaultTTL c;
                 maxSize := maxSize c; prefix := prefix c;
                 hitCount := hitCount c + 1; missCount := missCount c |})
    end.

  (** [delete]. *)
Definition delete (c : t) (key : string) : t :=
    withCache c (mapDelete (getFullKey c key) (cache c)).

  (** [has]: [this.get(key) !== null]; the read counts as a hit or a miss
      and removes an expired entry. *)
Definition has (now : Z) (c : t) (key : string) : bool * t :=
    let '(data, c') := get now c key in
    (match data with Some _ => true | None => false end, c').

  (** [clear]. *)
Definition clear (c : t) : t :=
    {| cache := []; defaultTTL := defaultTTL c; maxSize := maxSize c;
       prefix := prefix c; hitCount := 0; missCount := 0 |}.

  (** [cleanup], at clock value [now]: every entry with [now > expiry]
      goes. *)
Definition cleanup (now : Z) (c : t) : t :=
    withCache c
      (List.filter (fun kv => negb (CacheEntry.expiry (snd kv) <? now)) (cache c)).

  (** [CacheFactory.getCache('sprint', { ttl: 600 })], freshly created. *)
Definition newSprintCache : t :=
    {| cache := []; defaultTTL := 600; maxSize := 1000;
       prefix := Some "sprint"; hitCount := 0; missCount := 0 |}.

End CacheManager.

(** [CacheKeys]. *)
Module CacheKeys.
Section Keys.
Context `{Runtime}.

Definition sprint (boardId : Z) : string := "sprint:" ++ numToString boardId.

Definition sprintIssues (sprintId : Z) : string :=
      "sprint-issues:" ++ numToString sprintId.

Definition issue (issueKey : string) : string := "issue:" ++ issueKey.

Definition standupReport (boardId : Z) (projectKey : option string)
      : string :=
      match strOrNull projectKey with
      | Some pk => "standup:" ++ numToString boardId ++ ":" ++ pk
      | None => "standup:" ++ numToString boardId
      end.
End Keys.
End CacheKeys.

(* ================================================================== *)
(** * Responses *)
(* ================================================================== *)

(** [ErrorResponse.details]. *)
Inductive Details : Type :=
  | DetailsBase (code : ErrorCode) (timestamp : Z) (context : option ErrorContext)
  | DetailsText (s : string)
  | DetailsStack (name : string)
  | DetailsAbsent.

Module ErrorResponse.
Record t : Type := mk {
    error : string;
    tool : string;
    status : option Z;
    details : Details
  }.
End ErrorResponse.

Module RetryOptions.
Record t : Type := mk {
    maxAttempts : option Z;
    initialDelay : option Z;
    maxDelay : option Z;
    factor : option Z;
    shouldRetry : option (Thrown -> Z -> bool)
  }.
Definition empty : t := mk None None None None None.
End RetryOptions.


(** An untyped argument value, as a tool call receives it. A number is
    either an integer or some other number (a fraction, [NaN], an
    infinity); the schemas below only accept integers. *)
Inductive JsValue : Type :=
  | VUndefined
  | VNull
  | VBool (b : bool)
  | VInt (z : Z)
  | VNumber
  | VString (s : string)
  | VArray (l : list JsValue)
  | VObject (fields : list (string * JsValue)).

(** A value in the tallies of [jira_get_sprint_issues], which are object
    literals: a count, or, under a name that [Object.prototype] answers,
    the text of the inherited member followed by [ones] digits 1 (a
    function plus the number 1 is the concatenation of their texts). *)
Inductive Tally : Type :=
  | Count (n : Z)
  | MemberText (member : string) (ones : nat).

(** The documents the handler serialises with [JSON.stringify] into the
    text of its response. *)
Inductive Payload : Type :=
  | PText (text : string)
  | PSearchUnavailable
  | PSprintIssues (sprintName : string) (totalIssues : Z)
      (byStatus byAssignee : gmap string Tally) (summary : SprintSummary.t)
  | PData (d : JsData)
  | PPdf (filePath : string) (sprint date : string)
      (totalIssues overdueCount staleCount : Z)
  | PError (e : ErrorResponse.t).

(* ================================================================== *)
(** * The world of a tool call *)
(* ================================================================== *)

(** Requests to the issue tracker. *)
Module CreateFields.
Record t : Type := mk {
    project : string;
    summary : string;
    description : string;
    issueType : string;
    priority : option string;
    assignee : option string
  }.
End CreateFields.

Inductive Request : Type :=
  | GetBoardSprints (boardId : Z)
  | GetSprintIssues (sprintId : Z) (startAt maxResults : Z)
  | PostIssue (fields : CreateFields.t)
  | PutIssue (issueKey : string) (fields : list (string * JsValue)).

(** The [data] of a successful response. *)
Module ResponseData.
Record t : Type := mk {
    values : option (list Sprint.t);
    issues : option (list JiraIssue.t);
    total : option Z;
    key : option string
  }.
End ResponseData.

Inductive Event : Type :=
  | EvRequest (r : Request)
  | EvSleep (ms : Z)
  | EvRender (reportData : Payload) (outputPath : option string).

Module World.
Record t : Type := mk {
    clock : Z;
    sprintCache : CacheManager.t;
    trace : list Event
  }.
End World.

(** The collaborators outside the process: the issue tracker answers a
    request, given everything that happened before ([trace]) and the time,
    after some latency, with data or with a failure; the PDF engine returns
    a path or fails. *)
Class Upstream : Type := {
  respond : list Event -> Z -> Request -> Z * (AxiosError.t + ResponseData.t);
  render : list Event -> Z -> Payload -> option string -> Z * (Thrown + string)
}.

(** The result of running a piece of the handler: a value, an exception, or
    no answer within the page budget of the pagination loop. *)
Inductive Outcome (A : Type) : Type :=
  | Returned (a : A)
  | Threw (e : Thrown)
  | Diverged.
Arguments Returned {A} a.
Arguments Threw {A} e.
Arguments Diverged {A}.

Definition M (A : Type) : Type := World.t -> Outcome A * World.t.

Definition ret {A : Type} (a : A) : M A := fun w => (Returned a, w).

Definition bind {A B : Type} (m : M A) (k : A -> M B) : M B :=
  fun w =>
    match m w with
    | (Returned a, w') => k a w'
    | (Threw e, w') => (Threw e, w')
    | (Diverged, w') => (Diverged, w')
    end.

Definition throw {A : Type} (e : Thrown) : M A := fun w => (Threw e, w).

(** [try { body } catch (error) { handler(error) }]. *)
Definition tryCatch {A : Type} (body : M A) (handler : Thrown -> M A) : M A :=
  fun w =>
    match body w with
    | (Threw e, w') => handler e w'
    | r => r
    end.

#[global] Instance M_ret : MRet M := @ret.
#[global] Instance M_bind : MBind M := fun A B k m => bind m k.

(** [Date.now()]. *)
Definition now : M Z := fun w => (Returned (World.clock w), w).

(** [await new Promise(resolve => setTimeout(resolve, delay))]; the timer
    is taken to fire on time. *)
Definition sleep (delay : Z) : M unit :=
  fun w =>
    (Returned tt,
     {| World.clock := World.clock w + delay;
        World.sprintCache := World.sprintCache w;
        World.trace := World.trace w ++ [EvSleep delay] |}).

(** [sprintCache.get(key)]. *)
Definition cacheGet (key : string) : M (option JsData) :=
  fun w =>
    let '(r, c) := CacheManager.get (World.clock w) (World.sprintCache w) key in
    (Returned r,
     {| World.clock := World.clock w; World.sprintCache := c;
        World.trace := World.trace w |}).

(** [sprintCache.set(key, data, ttlSeconds)]. *)
Definition cacheSet (key : string) (data : JsData) (ttlSeconds : Z) : M unit :=
  fun w =>
    (Returned tt,
     {| World.clock := World.clock w;
        World.sprintCache :=
          CacheManager.set (World.clock w) (World.sprintCache w) key data
                           (Some ttlSeconds);
        World.trace := World.trace w |}).

(** [sprintCache.delete(key)]. *)
Definition cacheDelete (key : string) : M unit :=
  fun w =>
    (Returned tt,
     {| World.clock := World.clock w;
        World.sprintCache := CacheManager.delete (World.sprintCache w) key;
        World.trace := World.trace w |}).

(** [this.set(key, data, ttlSeconds)] with an optional time to live. *)
Definition cacheSetWith (key : string) (data : JsData) (ttlSeconds : option Z)
  : M unit :=
  fun w =>
    (Returned tt,
     {| World.clock := World.clock w;
        World.sprintCache :=
          CacheManager.set (World.clock w) (World.sprintCache w) key data
                           ttlSeconds;
        World.trace := World.trace w |}).

(** [sprintCache.getOrSet(key, factory, ttlSeconds)]: the cached value if
    the read answers one, else the value of [factory], stored before it is
    returned. *)
Definition getOrSet (key : string) (factory : M JsData) (ttlSeconds : option Z)
  : M JsData :=
  cached ← cacheGet key;
  match cached with
  | Some data => mret data
  | None =>
      data ← factory;
      _ ← cacheSetWith key data ttlSeconds;
      mret data
  end.

(** The page budget of the pagination loop is used up. *)
Definition diverge {A : Type} : M A := fun w => (Diverged, w).

(* ================================================================== *)
(** * Errors and retries ([src/utils/errors.ts]) *)
(* ================================================================== *)

Module ApiError.
Section WithRuntime.
Context `{Runtime}.

(** The [switch] on the status code in [fromAxiosError]: the error code
    and the message, [bodyMessage] being the message of the [default]
    branch. *)
Definition classifyStatus (statusCode : option Z) (bodyMessage : string)
  : ErrorCode * string :=
  match statusCode with
  | Some 401 => (API_UNAUTHORIZED, "Authentication failed")
  | Some 404 => (API_NOT_FOUND, "Resource not found")
  | Some 429 => (API_RATE_LIMIT, "Rate limit exceeded")
  | Some 408 | Some 504 => (API_TIMEOUT, "Request timed out")
  | _ => (API_ERROR, bodyMessage)
  end.

(** The message the [default] branch extracts from the response body. *)
Definition bodyMessage (data : option ErrorBody.t) : string :=
  match data with
  | Some data =>
      match ErrorBody.errorMessages data with
      | Some (m :: ms) => join ", " (m :: ms)
      | _ =>
          match strOrNull (ErrorBody.message data) with
          | Some m => m
          | None =>
              match strOrNull (ErrorBody.error data) with
              | Some m => m
              | None => "API request failed"
              end
          end
      end
  | None => "API request failed"
  end.

(** [ApiError.fromAxiosError(error)], without a custom message, built at
    clock value [timestamp]. *)
Definition fromAxiosError (timestamp : Z) (error : AxiosError.t)
  : BaseError.t :=
  let statusCode := AxiosError.status error in
  let classified :=
    classifyStatus statusCode (bodyMessage (AxiosError.data error)) in
  {| BaseError.cls := ClsApiError;
     BaseError.message := snd classified;
     BaseError.code := fst classified;
     BaseError.statusCode := statusCode;
     BaseError.timestamp := timestamp;
     BaseError.context :=
       Some (CtxRequest (AxiosError.baseURL error) (AxiosError.timeout error));
     BaseError.endpoint := AxiosError.url error;
     BaseError.method := toUpperCase <$> AxiosError.method error |}.

End WithRuntime.
End ApiError.

Module JiraError.
Section WithRuntime.
Context `{Runtime}.

    (** [JiraError.sprintNotFound(boardId)]. *)
Definition sprintNotFound (timestamp : Z) (boardId : Z) : BaseError.t :=
      {| BaseError.cls := ClsJiraError;
         BaseError.message :=
           "No active sprint found for board " ++ numToString boardId;
         BaseError.code := JIRA_SPRINT_NOT_FOUND;
         BaseError.statusCode := Some 404;
         BaseError.timestamp := timestamp;
         BaseError.context := Some (CtxBoardId boardId);
         BaseError.endpoint := None;
         BaseError.method := None |}.

    (** [JiraError.boardNotFound(boardId)]. *)
Definition boardNotFound (timestamp : Z) (boardId : Z) : BaseError.t :=
      {| BaseError.cls := ClsJiraError;
         BaseError.message :=
           "Board with ID " ++ numToString boardId ++ " not found";
         BaseError.code := JIRA_BOARD_NOT_FOUND;
         BaseError.statusCode := Some 404;
         BaseError.timestamp := timestamp;
         BaseError.context := Some (CtxBoardId boardId);
         BaseError.endpoint := None;
         BaseError.method := None |}.

    (** [JiraError.issueNotFound(issueKey)]. *)
Definition issueNotFound (timestamp : Z) (issueKey : string) : BaseError.t :=
      {| BaseError.cls := ClsJiraError;
         BaseError.message := "Issue " ++ issueKey ++ " not found";
         BaseError.code := JIRA_ISSUE_NOT_FOUND;
         BaseError.statusCode := Some 404;
         BaseError.timestamp := timestamp;
         BaseError.context := Some (CtxIssueKey issueKey);
         BaseError.endpoint := None;
         BaseError.method := None |}.

    (** [JiraError.permissionDenied(resource)]. *)
Definition permissionDenied (timestamp : Z) (resource : string) : BaseError.t :=
      {| BaseError.cls := ClsJiraError;
         BaseError.message := "Permission denied for " ++ resource;
         BaseError.code := JIRA_PERMISSION_DENIED;
         BaseError.statusCode := Some 403;
         BaseError.timestamp := timestamp;
         BaseError.context := Some (CtxResource resource);
         BaseError.endpoint := None;
         BaseError.method := None |}.

End WithRuntime.
End JiraError.

Section ToResponse.
Context `{Runtime}.

  (** [BaseError.toResponse(tool)]; [tool || 'unknown']. *)
Definition toResponse (e : BaseError.t) (tool : string) : ErrorResponse.t :=
    {| ErrorResponse.error := BaseError.message e;
       ErrorResponse.tool := strOr (Some tool) "unknown";
       ErrorResponse.status := BaseError.statusCode e;
       ErrorResponse.details :=
         DetailsBase (BaseError.code e) (BaseError.timestamp e)
           (if development then BaseError.context e else None) |}.

End ToResponse.

Module ErrorHandler.
Section WithRuntime.
Context `{Runtime}.

    (** [ErrorHandler.handle(error, tool)]. The branch for raw Axios errors
        has no counterpart: the response interceptor of both clients turns
        them into [ApiError]s before they are thrown. *)
Definition handle (error : Thrown) (tool : string) : ErrorResponse.t :=
      match error with
      | ThrownBase e => toResponse e tool
      | ThrownError name message =>
          {| ErrorResponse.error := message;
             ErrorResponse.tool := tool;
             ErrorResponse.status := Some 500;
             ErrorResponse.details :=
               if development then DetailsStack name
               else DetailsText "An unexpected error occurred" |}
      | ThrownUndefined =>
          {| ErrorResponse.error := "An unknown error occurred";
             ErrorResponse.tool := tool;
             ErrorResponse.status := Some 500;
             ErrorResponse.details := DetailsAbsent |}
      end.

End WithRuntime.
End ErrorHandler.

Module RetryHelper.

    (** The default [shouldRetry]. *)
Definition defaultShouldRetry (error : Thrown) (attempt : Z) : bool :=
      match error with
      | ThrownBase e =>
          if instanceofApiError (BaseError.cls e)
          then
            let statusCode := default 0 (BaseError.statusCode e) in
            (500 <=? statusCode) || (statusCode =? 429)
            || ErrorCode_eqb (BaseError.code e) API_TIMEOUT
          else false
      | _ => false
      end.

Definition maxAttemptsOf (o : RetryOptions.t) : Z :=
      default 3 (RetryOptions.maxAttempts o).
Definition initialDelayOf (o : RetryOptions.t) : Z :=
      default 1000 (RetryOptions.initialDelay o).
Definition maxDelayOf (o : RetryOptions.t) : Z :=
      default 10000 (RetryOptions.maxDelay o).
Definition factorOf (o : RetryOptions.t) : Z :=
      default 2 (RetryOptions.factor o).
Definition shouldRetryOf (o : RetryOptions.t) : Thrown -> Z -> bool :=
      default defaultShouldRetry (RetryOptions.shouldRetry o).

    (** The [for] loop of [retry], from [attempt] on; [rounds] bounds the
        number of iterations left, and the loop condition is tested as in
        the source. *)
Fixpoint retryFrom {T : Type} (operation : M T) (options : RetryOptions.t)
        (rounds : nat) (attempt delay : Z) (lastError : Thrown) : M T :=
      match rounds with
      | O => throw lastError
      | S rounds' =>
          if attempt <=? maxAttemptsOf options then
            tryCatch operation
              (fun error =>
                 if (attempt =? maxAttemptsOf options)
                    || negb (shouldRetryOf options error attempt)
                 then throw error
                 else
                   _ ← sleep delay;
                   retryFrom operation options rounds' (attempt + 1)
                     (Z.min (delay * factorOf options) (maxDelayOf options))
                     error)
          else throw lastError
      end.

    (** [RetryHelper.retry(operation, options)]. *)
Definition retry {T : Type} (operation : M T) (options : RetryOptions.t)
      : M T :=
      retryFrom operation options (Z.to_nat (maxAttemptsOf options)) 1
        (initialDelayOf options) ThrownUndefined.

End RetryHelper.

(* ================================================================== *)
(** * Input validation ([src/utils/validation.ts]) *)
(* ================================================================== *)

(** [data[key]] on the fields of an object. *)
Fixpoint getField (key : string) (fields : list (string * JsValue)) : JsValue :=
  match fields with
  | [] => VUndefined
  | (k, v) :: rest => if String.eqb k key then v else getField key rest
  end.

(** [key in data]. *)
Definition hasField (key : string) (fields : list (string * JsValue)) : bool :=
  existsb (fun kv => String.eqb (fst kv) key) fields.

(** [.strict()]: no key outside the shape. *)
Definition strictKeys (shape : list string) (fields : list (string * JsValue))
  : bool :=
  forallb (fun kv => arrayIncludes shape (fst kv)) fields.

Definition allChars (p : ascii -> bool) (s : string) : bool :=
  forallb p (list_ascii_of_string s).

Definition inRange (lo hi : string) (c : ascii) : bool :=
  match lo, hi with
  | String l _, String h _ =>
      (N_of_ascii l <=? N_of_ascii c)%N && (N_of_ascii c <=? N_of_ascii h)%N
  | _, _ => false
  end.

Definition isUpper (c : ascii) : bool := inRange "A" "Z" c.
Definition isDigit (c : ascii) : bool := inRange "0" "9" c.

(** [/^[A-Z]{2,10}$/]. *)
Definition isProjectKey (s : string) : bool :=
  allChars isUpper s && (2 <=? String.length s)%nat
  && (String.length s <=? 10)%nat.

(** A character of the class [[\w\-\/\.]]. *)
Definition isPathChar (c : ascii) : bool :=
  isUpper c || inRange "a" "z" c || isDigit c
  || Ascii.eqb c "_" || Ascii.eqb c "-" || Ascii.eqb c "/" || Ascii.eqb c ".".

(** [s.endsWith(suffix)]. *)
Definition endsWith (s suffix : string) : bool :=
  (String.length suffix <=? String.length s)%nat
  && String.eqb
       (String.substring (String.length s - String.length suffix)
                         (String.length suffix) s)
       suffix.

(** [/^[\w\-\/\.]+\.pdf$/]. *)
Definition isPdfPath (s : string) : bool :=
  allChars isPathChar s && endsWith s ".pdf" && (5 <=? String.length s)%nat.

(** [/^[A-Z]{2,10}-\d+$/]. *)
Definition isIssueKey (s : string) : bool :=
  match String.index 0 "-" s with
  | Some i =>
      isProjectKey (String.substring 0 i s)
      && (let digits := String.substring (S i) (String.length s - S i) s in
          allChars isDigit digits && (1 <=? String.length digits)%nat)
  | None => false
  end.

(** [z.number().int().positive()]. *)
Definition parseBoardId (v : JsValue) : option Z :=
  match v with
  | VInt z => if 0 <? z then Some z else None
  | _ => None
  end.

(** An optional field: [undefined] is accepted as it is, anything else
    goes through the inner schema. The outer [Some] is success. *)
Definition parseOptional {A : Type} (inner : JsValue -> option A) (v : JsValue)
  : option (option A) :=
  match v with
  | VUndefined => Some None
  | _ => match inner v with
         | Some a => Some (Some a)
         | None => None
         end
  end.

(** [z.number().int().min(lo).max(hi)]. *)
Definition parseIntBetween (lo hi : Z) (v : JsValue) : option Z :=
  match v with
  | VInt z => if (lo <=? z) && (z <=? hi) then Some z else None
  | _ => None
  end.

Definition parseBool (v : JsValue) : option bool :=
  match v with
  | VBool b => Some b
  | _ => None
  end.

Definition parseStringIf (p : string -> bool) (v : JsValue) : option string :=
  match v with
  | VString s => if p s then Some s else None
  | _ => None
  end.

Definition lengthBetween (lo hi : nat) (s : string) : bool :=
  (lo <=? String.length s)%nat && (String.length s <=? hi)%nat.

Module DailyStandupReportInput.
Record t : Type := mk {
  boardId : Z;
  projectKey : option string;
  daysStale : option Z;
  includeUnassigned : option bool
}.
End DailyStandupReportInput.

(** [DailyStandupReportSchema.parse]. *)
Definition DailyStandupReportSchema (args : JsValue)
  : option DailyStandupReportInput.t :=
  match args with
  | VObject fields =>
      if strictKeys ["boardId"; "projectKey"; "daysStale"; "includeUnassigned"]
                    fields
      then
        boardId ← parseBoardId (getField "boardId" fields);
        projectKey ←
          parseOptional (parseStringIf isProjectKey) (getField "projectKey" fields);
        daysStale ←
          parseOptional (parseIntBetween 1 30) (getField "daysStale" fields);
        includeUnassigned ←
          parseOptional parseBool (getField "includeUnassigned" fields);
        Some (DailyStandupReportInput.mk boardId projectKey daysStale
                includeUnassigned)
      else None
  | _ => None
  end.

Module GenerateStandupPDFInput.
Record t : Type := mk {
  boardId : Z;
  projectKey : option string;
  daysStale : option Z;
  outputPath : option string
}.
End GenerateStandupPDFInput.

(** [GenerateStandupPDFSchema.parse]. *)
Definition GenerateStandupPDFSchema (args : JsValue)
  : option GenerateStandupPDFInput.t :=
  match args with
  | VObject fields =>
      if strictKeys ["boardId"; "projectKey"; "daysStale"; "outputPath"] fields
      then
        boardId ← parseBoardId (getField "boardId" fields);
        projectKey ←
          parseOptional (parseStringIf isProjectKey) (getField "projectKey" fields);
        daysStale ←
          parseOptional (parseIntBetween 1 30) (getField "daysStale" fields);
        outputPath ←
          parseOptional (parseStringIf isPdfPath) (getField "outputPath" fields);
        Some (GenerateStandupPDFInput.mk boardId projectKey daysStale outputPath)
      else None
  | _ => None
  end.

(** [GetSprintIssuesSchema.parse]. *)
Definition GetSprintIssuesSchema (args : JsValue) : option Z :=
  match args with
  | VObject fields =>
      if strictKeys ["boardId"] fields
      then parseBoardId (getField "boardId" fields)
      else None
  | _ => None
  end.

(** [SearchJiraIssuesSchema.parse]; the handler ignores the parsed value. *)
Definition SearchJiraIssuesSchema (args : JsValue) : option unit :=
  match args with
  | VObject fields =>
      if strictKeys ["jql"; "maxResults"] fields
      then
        _ ← parseStringIf (lengthBetween 1 2000) (getField "jql" fields);
        _ ← parseOptional (parseIntBetween 1 100) (getField "maxResults" fields);
        Some tt
      else None
  | _ => None
  end.

Definition isPriority (s : string) : bool :=
  arrayIncludes ["Highest"; "High"; "Medium"; "Low"; "Lowest"] s.

Definition isIssueType (s : string) : bool :=
  arrayIncludes ["Bug"; "Task"; "Story"; "Epic"; "Sub-task"] s.

Module UpdateJiraIssueInput.
Record t : Type := mk {
  issueKey : string;
  fields : list (string * JsValue)
}.
End UpdateJiraIssueInput.

Section Schemas.
Context `{Runtime}.

(** [CreateJiraIssueSchema.parse], with the [issueData] the handler builds
    from the parsed value ([description || ''], and [priority] and
    [assignee] only when truthy). *)
Definition CreateJiraIssueSchema (args : JsValue) : option CreateFields.t :=
  match args with
  | VObject fields =>
      if strictKeys ["project"; "summary"; "description"; "issueType";
                     "assignee"; "priority"] fields
      then
        project ← parseStringIf isProjectKey (getField "project" fields);
        summary ← parseStringIf (lengthBetween 1 255) (getField "summary" fields);
        description ←
          parseOptional (parseStringIf (lengthBetween 0 32768))
                        (getField "description" fields);
        issueType ← parseStringIf isIssueType (getField "issueType" fields);
        assignee ←
          parseOptional (parseStringIf isEmail) (getField "assignee" fields);
        priority ←
          parseOptional (parseStringIf isPriority) (getField "priority" fields);
        Some {| CreateFields.project := project;
                CreateFields.summary := summary;
                CreateFields.description := strOr description "";
                CreateFields.issueType := issueType;
                CreateFields.priority := strOrNull priority;
                CreateFields.assignee := strOrNull assignee |}
      else None
  | _ => None
  end.

(** An optional nested object with one optional string member. *)
Definition parseNamed (member : string) (p : string -> bool) (v : JsValue)
  : option unit :=
  match v with
  | VObject fs =>
      _ ← parseOptional (parseStringIf p) (getField member fs); Some tt
  | _ => None
  end.

(** What a [z.object] that is not strict keeps of an object: the members
    of its shape that the object has. *)
Definition stripTo (shape : list string) (v : JsValue) : JsValue :=
  match v with
  | VObject fs =>
      VObject (List.map (fun k => (k, getField k fs))
                        (List.filter (fun k => hasField k fs) shape))
  | _ => v
  end.

(** The parsed value of a member of [fields]: the nested objects keep the
    members of their shapes only. *)
Definition parsedUpdateField (k : string) (v : JsValue) : JsValue :=
  if String.eqb k "priority" || String.eqb k "status" then stripTo ["name"] v
  else if String.eqb k "assignee" then stripTo ["emailAddress"] v
  else v.

(** The [fields] object of [UpdateJiraIssueSchema]: unknown keys are
    stripped, here and in the nested objects, and at least one known key
    must be present. *)
Definition parseUpdateFields (v : JsValue) : option (list (string * JsValue)) :=
  match v with
  | VObject fs =>
      _ ← parseOptional (parseStringIf (lengthBetween 1 255))
                        (getField "summary" fs);
      _ ← parseOptional (parseNamed "name" isPriority) (getField "priority" fs);
      _ ← parseOptional (parseNamed "emailAddress" isEmail)
                        (getField "assignee" fs);
      _ ← parseOptional
            (fun s => match s with
                      | VObject sf => parseStringIf (fun _ => true)
                                                    (getField "name" sf)
                      | _ => None
                      end)
            (getField "status" fs);
      let known := ["summary"; "description"; "priority"; "assignee"; "status"] in
      let kept := List.filter (fun k => hasField k fs) known in
      match kept with
      | [] => None
      | _ => Some (List.map (fun k => (k, parsedUpdateField k (getField k fs))) kept)
      end
  | _ => None
  end.

(** [UpdateJiraIssueSchema.parse]. *)
Definition UpdateJiraIssueSchema (args : JsValue)
  : option UpdateJiraIssueInput.t :=
  match args with
  | VObject fields =>
      if strictKeys ["issueKey"; "fields"] fields
      then
        issueKey ← parseStringIf isIssueKey (getField "issueKey" fields);
        fs ← parseUpdateFields (getField "fields" fields);
        Some (UpdateJiraIssueInput.mk issueKey fs)
      else None
  | _ => None
  end.

End Schemas.

(** [validate(schema, data)]: the parsed value, or the [ValidationError] of
    [validation.ts], which is a plain [Error]. *)
Definition validate {A : Type} (schema : JsValue -> option A) (data : JsValue)
  : M A :=
  match schema data with
  | Some a => mret a
  | None => throw (ThrownError "ValidationError" "Input validation failed")
  end.

(** ** Sanitizers

    These functions look at single characters, so their strings are
    sequences of UTF-16 code units. *)

Definition CodeUnits : Type := list N.

(** The code units of a string of the model. *)
Definition codeUnitsOf (s : string) : CodeUnits :=
  List.map N_of_ascii (list_ascii_of_string s).

(** The code units that [String.prototype.trim] strips: the WhiteSpace and
    LineTerminator code points of ECMAScript. *)
Definition isWhiteSpace (u : N) : bool :=
  (((9 <=? u) && (u <=? 13)) || (u =? 32) || (u =? 160) || (u =? 5760)
   || ((8192 <=? u) && (u <=? 8202)) || (u =? 8232) || (u =? 8233)
   || (u =? 8239) || (u =? 8287) || (u =? 12288) || (u =? 65279))%N.

(** [s.trimStart()]. *)
Fixpoint trimStart (s : CodeUnits) : CodeUnits :=
  match s with
  | [] => []
  | u :: rest => if isWhiteSpace u then trimStart rest else s
  end.

(** [s.trimEnd()]. *)
Definition trimEnd (s : CodeUnits) : CodeUnits := rev (trimStart (rev s)).

(** [s.trim()]. *)
Definition trim (s : CodeUnits) : CodeUnits := trimEnd (trimStart s).

(** [sanitizeString]. *)
Definition sanitizeString (input : CodeUnits) : CodeUnits :=
  let sanitized := List.filter (fun u => negb (u =? 0)%N) input in
  let sanitized := trim sanitized in
  if 10000 <? Z.of_nat (length sanitized)
  then take (Z.to_nat 10000) sanitized
  else sanitized.

(** A code unit of the class [[;<>]]. *)
Definition isJqlDanger (u : N) : bool := ((u =? 59) || (u =? 60) || (u =? 62))%N.

(** [sanitizeJQL]. *)
Definition sanitizeJQL (jql : CodeUnits) : CodeUnits :=
  List.filter (fun u => negb (isJqlDanger u)) (sanitizeString jql).

(* ================================================================== *)
(** * Issue-tracker gateway ([src/jira-handler.ts]) *)
(* ================================================================== *)

(** The options of the page fetches: [{ maxAttempts: 3 }]. *)
Definition threeAttempts : RetryOptions.t :=
  {| RetryOptions.maxAttempts := Some 3;
     RetryOptions.initialDelay := None;
     RetryOptions.maxDelay := None;
     RetryOptions.factor := None;
     RetryOptions.shouldRetry := None |}.

(** The options of the sprint lookup: [{ maxAttempts: 3, initialDelay: 1000 }]. *)
Definition sprintLookupOptions : RetryOptions.t :=
  {| RetryOptions.maxAttempts := Some 3;
     RetryOptions.initialDelay := Some 1000;
     RetryOptions.maxDelay := None;
     RetryOptions.factor := None;
     RetryOptions.shouldRetry := None |}.

Section Gateway.
Context `{Runtime} `{Upstream}.

(** A call through [jiraClient] or [jiraAgileClient]: the request is
    logged, the clock moves by the latency, and a failure is thrown as the
    [ApiError] the response interceptor builds. *)
Definition request (r : Request) : M ResponseData.t :=
  fun w =>
    let '(latency, answer) := respond (World.trace w) (World.clock w) r in
    let w' := {| World.clock := World.clock w + latency;
                 World.sprintCache := World.sprintCache w;
                 World.trace := World.trace w ++ [EvRequest r] |} in
    match answer with
    | inr data => (Returned data, w')
    | inl error =>
        (Threw (ThrownBase (ApiError.fromAxiosError (World.clock w') error)), w')
    end.

(** [generateStandupPDF(reportData, outputPath)]. *)
Definition generateStandupPDF (reportData : Payload) (outputPath : option string)
  : M string :=
  fun w =>
    let '(latency, answer) :=
      render (World.trace w) (World.clock w) reportData outputPath in
    let w' := {| World.clock := World.clock w + latency;
                 World.sprintCache := World.sprintCache w;
                 World.trace := World.trace w ++ [EvRender reportData outputPath] |} in
    match answer with
    | inr path => (Returned path, w')
    | inl error => (Threw error, w')
    end.

(** [getActiveSprint]. The key builders of the handler give sprints, issue
    lists and reports keys that start with different words, so a read under
    a sprint key only ever meets a sprint; the model reads an entry of
    another kind as a miss. *)
Definition getActiveSprint (boardId : Z) : M (option Sprint.t) :=
  let cacheKey := CacheKeys.sprint boardId in
  cached ← cacheGet cacheKey;
  match cached with
  | Some (DSprint s) => mret (Some s)
  | _ =>
      response ←
        RetryHelper.retry (request (GetBoardSprints boardId))
          sprintLookupOptions;
      match head (default [] (ResponseData.values response)) with
      | Some sprint =>
          _ ← cacheSet cacheKey (DSprint sprint) 600;
          mret (Some sprint)
      | None => mret None
      end
  end.

Definition pageSize : Z := 50.

(** [getSprintTicketsPaginated] together with the [for await] loop that
    consumes it: each round fetches one page, appends it to [allIssues] and
    tests [startAt < total]. [budget] bounds the number of pages. *)
Fixpoint getSprintTicketsPaginated (budget : nat) (sprintId startAt : Z)
    (allIssues : list JiraIssue.t) : M (list JiraIssue.t) :=
  match budget with
  | O => diverge
  | S budget' =>
      response ←
        RetryHelper.retry (request (GetSprintIssues sprintId startAt pageSize))
          threeAttempts;
      let allIssues' :=
        (allIssues ++ default [] (ResponseData.issues response))%list in
      let startAt' := startAt + pageSize in
      let total := default 0 (ResponseData.total response) in
      if startAt' <? total
      then getSprintTicketsPaginated budget' sprintId startAt' allIssues'
      else mret allIssues'
  end.

(** [getSprintTickets]. *)
Definition getSprintTickets (budget : nat) (sprintId : Z)
  : M (list JiraIssue.t) :=
  let cacheKey := CacheKeys.sprintIssues sprintId in
  cached ← cacheGet cacheKey;
  match cached with
  | Some (DIssues l) => mret l
  | _ =>
      allIssues ← getSprintTicketsPaginated budget sprintId 0 [];
      _ ← cacheSet cacheKey (DIssues allIssues) 300;
      mret allIssues
  end.

(* ================================================================== *)
(** * The tool handler ([handleJiraTool]) *)
(* ================================================================== *)

Definition newline : string := String (ascii_of_nat 10) "".

(** [new ApiError(message, code, statusCode)] and the other arguments
    undefined. *)
Definition newApiError (timestamp : Z) (message : string) (code : ErrorCode)
    (statusCode : Z) : BaseError.t :=
  {| BaseError.cls := ClsApiError;
     BaseError.message := message;
     BaseError.code := code;
     BaseError.statusCode := Some statusCode;
     BaseError.timestamp := timestamp;
     BaseError.context := None;
     BaseError.endpoint := None;
     BaseError.method := None |}.

(** [n || 2]. *)
Definition orTwo (n : option Z) : Z :=
  match n with
  | Some 0 => 2
  | Some d => d
  | None => 2
  end.

(** The [catch] block of [handleJiraTool]. *)
Definition handleError (name : string) (error : Thrown) : M Payload :=
  mret (PError (ErrorHandler.handle error name)).

(** Case [jira_create_issue]. *)
Definition createIssue (args : JsValue) : M Payload :=
  issueData ← validate CreateJiraIssueSchema args;
  response ←
    RetryHelper.retry (request (PostIssue issueData))
      threeAttempts;
  let key := default "undefined" (ResponseData.key response) in
  mret (PText ("Created issue: " ++ key ++ newline ++ "URL: " ++ jiraBaseUrl
               ++ "/browse/" ++ key)).

(** Case [jira_search_issues]. *)
Definition searchIssues (args : JsValue) : M Payload :=
  _ ← validate SearchJiraIssuesSchema args;
  mret PSearchUnavailable.

(** Case [jira_update_issue]. *)
Definition updateIssue (args : JsValue) : M Payload :=
  validatedArgs ← validate UpdateJiraIssueSchema args;
  _ ← RetryHelper.retry
        (request (PutIssue (UpdateJiraIssueInput.issueKey validatedArgs)
                           (UpdateJiraIssueInput.fields validatedArgs)))
        threeAttempts;
  _ ← cacheDelete (CacheKeys.issue (UpdateJiraIssueInput.issueKey validatedArgs));
  mret (PText ("Updated issue: " ++ UpdateJiraIssueInput.issueKey validatedArgs)).

(** [tally[k] = (tally[k] || 0) + 1] on an object literal. An own count
    goes up by one. A name that the literal inherits reads as the inherited
    member, which is truthy, so the sum is a text and stays one; under
    [__proto__] the assignment of a text is ignored and nothing is
    tallied. *)
Definition countUp (m : gmap string Tally) (k : string) : gmap string Tally :=
  match m !! k with
  | Some (Count n) => <[k := Count (n + 1)]> m
  | Some (MemberText member ones) => <[k := MemberText member (S ones)]> m
  | None =>
      if String.eqb k "__proto__" then m
      else if inheritedKey k then <[k := MemberText k 1]> m
      else <[k := Count 1]> m
  end.

(** Case [jira_get_sprint_issues]. The two tallies are the own
    properties of the object literals [byStatus] and [byAssignee]. *)
Definition getSprintIssues (budget : nat) (args : JsValue) : M Payload :=
  boardId ← validate GetSprintIssuesSchema args;
  activeSprint ← getActiveSprint boardId;
  match activeSprint with
  | None =>
      t ← now;
      throw (ThrownBase (JiraError.sprintNotFound t boardId))
  | Some activeSprint =>
      tasks ← getSprintTickets budget (Sprint.id activeSprint);
      let statusOf (issue : JiraIssue.t) := strOr (JiraIssue.status issue) "Unknown" in
      let assigneeOf (issue : JiraIssue.t) :=
        strOr (JiraIssue.assignee issue ≫= Assignee.displayName) "Unassigned" in
      let summary0 :=
        {| SprintSummary.totalSprintIssues := Z.of_nat (length tasks);
           SprintSummary.completedIssues := 0;
           SprintSummary.inProgressIssues := 0;
           SprintSummary.todoIssues := 0;
           SprintSummary.projectFiltered := false;
           SprintSummary.projectKey := None |} in
      let tally (s : SprintSummary.t) (c : StatusCategory) :=
        {| SprintSummary.totalSprintIssues := SprintSummary.totalSprintIssues s;
           SprintSummary.completedIssues :=
             incrIf (match c with completed => true | _ => false end)
                    (SprintSummary.completedIssues s);
           SprintSummary.inProgressIssues :=
             incrIf (match c with inProgress => true | _ => false end)
                    (SprintSummary.inProgressIssues s);
           SprintSummary.todoIssues :=
             incrIf (match c with todo => true | _ => false end)
                    (SprintSummary.todoIssues s);
           SprintSummary.projectFiltered := SprintSummary.projectFiltered s;
           SprintSummary.projectKey := SprintSummary.projectKey s |} in
      let byStatus := foldl (fun m issue => countUp m (statusOf issue)) ∅ tasks in
      let byAssignee := foldl (fun m issue => countUp m (assigneeOf issue)) ∅ tasks in
      let summary :=
        foldl (fun s issue => tally s (categorizeStatus (statusOf issue)))
              summary0 tasks in
      mret (PSprintIssues (Sprint.name activeSprint) (Z.of_nat (length tasks))
              byStatus byAssignee summary)
  end.

(** Case [jira_daily_standup_report], as a function of the validated
    arguments it reads. *)
Definition standupReport (budget : nat) (boardId : Z)
    (projectKey : option string) (daysStale : Z) : M Payload :=
  let cacheKey := CacheKeys.standupReport boardId projectKey in
  cachedReport ← cacheGet cacheKey;
  match cachedReport with
  | Some d => mret (PData d)
  | None =>
      activeSprint ← getActiveSprint boardId;
      match activeSprint with
      | None =>
          t ← now;
          throw (ThrownBase (JiraError.sprintNotFound t boardId))
      | Some activeSprint =>
          issues ← getSprintTickets budget (Sprint.id activeSprint);
          t ← now;
          match buildReport t activeSprint issues projectKey daysStale with
          | inl e => throw e
          | inr report =>
              _ ← cacheSet cacheKey (DReport report) 300;
              mret (PData (DReport report))
          end
      end
  end.

(** Case [jira_daily_standup_report]. *)
Definition dailyStandupReport (budget : nat) (args : JsValue) : M Payload :=
  validatedArgs ← validate DailyStandupReportSchema args;
  let daysStale := orTwo (DailyStandupReportInput.daysStale validatedArgs) in
  standupReport budget (DailyStandupReportInput.boardId validatedArgs)
    (DailyStandupReportInput.projectKey validatedArgs) daysStale.

(** [reportData.error], read for its truth value. *)
Definition errorField (reportData : Payload) : option string :=
  match reportData with
  | PError e => strOrNull (Some (ErrorResponse.error e))
  | _ => None
  end.

(** Case [jira_generate_standup_pdf]; the nested call is
    [handleJiraTool('jira_daily_standup_report', ...)] with its own
    [try]/[catch]. *)
Definition generateStandupPdf (budget : nat) (args : JsValue) : M Payload :=
  validatedArgs ← validate GenerateStandupPDFSchema args;
  reportData ←
    tryCatch
      (dailyStandupReport budget
         (VObject
            [ ("boardId", VInt (GenerateStandupPDFInput.boardId validatedArgs));
              ("projectKey",
               match GenerateStandupPDFInput.projectKey validatedArgs with
               | Some pk => VString pk
               | None => VUndefined
               end);
              ("daysStale",
               VInt (orTwo (GenerateStandupPDFInput.daysStale validatedArgs)));
              ("includeUnassigned", VBool true) ]))
      (handleError "jira_daily_standup_report");
  match errorField reportData with
  | Some _ =>
      t ← now;
      throw (ThrownBase
               (newApiError t "Failed to generate report data" INTERNAL_ERROR 500))
  | None =>
      pdfPath ←
        generateStandupPDF reportData
          (GenerateStandupPDFInput.outputPath validatedArgs);
      match reportData with
      | PData (DReport report) =>
          mret (PPdf pdfPath (StandupReport.sprintName report)
                  (StandupReport.date report)
                  (SprintSummary.totalSprintIssues (StandupReport.summary report))
                  (Z.of_nat (length (StandupReport.overdueIssues report)))
                  (Z.of_nat (length (StandupReport.staleIssues report))))
      | _ =>
          throw (ThrownError "TypeError"
                   "Cannot read properties of undefined (reading 'totalSprintIssues')")
      end
  end.

(** The [switch] inside the [try]. *)
Definition dispatch (budget : nat) (name : string) (args : JsValue) : M Payload :=
  if String.eqb name "jira_create_issue" then createIssue args
  else if String.eqb name "jira_search_issues" then searchIssues args
  else if String.eqb name "jira_update_issue" then updateIssue args
  else if String.eqb name "jira_get_sprint_issues" then getSprintIssues budget args
  else if String.eqb name "jira_daily_standup_report"
  then dailyStandupReport budget args
  else if String.eqb name "jira_generate_standup_pdf"
  then generateStandupPdf budget args
  else
    t ← now;
    throw (ThrownBase
             (newApiError t ("Unknown Jira tool: " ++ name) UNKNOWN_TOOL 400)).

(** [handleJiraTool]. *)
Definition handleJiraTool (budget : nat) (name : string) (args : JsValue)
  : M Payload :=
  tryCatch (dispatch budget name args) (handleError name).

End Gateway.

(* ================================================================== *)
(** * Configuration ([src/utils/config.ts]) *)
(* ================================================================== *)

Module ConfigManager.

Definition requiredKeys : list string :=
  ["JIRA_BASE_URL"; "JIRA_EMAIL"; "JIRA_API_TOKEN"; "SLACK_BOT_TOKEN"].

(** The [config] map, in insertion order. *)
Definition t : Type := list (string * CodeUnits).

(** [Map.prototype.get]. *)
Fixpoint mapGet (k : string) (m : t) : option CodeUnits :=
  match m with
  | [] => None
  | (k', v) :: rest => if String.eqb k' k then Some v else mapGet k rest
  end.

(** [Map.prototype.set]. *)
Fixpoint mapSet (k : string) (v : CodeUnits) (m : t) : t :=
  match m with
  | [] => [(k, v)]
  | (k', v') :: rest =>
      if String.eqb k' k then (k, v) :: rest else (k', v') :: mapSet k v rest
  end.

(** [!value || value.trim() === ''], for a variable that is set. *)
Definition blank (value : CodeUnits) : bool :=
  match value with
  | [] => true
  | _ => match trim value with [] => true | _ => false end
  end.

(** One round of the loop of [validateAndLoadConfig]. *)
Definition loadKey (env : string -> option CodeUnits)
    (state : list string * t) (key : string) : list string * t :=
  let '(missing, config) := state in
  match env key with
  | None => ((missing ++ [key])%list, config)
  | Some value =>
      if blank value then ((missing ++ [key])%list, config)
      else (missing, mapSet key (trim value) config)
  end.

Section WithPlatform.

(** [new URL(url)] does not throw. *)
Variable isValidUrl : CodeUnits -> bool.

(** [validateAndLoadConfig], on the environment [env]: the loaded map, or
    the [Error] thrown. *)
Definition validateAndLoadConfig (env : string -> option CodeUnits) : Thrown + t :=
  let '(missing, config) := foldl (loadKey env) ([], []) requiredKeys in
  match missing with
  | _ :: _ =>
      inl (ThrownError "Error"
             ("Missing or empty required environment variables: "
              ++ join ", " missing ++ newline
              ++ "Please check your .env file and ensure all required variables are set."))
  | [] =>
      match mapGet "JIRA_BASE_URL" config with
      | Some (u :: rest) =>
          if negb (isValidUrl (u :: rest))
          then inl (ThrownError "Error"
                      "JIRA_BASE_URL must be a valid URL (e.g., https://your-domain.atlassian.net)")
          else inr config
      | _ => inr config
      end
  end.

End WithPlatform.

(** [get]. *)
Definition get (config : t) (key : string) : Thrown + CodeUnits :=
  match mapGet key config with
  | Some (u :: rest) => inr (u :: rest)
  | _ => inl (ThrownError "Error" ("Configuration key not found: " ++ key))
  end.

(** The slashes at the head of a string go. *)
Fixpoint dropSlashes (s : CodeUnits) : CodeUnits :=
  match s with
  | [] => []
  | u :: rest => if (u =? 47)%N then dropSlashes rest else s
  end.

(** [getJiraBaseUrl]: the configured URL without the slashes at its
    end. *)
Definition getJiraBaseUrl (config : t) : Thrown + CodeUnits :=
  match get config "JIRA_BASE_URL" with
  | inr url => inr (rev (dropSlashes (rev url)))
  | inl e => inl e
  end.

(** [getJiraApiUrl]. *)
Definition getJiraApiUrl (config : t) : Thrown + CodeUnits :=
  match getJiraBaseUrl config with
  | inr base => inr (base ++ codeUnitsOf "/rest/api/3")%list
  | inl e => inl e
  end.

(** [getJiraAgileApiUrl]. *)
Definition getJiraAgileApiUrl (config : t) : Thrown + CodeUnits :=
  match getJiraBaseUrl config with
  | inr base => inr (base ++ codeUnitsOf "/rest/agile/1.0")%list
  | inl e => inl e
  end.

End ConfigManager.

(* ================================================================== *)
(** * A reference platform, for running the model *)
(* ================================================================== *)

Definition lowerChar (c : ascii) : ascii :=
  if isUpper c then ascii_of_N (N_of_ascii c + 32) else c.

Definition upperChar (c : ascii) : ascii :=
  if inRange "a" "z" c then ascii_of_N (N_of_ascii c - 32) else c.

Fixpoint mapChars (f : ascii -> ascii) (s : string) : string :=
  match s with
  | EmptyString => EmptyString
  | String c rest => String (f c) (mapChars f rest)
  end.

(** The value of a string of decimal digits. *)
Fixpoint digitsValue (acc : Z) (s : string) : option Z :=
  match s with
  | EmptyString => Some acc
  | String c rest =>
      if isDigit c
      then digitsValue (10 * acc + Z.of_N (N_of_ascii c - 48)) rest
      else None
  end.

(** Decimal digits of a natural number, most significant first. *)
Fixpoint digitsOf (fuel : nat) (n : N) (acc : string) : string :=
  match fuel with
  | O => acc
  | S fuel' =>
      let acc' := String (ascii_of_N (48 + n mod 10)) acc in
      if (n / 10 =? 0)%N then acc' else digitsOf fuel' (n / 10)%N acc'
  end.

Definition decimal (z : Z) : string :=
  let n := Z.to_N (Z.abs z) in
  let digits := digitsOf (S (N.to_nat (N.log2 n))) n "" in
  if z <? 0 then "-" ++ digits else digits.

(** A platform on ASCII text: case mapping of the letters A-Z, collation
    by code unit, dates written as a count of milliseconds. *)
Definition refRuntime : Runtime :=
  {| toLowerCase := mapChars lowerChar;
     toUpperCase := mapChars upperChar;
     localeCompare := fun a b =>
       match lexCompare a b with Lt => -1 | Eq => 0 | Gt => 1 end;
     dateParse := fun s =>
       match s with EmptyString => None | _ => digitsValue 0 s end;
     isoDate := decimal;
     numToString := decimal;
     isEmail := fun s => includes s "@";
     development := false;
     jiraBaseUrl := "https://jira.example.com" |}.

(** An issue tracker with one board (sprint 7, "Sprint 42") that serves the
    issues [store] in pages, and a PDF engine that always succeeds. *)
Definition pagedUpstream (store : list JiraIssue.t) : Upstream :=
  {| respond := fun _ _ r =>
       (5,
        match r with
        | GetBoardSprints _ =>
            inr (ResponseData.mk (Some [Sprint.mk 7 "Sprint 42"]) None None None)
        | GetSprintIssues _ startAt maxResults =>
            inr (ResponseData.mk None
                   (Some (take (Z.to_nat maxResults) (drop (Z.to_nat startAt) store)))
                   (Some (Z.of_nat (length store))) None)
        | PostIssue _ => inr (ResponseData.mk None None None (Some "WEB-1"))
        | PutIssue _ _ => inr (ResponseData.mk None None None None)
        end);
     render := fun _ _ _ outputPath =>
       (5, inr (default "/tmp/standup-report.pdf" outputPath)) |}.

(** An upstream answer with HTTP status [status] and no body. *)
Definition httpFailure (status : Z) : AxiosError.t :=
  AxiosError.mk (Some status) None (Some "/sprint/7/issue") (Some "get")
    None (Some 30000).

(** An issue tracker that fails every request with [status]. *)
Definition failingUpstream (status : Z) : Upstream :=
  {| respond := fun _ _ _ => (5, inl (httpFailure status));
     render := fun _ _ _ _ => (5, inl (ThrownError "Error" "Failed to generate PDF")) |}.

(** An issue tracker whose first [n] answers are failures with [status]
    and which behaves like [pagedUpstream] afterwards. *)
Definition flakyUpstream (n : nat) (status : Z) (store : list JiraIssue.t)
  : Upstream :=
  {| respond := fun trace clock r =>
       if (length (List.filter (fun e => match e with EvRequest _ => true | _ => false end)
                               trace) <? n)%nat
       then (5, inl (httpFailure status))
       else @respond (pagedUpstream store) trace clock r;
     render := @render (pagedUpstream store) |}.

Definition sampleIssue (key : string) (status : string)
    (assignee : option string) (updated : string) (duedate : option string)
    (project : string) : JiraIssue.t :=
  {| JiraIssue.key := key;
     JiraIssue.summary := Some ("Summary of " ++ key);
     JiraIssue.status := Some status;
     JiraIssue.assignee :=
       (fun n => Assignee.mk (Some n) None) <$> assignee;
     JiraIssue.updated := Some updated;
     JiraIssue.created := None;
     JiraIssue.duedate := duedate;
     JiraIssue.priority := Some "Medium";
     JiraIssue.labels := Some [];
     JiraIssue.project := Some project;
     JiraIssue.comments := None |}.

Definition day : Z := 86400000.

(** The scenario of the specification, at clock value [100 * day]: one issue
    done ten days ago, one in progress for five days and due yesterday, one
    unassigned to-do updated today. *)
Definition scenarioIssues : list JiraIssue.t :=
  [ sampleIssue "WEB-1" "Done" (Some "Ann") (decimal (90 * day)) None "WEB";
    sampleIssue "WEB-2" "In Progress" (Some "Bob") (decimal (95 * day))
                (Some (decimal (99 * day))) "WEB";
    sampleIssue "OPS-3" "To Do" None (decimal (100 * day)) None "OPS" ].

Definition startWorld : World.t :=
  {| World.clock := 100 * day;
     World.sprintCache := CacheManager.newSprintCache;
     World.trace := [] |}.

(** [n] copies of an issue, as the content of a large sprint. *)
Definition manyIssues (n : nat) : list JiraIssue.t :=
  replicate n (sampleIssue "WEB-9" "To Do" (Some "Ann") (decimal (99 * day)) None "WEB").

(** A platform whose collation is closer to that of a browser or of Node:
    strings are first compared without regard to case, and only then
    lower case goes before upper case; and whose date parser knows the
    month-name form of two dates. *)
Definition collatingRuntime : Runtime :=
  {| toLowerCase := mapChars lowerChar;
     toUpperCase := mapChars upperChar;
     localeCompare := fun a b =>
       match lexCompare (mapChars lowerChar a) (mapChars lowerChar b) with
       | Lt => -1
       | Gt => 1
       | Eq => match lexCompare b a with Lt => -1 | Eq => 0 | Gt => 1 end
       end;
     dateParse := fun s =>
       if String.eqb (mapChars lowerChar s) "jan 1, 2020" then Some 1577836800000
       else if String.eqb (mapChars lowerChar s) "jan 2, 2020" then Some 1577923200000
       else match s with EmptyString => None | _ => digitsValue 0 s end;
     isoDate := decimal;
     numToString := decimal;
     isEmail := fun s => includes s "@";
     development := false;
     jiraBaseUrl := "https://jira.example.com" |}.

(** Two open issues with due dates in the month-name form. *)
Definition monthNameIssues : list JiraIssue.t :=
  [ sampleIssue "WEB-4" "To Do" (Some "Ann") "1600000000000" (Some "Jan 2, 2020") "WEB";
    sampleIssue "WEB-5" "To Do" (Some "Bob") "1600000000000" (Some "jan 1, 2020") "WEB" ].

(** A date in the form YYYY-MM-DD, the form in which the issue tracker
    writes a due date. *)
Definition isIsoDate (s : string) : bool :=
  match s with
  | String y1 (String y2 (String y3 (String y4 (String h1 (String m1 (String m2
      (String h2 (String d1 (String d2 EmptyString))))))))) =>
      forallb isDigit [y1; y2; y3; y4; m1; m2; d1; d2]
      && Ascii.eqb h1 "-" && Ascii.eqb h2 "-"
  | _ => false
  end.

(** A sort key of the overdue list for such due dates: an ISO date, or the
    empty string of an absent one. *)
Definition isDueKey (s : string) : bool :=
  match s with
  | EmptyString => true
  | _ => isIsoDate s
  end.

Definition isLeapYear (y : Z) : bool :=
  (y mod 4 =? 0) && (negb (y mod 100 =? 0) || (y mod 400 =? 0)).

Definition daysInMonth (y m : Z) : Z :=
  if m =? 2 then (if isLeapYear y then 29 else 28)
  else if (m =? 4) || (m =? 6) || (m =? 9) || (m =? 11) then 30
  else 31.

(** The number of days from 1970-01-01 to the day [d] of month [m] of year
    [y]. *)
Definition daysFromCivil (y m d : Z) : Z :=
  let y' := if m <=? 2 then y - 1 else y in
  let era := y' / 400 in
  let yoe := y' - era * 400 in
  let doy := (153 * ((m + 9) mod 12) + 2) / 5 + d - 1 in
  let doe := yoe * 365 + yoe / 4 - yoe / 100 + doy in
  era * 146097 + doe - 719468.

(** [Date.parse] on an ISO date: midnight UTC of that day, in
    milliseconds. *)
Definition parseIsoDate (s : string) : option Z :=
  if isIsoDate s then
    match digitsValue 0 (String.substring 0 4 s),
          digitsValue 0 (String.substring 5 2 s),
          digitsValue 0 (String.substring 8 2 s) with
    | Some y, Some m, Some d =>
        if (1 <=? m) && (m <=? 12) && (1 <=? d) && (d <=? daysInMonth y m)
        then Some (daysFromCivil y m d * day)
        else None
    | _, _, _ => None
    end
  else None.

(** A platform with the collation of [collatingRuntime] whose date parser
    reads ISO dates. *)
Definition isoRuntime : Runtime :=
  {| toLowerCase := mapChars lowerChar;
     toUpperCase := mapChars upperChar;
     localeCompare := @localeCompare collatingRuntime;
     dateParse := parseIsoDate;
     isoDate := decimal;
     numToString := decimal;
     isEmail := fun s => includes s "@";
     development := false;
     jiraBaseUrl := "https://jira.example.com" |}.

(** 2024-03-01, midnight UTC. *)
Definition isoNow : Z := 19783 * day.

(** Three open issues with ISO dates, all of them stale and overdue on
    2024-03-01; neither their updates nor their due dates are in order. *)
Definition isoIssues : list JiraIssue.t :=
  [ sampleIssue "WEB-1" "In Progress" (Some "Ann") "2024-02-01" (Some "2024-02-20")
                "WEB";
    sampleIssue "WEB-2" "To Do" (Some "Bob") "2024-01-10" (Some "2024-01-15") "WEB";
    sampleIssue "WEB-3" "To Do" (Some "Ann") "2024-02-10" (Some "2023-12-31") "WEB" ].

(** The report of these issues. *)
Definition isoReport : StandupReport.t :=
  Eval vm_compute in
    match @buildReport isoRuntime isoNow (Sprint.mk 7 "Sprint 42") isoIssues None 2
    with
    | inr report => report
    | inl _ => @initialReport isoRuntime 0 (Sprint.mk 7 "Sprint 42") None
    end.

(** An issue tracker whose board has no active sprint. *)
Definition sprintlessUpstream : Upstream :=
  {| respond := fun _ _ _ => (5, inr (ResponseData.mk (Some []) None None None));
     render := @render (pagedUpstream []) |}.

(** An issue tracker that behaves like [pagedUpstream] for its first [n]
    requests and fails every later one with [status]. *)
Definition breakingUpstream (n : nat) (status : Z) (store : list JiraIssue.t)
  : Upstream :=
  {| respond := fun trace clock r =>
       if (length (List.filter (fun e => match e with EvRequest _ => true | _ => false end)
                               trace) <? n)%nat
       then @respond (pagedUpstream store) trace clock r
       else (5, inl (httpFailure status));
     render := @render (pagedUpstream store) |}.

(** The arguments of a standup request for board 1, with and without
    unassigned issues. *)
Definition argsWithUnassigned (b : bool) : JsValue :=
  VObject [("boardId", VInt 1); ("includeUnassigned", VBool b)].

(** The report of the scenario, filtered to project WEB. *)
Definition scenarioReport : StandupReport.t :=
  Eval vm_compute in
    match @buildReport refRuntime (100 * day) (Sprint.mk 7 "Sprint 42")
            scenarioIssues (Some "WEB") 2 with
    | inr report => report
    | inl _ => @initialReport refRuntime 0 (Sprint.mk 7 "Sprint 42") None
    end.

(** The first issue of the scenario: its status is "Done". *)
Definition doneIssue : JiraIssue.t :=
  sampleIssue "WEB-1" "Done" (Some "Ann") (decimal (90 * day)) None "WEB".

(** The world after one standup report for board 1 has been built and
    cached. *)
Definition cachedWorld : World.t :=
  snd (@handleJiraTool refRuntime (pagedUpstream scenarioIssues) 5
         "jira_daily_standup_report" (VObject [("boardId", VInt 1)]) startWorld).

(** An operation for the retry executor: one request for the sprints of
    board 1. *)
Definition sprintRequest `{Runtime} `{Upstream} : M ResponseData.t :=
  request (GetBoardSprints 1).

(** A cache entry for the sprint of the reference tracker. *)
Definition sampleEntry (key : string) (expiry : Z) : string * CacheEntry.t :=
  (key, {| CacheEntry.data := DSprint (Sprint.mk 7 "Sprint 42");
           CacheEntry.expiry := expiry;
           CacheEntry.key := key |}).

(** A store of capacity two that is full; its second entry expires
    first. *)
Definition fullStore : CacheManager.t :=
  {| CacheManager.cache :=
       [sampleEntry "sprint:sprint:1" 2000; sampleEntry "sprint:sprint:2" 1000];
     CacheManager.defaultTTL := 600;
     CacheManager.maxSize := 2;
     CacheManager.prefix := Some "sprint";
     CacheManager.hitCount := 0;
     CacheManager.missCount := 0 |}.

(** A configuration whose Jira URL ends in two slashes. *)
Definition sampleConfig : ConfigManager.t :=
  [ ("JIRA_BASE_URL", codeUnitsOf "https://jira.example.com//");
    ("JIRA_EMAIL", codeUnitsOf "ann@example.com") ].

(** The arguments of an update of the summary of WEB-1. *)
Definition updateArgs : JsValue :=
  VObject [ ("issueKey", VString "WEB-1");
            ("fields", VObject [("summary", VString "New summary")]) ].

(** The arguments of the creation of a task in project WEB. *)
Definition createArgs : JsValue :=
  VObject [ ("project", VString "WEB"); ("summary", VString "A task");
            ("issueType", VString "Task") ].

(* ================================================================== *)
(** * Vocabulary of the statements *)
(* ================================================================== *)

Definition StatusCategory_eqb (a b : StatusCategory) : bool :=
  match a, b with
  | completed, completed | inProgress, inProgress | todo, todo => true
  | _, _ => false
  end.

Section Vocabulary.
Context `{Runtime}.

(** The status category the report builder gives a raw issue. *)
Definition statusCategoryOf (issue : JiraIssue.t) : StatusCategory :=
  categorizeStatus (strOr (JiraIssue.status issue) "Unknown").

(** The issues that pass the project filter. *)
Definition keptIssues (projectKey : option string) (issues : list JiraIssue.t)
  : list JiraIssue.t :=
  List.filter (fun issue => negb (filteredOut projectKey issue)) issues.

(** How many of [issues] fall in status category [c]. *)
Definition countStatus (c : StatusCategory) (issues : list JiraIssue.t) : Z :=
  Z.of_nat
    (length (List.filter (fun issue => StatusCategory_eqb (statusCategoryOf issue) c)
                         issues)).

(** The sort key of the overdue list: [duedate || '']. *)
Definition dueKey (x : IssueData.t) : string := strOr (IssueData.duedate x) "".

(** The same key, read off the raw issue. *)
Definition rawDueKey (issue : JiraIssue.t) : string :=
  strOr (JiraIssue.duedate issue) "".

(** The platform collation orders [a] and [b] as the plain comparison does. *)
Definition collatesPlainly (a b : string) : Prop :=
  Z.compare (localeCompare a b) 0 = lexCompare a b.

(** The platform collation orders ISO dates, and the empty string among
    them, as the plain comparison does. *)
Definition collatesDueDatesPlainly : Prop :=
  forall a b, isDueKey a = true -> isDueKey b = true -> collatesPlainly a b.

(** Every due date of the sprint is an ISO date, or absent. *)
Definition dueDatesAreIso (issues : list JiraIssue.t) : bool :=
  forallb (fun issue => isDueKey (rawDueKey issue)) issues.

(** The issues recorded in the four category lists of a report. *)
Definition categoryLists (report : StandupReport.t) : list IssueData.t :=
  (StandupReport.staleIssues report ++ StandupReport.overdueIssues report
   ++ StandupReport.unassignedIssues report
   ++ StandupReport.blockedIssues report)%list.

(** No issue of a completed status in the category lists or the buckets. *)
Definition openStatus (x : IssueData.t) : Prop :=
  categorizeStatus (IssueData.status x) <> completed.

Definition onlyOpen (report : StandupReport.t) : Prop :=
  Forall openStatus (categoryLists report)
  /\ forall k bucket,
       StandupReport.byAssignee report !! k = Some bucket ->
       Forall openStatus (AssigneeReport.issues bucket).

(** The list of a report that collects category [c]. *)
Definition categoryList (c : Category) (report : StandupReport.t)
  : list IssueData.t :=
  match c with
  | stale => StandupReport.staleIssues report
  | overdue => StandupReport.overdueIssues report
  | unassigned => StandupReport.unassignedIssues report
  | blocked => StandupReport.blockedIssues report
  end.

(** The order each comparator sorts by: [compare(x, y) <= 0]. *)
Definition sortedBy {A : Type} (compare : A -> A -> number) (x y : A) : Prop :=
  compareValue (compare x y) <= 0.


End Vocabulary.

(** A computation that leaves the cache store alone. *)
Definition keepsCache {A : Type} (m : M A) : Prop :=
  forall w, World.sprintCache (snd (m w)) = World.sprintCache w.

(** A computation that only adds to the log. *)
Definition growsTrace {A : Type} (m : M A) : Prop :=
  forall w, exists events, World.trace (snd (m w)) = (World.trace w ++ events)%list.

(** The world right after a cache read that left the store as [c]. *)
Definition afterRead (w : World.t) (c : CacheManager.t) : World.t :=
  {| World.clock := World.clock w; World.sprintCache := c;
     World.trace := World.trace w |}.

(** The log entries of [pages] page requests from page [first] on. *)
Definition pageRequests (sprintId : Z) (first pages : nat) : list Event :=
  List.map (fun k => EvRequest (GetSprintIssues sprintId (50 * Z.of_nat k) 50))
           (seq first pages).



(** The fields of an argument object without the key [key]. *)
Definition withoutField (key : string) (fields : list (string * JsValue))
  : list (string * JsValue) :=
  List.filter (fun kv => negb (String.eqb (fst kv) key)) fields.

(** Two argument values that differ at most in the field [key]. *)
Definition sameExcept (key : string) (a b : JsValue) : Prop :=
  match a, b with
  | VObject fa, VObject fb => withoutField key fa = withoutField key fb
  | _, _ => a = b
  end.

(** The world after a cache hit: one more hit on the counter. *)
Definition afterHit (w : World.t) : World.t :=
  afterRead w
    {| CacheManager.cache := CacheManager.cache (World.sprintCache w);
       CacheManager.defaultTTL := CacheManager.defaultTTL (World.sprintCache w);
       CacheManager.maxSize := CacheManager.maxSize (World.sprintCache w);
       CacheManager.prefix := CacheManager.prefix (World.sprintCache w);
       CacheManager.hitCount := CacheManager.hitCount (World.sprintCache w) + 1;
       CacheManager.missCount := CacheManager.missCount (World.sprintCache w) |}.

(** The message an error response reports for a thrown value. *)
Definition thrownMessage (e : Thrown) : string :=
  match e with
  | ThrownBase b => BaseError.message b
  | ThrownError _ message => message
  | ThrownUndefined => "An unknown error occurred"
  end.


Section GatewayVocabulary.
Context `{Runtime} `{Upstream}.

(** The issue tracker serves the issues [store] of sprint [sprintId] in
    pages of 50 and reports their number as the total. *)
Definition servesPages (sprintId : Z) (store : list JiraIssue.t) : Prop :=
  forall trace clock (k : nat),
    exists latency data,
      respond trace clock (GetSprintIssues sprintId (50 * Z.of_nat k) 50)
      = (latency, inr data)
      /\ ResponseData.issues data = Some (take 50 (drop (50 * k) store))
      /\ ResponseData.total data = Some (Z.of_nat (length store)).

(** [pagesFetched sprintId n startAt acc w startAt' acc' w']: from offset
    [startAt], accumulator [acc] and world [w], the next [n] page fetches
    succeed, each one (after its retries) with a total that calls for a
    further page, and lead to [startAt'], [acc'] and [w']. *)
Inductive pagesFetched (sprintId : Z)
  : nat -> Z -> list JiraIssue.t -> World.t ->
    Z -> list JiraIssue.t -> World.t -> Prop :=
  | pagesFetched_none startAt acc w :
      pagesFetched sprintId 0 startAt acc w startAt acc w
  | pagesFetched_more n startAt acc w response w1 startAt' acc' w' :
      RetryHelper.retry (request (GetSprintIssues sprintId startAt pageSize))
        threeAttempts w = (Returned response, w1) ->
      startAt + pageSize < default 0 (ResponseData.total response) ->
      pagesFetched sprintId n (startAt + pageSize)
        (acc ++ default [] (ResponseData.issues response))%list w1
        startAt' acc' w' ->
      pagesFetched sprintId (S n) startAt acc w startAt' acc' w'.

End GatewayVocabulary.

(* ================================================================== *)
(** * Vocabulary of the further statements *)
(* ================================================================== *)

(** The time to live that [set] uses: [ttlSeconds || this.defaultTTL]. *)
Definition effectiveTTL (c : CacheManager.t) (ttlSeconds : option Z) : Z :=
  match ttlSeconds with
  | Some 0 => CacheManager.defaultTTL c
  | Some s => s
  | None => CacheManager.defaultTTL c
  end.

(** The keys of the store, in insertion order. *)
Definition storeKeys (c : CacheManager.t) : list string :=
  List.map fst (CacheManager.cache c).

(** A store as a [Map] has it: no key twice, and none of them empty; and
    within its capacity, which is at least one. *)
Definition storeWellFormed (c : CacheManager.t) : Prop :=
  NoDup (storeKeys c)
  /\ Forall (fun k => k <> "") (storeKeys c)
  /\ 1 <= CacheManager.maxSize c
  /\ Z.of_nat (length (CacheManager.cache c)) <= CacheManager.maxSize c.

(** The world with the store replaced. *)
Definition withStore (w : World.t) (c : CacheManager.t) : World.t :=
  {| World.clock := World.clock w; World.sprintCache := c;
     World.trace := World.trace w |}.

Section BuilderVocabulary.
Context `{Runtime}.

(** The issue passes the project filter and its status is not a completed
    one: the report builder looks at its categories and its assignee. *)
Definition isOpenKept (projectKey : option string) (issue : JiraIssue.t) : bool :=
  negb (filteredOut projectKey issue)
  && negb (StatusCategory_eqb (statusCategoryOf issue) completed).

(** The record the report keeps of an issue. *)
Definition issueDataOf (now : Z) (daysStale : Z) (issue : JiraIssue.t)
  : IssueData.t :=
  CategorizedIssue.data (processIssue now issue jiraBaseUrl daysStale).

(** The issue carries category [c]. *)
Definition inCategory (now : Z) (daysStale : Z) (c : Category)
    (issue : JiraIssue.t) : bool :=
  hasCategory
    (CategorizedIssue.categories (processIssue now issue jiraBaseUrl daysStale)) c.

(** The records of the open, kept issues of category [c], in the order of
    the sprint. *)
Definition recordsOfCategory (now : Z) (projectKey : option string)
    (daysStale : Z) (c : Category) (issues : list JiraIssue.t)
  : list IssueData.t :=
  List.map (issueDataOf now daysStale)
    (List.filter (fun issue => isOpenKept projectKey issue
                               && inCategory now daysStale c issue) issues).

(** The display name under which the report files an issue. *)
Definition bucketKeyOf (issue : JiraIssue.t) : string :=
  strOr (JiraIssue.assignee issue ≫= Assignee.displayName) "Unassigned".

End BuilderVocabulary.

(** The sum of [f] over the buckets of a report. *)
Definition sumBuckets (f : AssigneeReport.t -> Z)
    (m : gmap string AssigneeReport.t) : Z :=
  map_fold (fun _ bucket acc => f bucket + acc) 0 m.

Definition bucketSize (bucket : AssigneeReport.t) : Z :=
  Z.of_nat (length (AssigneeReport.issues bucket)).

(** No bucket is filed under a name that [Object.prototype] answers. *)
Definition noInheritedBucket (m : gmap string AssigneeReport.t) : Prop :=
  forall k bucket, m !! k = Some bucket -> inheritedKey k = false.

(** Every bucket is filed under its own name and holds only issues of that
    assignee, at least one. *)
Definition bucketsWellFiled (m : gmap string AssigneeReport.t) : Prop :=
  forall k bucket,
    m !! k = Some bucket ->
    AssigneeReport.name bucket = k
    /\ AssigneeReport.issues bucket <> []
    /\ Forall (fun x => IssueData.assignee x = k) (AssigneeReport.issues bucket).

(** The waits recorded in a log, oldest first. *)
Definition sleepsOf (trace : list Event) : list Z :=
  omap (fun e => match e with EvSleep ms => Some ms | _ => None end) trace.

(** The back-off schedule of [retry]: [n] waits from [delay] on, each one
    the one before times [factor], capped by [maxDelay]. *)
Fixpoint backoff (options : RetryOptions.t) (n : nat) (delay : Z) : list Z :=
  match n with
  | O => []
  | S n' =>
      delay :: backoff options n'
                 (Z.min (delay * RetryHelper.factorOf options)
                        (RetryHelper.maxDelayOf options))
  end.

(** The names of the tools in [jiraTools], which are the cases of the
    [switch] of [handleJiraTool]. *)
Definition jiraTools : list string :=
  [ "jira_create_issue"; "jira_search_issues"; "jira_update_issue";
    "jira_get_sprint_issues"; "jira_daily_standup_report";
    "jira_generate_standup_pdf" ].

Definition accepted {A : Type} (parsed : option A) : bool :=
  match parsed with Some _ => true | None => false end.

Section HandlerVocabulary.
Context `{Runtime}.

(** The schema of tool [name] accepts [args]. *)
Definition schemaAccepts (name : string) (args : JsValue) : bool :=
  if String.eqb name "jira_create_issue"
  then accepted (CreateJiraIssueSchema args)
  else if String.eqb name "jira_search_issues"
  then accepted (SearchJiraIssuesSchema args)
  else if String.eqb name "jira_update_issue"
  then accepted (UpdateJiraIssueSchema args)
  else if String.eqb name "jira_get_sprint_issues"
  then accepted (GetSprintIssuesSchema args)
  else if String.eqb name "jira_daily_standup_report"
  then accepted (DailyStandupReportSchema args)
  else if String.eqb name "jira_generate_standup_pdf"
  then accepted (GenerateStandupPDFSchema args)
  else false.

(** The arguments of the report request nested in the PDF tool. *)
Definition nestedReportArgs (validatedArgs : GenerateStandupPDFInput.t) : JsValue :=
  VObject
    [ ("boardId", VInt (GenerateStandupPDFInput.boardId validatedArgs));
      ("projectKey",
       match GenerateStandupPDFInput.projectKey validatedArgs with
       | Some pk => VString pk
       | None => VUndefined
       end);
      ("daysStale",
       VInt (orTwo (GenerateStandupPDFInput.daysStale validatedArgs)));
      ("includeUnassigned", VBool true) ].

End HandlerVocabulary.

(** The variable [key] is unset, empty or blank in the environment. *)
Definition unsetOrBlank (env : string -> option CodeUnits) (key : string) : bool :=
  match env key with
  | None => true
  | Some value => ConfigManager.blank value
  end.

(** The message of the error that reports the variables [missing]. *)
Definition missingVariables (missing : list string) : string :=
  "Missing or empty required environment variables: "
  ++ join ", " missing ++ newline
  ++ "Please check your .env file and ensure all required variables are set.".

(* ================================================================== *)
(** * Properties of the report builder *)
(* ================================================================== *)

Section BuilderProperties.
Context `{Runtime}.

Lemma processOne_summary now projectKey daysStale report issue report' :
  processOne now projectKey daysStale report issue = inr report' ->
  StandupReport.summary report' =
    if filteredOut projectKey issue then StandupReport.summary report
    else bumpSummary (StandupReport.summary report) (statusCategoryOf issue).
Proof.
  unfold processOne, statusCategoryOf.
  destruct (filteredOut projectKey issue); simpl.
  - intros Heq; inversion Heq; reflexivity.
  - destruct (categorizeStatus (strOr (JiraIssue.status issue) "Unknown")); simpl.
    + intros Heq; inversion Heq; reflexivity.
    + destruct (groupByAssignee _ _); intros Heq; inversion Heq; reflexivity.
    + destruct (groupByAssignee _ _); intros Heq; inversion Heq; reflexivity.
Qed.

Lemma processAll_summary now projectKey daysStale issues :
  forall report report',
    processAll now projectKey daysStale report issues = inr report' ->
    let s := StandupReport.summary report in
    let s' := StandupReport.summary report' in
    let kept := keptIssues projectKey issues in
    SprintSummary.totalSprintIssues s' =
      SprintSummary.totalSprintIssues s + Z.of_nat (length kept)
    /\ SprintSummary.completedIssues s' =
         SprintSummary.completedIssues s + countStatus completed kept
    /\ SprintSummary.inProgressIssues s' =
         SprintSummary.inProgressIssues s + countStatus inProgress kept
    /\ SprintSummary.todoIssues s' =
         SprintSummary.todoIssues s + countStatus todo kept.
Proof.
  induction issues as [|issue rest IH]; intros report report'; simpl.
  - intros Heq; inversion Heq; subst. unfold keptIssues, countStatus; simpl. lia.
  - destruct (processOne now projectKey daysStale report issue) as [e|r1] eqn:Hone;
      [discriminate|].
    intros Hall. specialize (IH _ _ Hall). simpl in IH.
    apply processOne_summary in Hone.
    destruct IH as (Ht & Hc & Hp & Hd). rewrite Hone in Ht, Hc, Hp, Hd.
    unfold keptIssues; simpl.
    destruct (filteredOut projectKey issue); simpl.
    + fold (keptIssues projectKey rest). auto.
    + fold (keptIssues projectKey rest).
      unfold countStatus in *; simpl in *.
      destruct (statusCategoryOf issue); simpl in *; lia.
Qed.

Lemma countStatus_partition (l : list JiraIssue.t) :
  Z.of_nat (length l) =
  countStatus completed l + countStatus inProgress l + countStatus todo l.
Proof.
  unfold countStatus.
  induction l as [|i l IHl]; [simpl; lia|].
  cbn [List.filter]. destruct (statusCategoryOf i); simpl; lia.
Qed.

(** C1. In every report built by the daily-standup path, whatever the
    issues and the project filter, the total of the summary is the number
    of issues that pass the filter, the three status counters count those
    issues by status category, and the total is the sum of the three. *)
Theorem summary_total_is_sum now activeSprint issues projectKey daysStale report :
  buildReport now activeSprint issues projectKey daysStale = inr report ->
  let s := StandupReport.summary report in
  let kept := keptIssues projectKey issues in
  SprintSummary.totalSprintIssues s = Z.of_nat (length kept)
  /\ SprintSummary.completedIssues s = countStatus completed kept
  /\ SprintSummary.inProgressIssues s = countStatus inProgress kept
  /\ SprintSummary.todoIssues s = countStatus todo kept
  /\ SprintSummary.totalSprintIssues s =
       SprintSummary.completedIssues s + SprintSummary.inProgressIssues s
       + SprintSummary.todoIssues s.
Proof.
  unfold buildReport.
  destruct (processAll _ _ _ _ _) as [e|r] eqn:Hall; [discriminate|].
  intros Heq; inversion Heq; subst; clear Heq.
  apply processAll_summary in Hall. simpl in *.
  destruct Hall as (Ht & Hc & Hp & Hd).
  pose proof (countStatus_partition (keptIssues projectKey issues)).
  lia.
Qed.

(** ** Completed issues *)

Lemma completed_no_categories now issue baseUrl daysStale :
  statusCategoryOf issue = completed ->
  CategorizedIssue.categories (processIssue now issue baseUrl daysStale) = [].
Proof.
  unfold statusCategoryOf, processIssue, computeCategories; simpl.
  intros ->. reflexivity.
Qed.

Lemma processIssue_status now issue baseUrl daysStale :
  categorizeStatus
    (IssueData.status (CategorizedIssue.data (processIssue now issue baseUrl daysStale)))
  = statusCategoryOf issue.
Proof. reflexivity. Qed.

Lemma processOne_completed now projectKey daysStale report issue :
  statusCategoryOf issue = completed ->
  filteredOut projectKey issue = false ->
  processOne now projectKey daysStale report issue =
    inr (withSummary report (bumpSummary (StandupReport.summary report) completed)).
Proof.
  intros Hc Hf. unfold processOne. rewrite Hf.
  cbv zeta. rewrite processIssue_status, Hc. reflexivity.
Qed.

Lemma pushIf_Forall {A : Type} (P : A -> Prop) b l x :
  Forall P l -> P x -> Forall P (pushIf b l x).
Proof.
  intros Hl Hx. destruct b; simpl; [|exact Hl].
  apply Forall_app; split; [exact Hl | constructor; [exact Hx | constructor]].
Qed.

Lemma groupByAssignee_Forall (P : IssueData.t -> Prop) m p m' :
  groupByAssignee m p = inr m' ->
  P (CategorizedIssue.data p) ->
  (forall k bucket, m !! k = Some bucket -> Forall P (AssigneeReport.issues bucket)) ->
  forall k bucket, m' !! k = Some bucket -> Forall P (AssigneeReport.issues bucket).
Proof.
  unfold groupByAssignee. intros Hg Hp Hm k bucket.
  destruct (m !! IssueData.assignee (CategorizedIssue.data p)) as [b0|] eqn:Hlook.
  - inversion Hg; subst; clear Hg.
    rewrite lookup_insert_Some. intros [[_ <-]|[_ Hk]]; [|eauto].
    simpl. apply Forall_app; split; [eauto | repeat constructor; exact Hp].
  - destruct (inheritedKey _); [discriminate|].
    inversion Hg; subst; clear Hg.
    rewrite lookup_insert_Some. intros [[_ <-]|[_ Hk]]; [|eauto].
    simpl. repeat constructor; exact Hp.
Qed.

Lemma processOne_onlyOpen now projectKey daysStale report issue report' :
  processOne now projectKey daysStale report issue = inr report' ->
  onlyOpen report -> onlyOpen report'.
Proof.
  unfold processOne.
  destruct (filteredOut projectKey issue); [intros Heq; inversion Heq; auto|].
  cbv zeta. rewrite processIssue_status.
  set (p := processIssue now issue jiraBaseUrl daysStale).
  assert (Hst : categorizeStatus (IssueData.status (CategorizedIssue.data p))
                = statusCategoryOf issue) by apply processIssue_status.
  destruct (statusCategoryOf issue) eqn:Hc.
  - intros Heq; inversion Heq; subst. auto.
  - destruct (groupByAssignee _ p) as [e|m'] eqn:Hg; [discriminate|].
    intros Heq [Hl Hb]; inversion Heq; subst; clear Heq.
    assert (Hopen : openStatus (CategorizedIssue.data p))
      by (unfold openStatus; rewrite Hst; discriminate).
    unfold categoryLists in Hl. rewrite !Forall_app in Hl.
    destruct Hl as (H1 & H2 & H3 & H4).
    split.
    + unfold categoryLists; simpl. rewrite !Forall_app.
      repeat split; apply pushIf_Forall; assumption.
    + simpl. eapply groupByAssignee_Forall; eauto.
  - destruct (groupByAssignee _ p) as [e|m'] eqn:Hg; [discriminate|].
    intros Heq [Hl Hb]; inversion Heq; subst; clear Heq.
    assert (Hopen : openStatus (CategorizedIssue.data p))
      by (unfold openStatus; rewrite Hst; discriminate).
    unfold categoryLists in Hl. rewrite !Forall_app in Hl.
    destruct Hl as (H1 & H2 & H3 & H4).
    split.
    + unfold categoryLists; simpl. rewrite !Forall_app.
      repeat split; apply pushIf_Forall; assumption.
    + simpl. eapply groupByAssignee_Forall; eauto.
Qed.

Lemma processAll_onlyOpen now projectKey daysStale issues :
  forall report report',
    processAll now projectKey daysStale report issues = inr report' ->
    onlyOpen report -> onlyOpen report'.
Proof.
  induction issues as [|issue rest IH]; intros report report'; simpl.
  - intros Heq; inversion Heq; auto.
  - destruct (processOne now projectKey daysStale report issue) as [e|r1] eqn:Hone;
      [discriminate|].
    intros Hall Hopen. eapply IH; [exact Hall|].
    eapply processOne_onlyOpen; eauto.
Qed.

(** ** The sort *)

Lemma sortInsert_perm {A : Type} (compare : A -> A -> number) x l :
  Permutation (sortInsert compare x l) (x :: l).
Proof.
  induction l as [|y l IH]; simpl; [reflexivity|].
  destruct (compareValue (compare x y) <=? 0); [reflexivity|].
  rewrite IH. apply perm_swap.
Qed.

Lemma arraySort_perm {A : Type} (compare : A -> A -> number) l :
  Permutation (arraySort compare l) l.
Proof.
  induction l as [|x l IH]; simpl; [reflexivity|].
  rewrite sortInsert_perm. constructor. exact IH.
Qed.

Lemma buildReport_onlyOpen now activeSprint issues projectKey daysStale report :
  buildReport now activeSprint issues projectKey daysStale = inr report ->
  onlyOpen report.
Proof.
  unfold buildReport.
  destruct (processAll _ _ _ _ _) as [e|r] eqn:Hall; [discriminate|].
  intros Heq; inversion Heq; subst; clear Heq.
  apply processAll_onlyOpen in Hall.
  - destruct Hall as [Hl Hb]. split; [|exact Hb].
    unfold categoryLists in *; simpl. rewrite !Forall_app in *.
    destruct Hl as (H1 & H2 & H3 & H4). repeat split; try assumption.
    + eapply Permutation_Forall; [symmetry; apply arraySort_perm | exact H1].
    + eapply Permutation_Forall; [symmetry; apply arraySort_perm | exact H2].
  - split; [constructor|]. simpl. intros k bucket Hk.
    rewrite lookup_empty in Hk. discriminate.
Qed.

(** C2. An issue whose status classifies as completed has an empty category
    set; processing it leaves the four category lists and every
    per-assignee bucket (so every staleCount and overdueCount) as they
    were, and adds one to the total and to the completed count; and it is
    in none of the four lists, and in no bucket, of a built report. *)
Theorem completed_issue_counted_but_not_categorised
    now projectKey daysStale issue :
  statusCategoryOf issue = completed ->
  let processed := processIssue now issue jiraBaseUrl daysStale in
  CategorizedIssue.categories processed = []
  /\ (forall report,
        filteredOut projectKey issue = false ->
        exists report',
          processOne now projectKey daysStale report issue = inr report'
          /\ StandupReport.staleIssues report' = StandupReport.staleIssues report
          /\ StandupReport.overdueIssues report' = StandupReport.overdueIssues report
          /\ StandupReport.unassignedIssues report'
             = StandupReport.unassignedIssues report
          /\ StandupReport.blockedIssues report' = StandupReport.blockedIssues report
          /\ StandupReport.byAssignee report' = StandupReport.byAssignee report
          /\ SprintSummary.totalSprintIssues (StandupReport.summary report')
             = SprintSummary.totalSprintIssues (StandupReport.summary report) + 1
          /\ SprintSummary.completedIssues (StandupReport.summary report')
             = SprintSummary.completedIssues (StandupReport.summary report) + 1
          /\ SprintSummary.inProgressIssues (StandupReport.summary report')
             = SprintSummary.inProgressIssues (StandupReport.summary report)
          /\ SprintSummary.todoIssues (StandupReport.summary report')
             = SprintSummary.todoIssues (StandupReport.summary report))
  /\ (forall activeSprint issues built,
        buildReport now activeSprint issues projectKey daysStale = inr built ->
        ~ In (CategorizedIssue.data processed) (StandupReport.staleIssues built)
        /\ ~ In (CategorizedIssue.data processed) (StandupReport.overdueIssues built)
        /\ ~ In (CategorizedIssue.data processed) (StandupReport.unassignedIssues built)
        /\ ~ In (CategorizedIssue.data processed) (StandupReport.blockedIssues built)
        /\ forall k bucket,
             StandupReport.byAssignee built !! k = Some bucket ->
             ~ In (CategorizedIssue.data processed) (AssigneeReport.issues bucket)).
Proof.
  intros Hc processed. split; [|split].
  - apply completed_no_categories; exact Hc.
  - intros report Hf. eexists. split.
    + apply processOne_completed; assumption.
    + simpl. repeat split; reflexivity.
  - intros activeSprint issues built Hb.
    apply buildReport_onlyOpen in Hb. destruct Hb as [Hl Hbk].
    unfold categoryLists in Hl. rewrite !Forall_app in Hl.
    destruct Hl as (H1 & H2 & H3 & H4).
    assert (Hclosed : forall l, Forall openStatus l ->
                                ~ In (CategorizedIssue.data processed) l).
    { intros l Hall Hin. rewrite Forall_forall in Hall.
      apply list_elem_of_In in Hin.
      apply (Hall _ Hin). unfold processed.
      rewrite processIssue_status. exact Hc. }
    repeat split; auto.
    intros k bucket Hk. apply Hclosed. eauto.
Qed.

Lemma sortInsert_Sorted {A : Type} (compare : A -> A -> number) x l :
  (forall y, In y l -> ~ sortedBy compare x y -> sortedBy compare y x) ->
  Sorted (sortedBy compare) l ->
  Sorted (sortedBy compare) (sortInsert compare x l).
Proof.
  induction l as [|y l IH]; intros Htot Hs; simpl.
  - repeat constructor.
  - destruct (compareValue (compare x y) <=? 0) eqn:Hxy.
    + constructor; [exact Hs|]. constructor. unfold sortedBy. lia.
    + assert (Hyx : sortedBy compare y x).
      { apply Htot; [left; reflexivity | unfold sortedBy; lia]. }
      apply Sorted_inv in Hs. destruct Hs as [Hs Hhd].
      constructor.
      * apply IH; [|exact Hs]. intros z Hz. apply Htot. right; exact Hz.
      * destruct l as [|z l]; simpl; [constructor; exact Hyx|].
        destruct (compareValue (compare x z) <=? 0).
        -- constructor; exact Hyx.
        -- inversion Hhd; subst. constructor; assumption.
Qed.

Lemma arraySort_Sorted {A : Type} (compare : A -> A -> number) l :
  (forall a b, In a l -> In b l -> ~ sortedBy compare a b -> sortedBy compare b a) ->
  Sorted (sortedBy compare) (arraySort compare l).
Proof.
  induction l as [|x l IH]; intros Htot; simpl; [constructor|].
  apply sortInsert_Sorted.
  - intros y Hy. apply Htot; [left; reflexivity|]. right.
    eapply Permutation_in; [apply arraySort_perm | exact Hy].
  - apply IH. intros a b Ha Hb. apply Htot; right; assumption.
Qed.

Lemma Sorted_adjacent {A : Type} (R : A -> A -> Prop) (l : list A) :
  Sorted R l ->
  forall n x y, l !! n = Some x -> l !! S n = Some y -> R x y.
Proof.
  induction 1 as [|a l Hs IH Hhd]; intros n x y Hx Hy; [discriminate|].
  destruct n as [|n]; simpl in *.
  - inversion Hx; subst. destruct l as [|b l]; [discriminate|].
    simpl in Hy. inversion Hy; subst. inversion Hhd; subst. assumption.
  - eapply IH; eassumption.
Qed.

(** ** Where the members of the category lists come from *)

Lemma processOne_provenance c now projectKey daysStale report issue report' :
  processOne now projectKey daysStale report issue = inr report' ->
  forall x, In x (categoryList c report') ->
    In x (categoryList c report)
    \/ (x = CategorizedIssue.data (processIssue now issue jiraBaseUrl daysStale)
        /\ hasCategory
             (CategorizedIssue.categories (processIssue now issue jiraBaseUrl daysStale))
             c = true).
Proof.
  unfold processOne.
  destruct (filteredOut projectKey issue); [intros Heq; inversion Heq; auto|].
  cbv zeta. rewrite processIssue_status.
  set (p := processIssue now issue jiraBaseUrl daysStale).
  assert (Hpush : forall l x,
            In x (pushIf (hasCategory (CategorizedIssue.categories p) c) l
                         (CategorizedIssue.data p)) ->
            In x l \/ (x = CategorizedIssue.data p
                       /\ hasCategory (CategorizedIssue.categories p) c = true)).
  { intros l x. destruct (hasCategory _ c); simpl; [|auto].
    rewrite in_app_iff. simpl. intros [Hin|[<-|[]]]; auto. }
  destruct (statusCategoryOf issue).
  - intros Heq; inversion Heq; subst. destruct c; simpl; auto.
  - destruct (groupByAssignee _ p) as [e|m']; [discriminate|].
    intros Heq; inversion Heq; subst; clear Heq.
    destruct c; simpl; apply Hpush.
  - destruct (groupByAssignee _ p) as [e|m']; [discriminate|].
    intros Heq; inversion Heq; subst; clear Heq.
    destruct c; simpl; apply Hpush.
Qed.

Lemma processAll_provenance c now projectKey daysStale issues :
  forall report report',
    processAll now projectKey daysStale report issues = inr report' ->
    forall x, In x (categoryList c report') ->
      In x (categoryList c report)
      \/ exists issue,
           In issue issues
           /\ x = CategorizedIssue.data (processIssue now issue jiraBaseUrl daysStale)
           /\ hasCategory
                (CategorizedIssue.categories
                   (processIssue now issue jiraBaseUrl daysStale)) c = true.
Proof.
  induction issues as [|issue rest IH]; intros report report'; simpl.
  - intros Heq; inversion Heq; auto.
  - destruct (processOne now projectKey daysStale report issue) as [e|r1] eqn:Hone;
      [discriminate|].
    intros Hall x Hx.
    destruct (IH _ _ Hall x Hx) as [Hin|(i & Hi & Hd & Hc)].
    + destruct (processOne_provenance c _ _ _ _ _ _ Hone x Hin) as [Hin'|[Hd Hc]].
      * left; exact Hin'.
      * right. exists issue. auto.
    + right. exists i. auto.
Qed.

Lemma buildReport_provenance c now activeSprint issues projectKey daysStale report :
  buildReport now activeSprint issues projectKey daysStale = inr report ->
  forall x, In x (categoryList c report) ->
    exists issue,
      In issue issues
      /\ x = CategorizedIssue.data (processIssue now issue jiraBaseUrl daysStale)
      /\ hasCategory
           (CategorizedIssue.categories
              (processIssue now issue jiraBaseUrl daysStale)) c = true.
Proof.
  unfold buildReport.
  destruct (processAll _ _ _ _ _) as [e|r] eqn:Hall; [discriminate|].
  intros Heq x Hx; inversion Heq; subst; clear Heq.
  assert (Hin : In x (categoryList c r)).
  { destruct c; simpl in *; try exact Hx;
      (eapply Permutation_in; [apply arraySort_perm | exact Hx]). }
  destruct (processAll_provenance c _ _ _ _ _ _ Hall x Hin) as [Hinit|Hex];
    [|exact Hex].
  destruct c; simpl in Hinit; contradiction.
Qed.

Lemma stale_category_days now issue baseUrl daysStale :
  hasCategory (CategorizedIssue.categories (processIssue now issue baseUrl daysStale))
              stale = true ->
  exists z,
    IssueData.daysSinceUpdate
      (CategorizedIssue.data (processIssue now issue baseUrl daysStale)) = Num z
    /\ daysStale < z.
Proof.
  unfold processIssue; simpl. unfold computeCategories.
  set (d := computeDaysSinceUpdate now _).
  destruct (categorizeStatus _); [discriminate| |];
    (destruct (number_gtb d daysStale) eqn:Hgt;
     [ destruct d as [|z]; [discriminate|]; simpl in Hgt;
       intros _; exists z; split; [reflexivity | lia]
     | destruct (isOverdue _ _), (JiraIssue.assignee issue),
         (arrayIncludes _ "blocked" || arrayIncludes _ "impediment" || includes _ "blocked");
       simpl; discriminate ]).
Qed.

Lemma lexCompare_antisym a : forall b, lexCompare a b = CompOpp (lexCompare b a).
Proof.
  induction a as [|x a IH]; intros [|y b]; simpl; try reflexivity.
  rewrite (N.compare_antisym (N_of_ascii x) (N_of_ascii y)).
  destruct (N_of_ascii x ?= N_of_ascii y)%N; simpl; auto.
Qed.

Lemma lexLe_empty s : lexLe "" s.
Proof. unfold lexLe. destruct s; simpl; discriminate. Qed.

Lemma strOr_strOrNull s d : strOr (strOrNull s) d = strOr s d.
Proof. destruct s as [[|c s]|]; reflexivity. Qed.

Lemma overdue_keys_from_sprint now activeSprint issues projectKey daysStale report :
  buildReport now activeSprint issues projectKey daysStale = inr report ->
  forall v, In v (StandupReport.overdueIssues report) ->
    exists i, In i issues /\ dueKey v = rawDueKey i.
Proof.
  intros Hb v Hv.
  destruct (buildReport_provenance overdue _ _ _ _ _ _ Hb v Hv)
    as (i & Hi & -> & _).
  exists i. split; [exact Hi|]. unfold dueKey, rawDueKey; simpl.
  apply strOr_strOrNull.
Qed.

Lemma overdue_sorted_by_collation now activeSprint issues projectKey daysStale report :
  buildReport now activeSprint issues projectKey daysStale = inr report ->
  (forall i j, In i issues -> In j issues ->
     0 < localeCompare (rawDueKey i) (rawDueKey j) ->
     localeCompare (rawDueKey j) (rawDueKey i) <= 0) ->
  forall n x y,
    StandupReport.overdueIssues report !! n = Some x ->
    StandupReport.overdueIssues report !! S n = Some y ->
    localeCompare (dueKey x) (dueKey y) <= 0.
Proof.
  intros Hb Htot n x y Hx Hy.
  pose proof (overdue_keys_from_sprint _ _ _ _ _ _ Hb) as Hkey.
  assert (Hs : Sorted (sortedBy compareOverdue) (StandupReport.overdueIssues report)).
  { unfold buildReport in Hb.
    destruct (processAll _ _ _ _ _) as [e|r] eqn:Hall; [discriminate|].
    inversion Hb; subst; simpl in *.
    apply arraySort_Sorted. intros a b Ha Hb' Hnot.
    assert (Ha' : In a (arraySort compareOverdue (StandupReport.overdueIssues r)))
      by (eapply Permutation_in; [symmetry; apply arraySort_perm | exact Ha]).
    assert (Hb'' : In b (arraySort compareOverdue (StandupReport.overdueIssues r)))
      by (eapply Permutation_in; [symmetry; apply arraySort_perm | exact Hb']).
    destruct (Hkey a Ha') as (i & Hi & Hki).
    destruct (Hkey b Hb'') as (j & Hj & Hkj).
    pose proof (Htot i j Hi Hj) as Hij. rewrite <- Hki, <- Hkj in Hij.
    unfold sortedBy, compareOverdue in *. simpl in *.
    fold (dueKey a) in *. fold (dueKey b) in *. lia. }
  exact (Sorted_adjacent _ _ Hs n x y Hx Hy).
Qed.

Lemma lexLe_of_empty a : lexLe a "" -> a = "".
Proof. unfold lexLe. destruct a; simpl; [reflexivity | congruence]. Qed.

(** C4. In a built report the stale list is in descending order of
    [daysSinceUpdate], all of which are numbers. The overdue list is
    sorted with [localeCompare] on [duedate || '']. When the due dates of
    the sprint are ISO dates (YYYY-MM-DD) or absent, and the platform
    collates ISO dates and the empty string as the plain comparison of
    strings does, the overdue list is in ascending order of due date under
    the plain lexicographic comparison, and an issue without a due date
    never comes after one that has one. *)
Theorem report_lists_sorted now activeSprint issues projectKey daysStale report :
  buildReport now activeSprint issues projectKey daysStale = inr report ->
  (forall n x y,
     StandupReport.staleIssues report !! n = Some x ->
     StandupReport.staleIssues report !! S n = Some y ->
     exists dx dy,
       IssueData.daysSinceUpdate x = Num dx
       /\ IssueData.daysSinceUpdate y = Num dy /\ dx >= dy)
  /\ (collatesDueDatesPlainly ->
      dueDatesAreIso issues = true ->
      forall n x y,
        StandupReport.overdueIssues report !! n = Some x ->
        StandupReport.overdueIssues report !! S n = Some y ->
        lexLe (dueKey x) (dueKey y)
        /\ (dueKey y = "" -> dueKey x = "")).
Proof.
  intros Hb. split.
  - intros n x y Hx Hy.
    assert (Hnum : forall v, In v (StandupReport.staleIssues report) ->
                   exists z, IssueData.daysSinceUpdate v = Num z).
    { intros v Hv.
      destruct (buildReport_provenance stale _ _ _ _ _ _ Hb v Hv)
        as (i & _ & -> & Hc).
      destruct (stale_category_days _ _ _ _ Hc) as (z & Hz & _). eauto. }
    destruct (Hnum x) as [dx Hdx].
    { apply list_elem_of_In. eapply list_elem_of_lookup_2; eauto. }
    destruct (Hnum y) as [dy Hdy].
    { apply list_elem_of_In. eapply list_elem_of_lookup_2; eauto. }
    exists dx, dy. repeat split; try assumption.
    assert (Hs : Sorted (sortedBy compareStale) (StandupReport.staleIssues report)).
    { unfold buildReport in Hb.
      destruct (processAll _ _ _ _ _) as [e|r]; [discriminate|].
      inversion Hb; subst; simpl.
      apply arraySort_Sorted. intros a b _ _. unfold sortedBy, compareStale.
      destruct (IssueData.daysSinceUpdate a), (IssueData.daysSinceUpdate b);
        simpl; lia. }
    pose proof (Sorted_adjacent _ _ Hs n x y Hx Hy) as Hxy.
    unfold sortedBy, compareStale in Hxy. rewrite Hdx, Hdy in Hxy. simpl in Hxy. lia.
  - intros Hplatform Hiso n x y Hx Hy.
    assert (Hcol : forall i j, In i issues -> In j issues ->
                               collatesPlainly (rawDueKey i) (rawDueKey j)).
    { intros i j Hi Hj. unfold dueDatesAreIso in Hiso.
      rewrite forallb_forall in Hiso. apply Hplatform; apply Hiso; assumption. }
    pose proof (overdue_keys_from_sprint _ _ _ _ _ _ Hb) as Hkey.
    assert (Hxy : localeCompare (dueKey x) (dueKey y) <= 0).
    { eapply overdue_sorted_by_collation; eauto.
      intros i j Hi Hj Hpos.
      pose proof (Hcol i j Hi Hj) as Hij. pose proof (Hcol j i Hj Hi) as Hji.
      unfold collatesPlainly in Hij, Hji.
      rewrite (lexCompare_antisym (rawDueKey j) (rawDueKey i)), <- Hij in Hji.
      apply Z.compare_gt_iff in Hpos. rewrite Hpos in Hji. simpl in Hji.
      rewrite Z.compare_lt_iff in Hji. lia. }
    destruct (Hkey x) as (i & Hi & Hki).
    { apply list_elem_of_In. eapply list_elem_of_lookup_2; eauto. }
    destruct (Hkey y) as (j & Hj & Hkj).
    { apply list_elem_of_In. eapply list_elem_of_lookup_2; eauto. }
    pose proof (Hcol i j Hi Hj) as Hij. unfold collatesPlainly in Hij.
    rewrite <- Hki, <- Hkj in Hij.
    assert (Hle : lexLe (dueKey x) (dueKey y)).
    { unfold lexLe. rewrite <- Hij. intros Hgt.
      rewrite Z.compare_gt_iff in Hgt. lia. }
    split; [exact Hle|].
    intros Hempty. rewrite Hempty in Hle. apply lexLe_of_empty. exact Hle.
Qed.

End BuilderProperties.

(* ================================================================== *)
(** * Properties of the retry executor *)
(* ================================================================== *)

Section RetryProperties.
Context `{Runtime}.

Lemma ErrorCode_eqb_eq a b : ErrorCode_eqb a b = true <-> a = b.
Proof. split; [destruct a, b; simpl; congruence | intros ->; destruct b; reflexivity]. Qed.

Lemma fromAxiosError_status timestamp error :
  BaseError.statusCode (ApiError.fromAxiosError timestamp error)
  = AxiosError.status error
  /\ BaseError.cls (ApiError.fromAxiosError timestamp error) = ClsApiError.
Proof. split; reflexivity. Qed.

Lemma classifyStatus_timeout statusCode message :
  fst (ApiError.classifyStatus statusCode message) = API_TIMEOUT
  <-> statusCode = Some 408 \/ statusCode = Some 504.
Proof.
  destruct statusCode as [[|p|p]|]; simpl;
    try solve [split; [discriminate | intros [Hh|Hh]; discriminate]].
  do 10 (try destruct p as [p|p|]; simpl;
         try solve [split; [discriminate | intros [Hh|Hh]; discriminate]
                   | split; auto]).
Qed.

Lemma fromAxiosError_timeout timestamp error :
  BaseError.code (ApiError.fromAxiosError timestamp error) = API_TIMEOUT
  <-> AxiosError.status error = Some 408 \/ AxiosError.status error = Some 504.
Proof. apply classifyStatus_timeout. Qed.

(** C7. The default [shouldRetry] answers true exactly for an [ApiError]
    (or a subclass) whose status is at least 500, whose status is 429, or
    whose code is the timeout code; so never for another 4xx error. The
    classifier [fromAxiosError] gives the timeout code exactly to the
    statuses 408 and 504, so that of the 4xx errors it builds only 429 and
    408 are retried. *)
Theorem default_shouldRetry_characterised error attempt :
  (RetryHelper.defaultShouldRetry error attempt = true <->
   exists e,
     error = ThrownBase e
     /\ instanceofApiError (BaseError.cls e) = true
     /\ (500 <= default 0 (BaseError.statusCode e)
         \/ BaseError.statusCode e = Some 429
         \/ BaseError.code e = API_TIMEOUT))
  /\ (forall e status,
        error = ThrownBase e ->
        BaseError.statusCode e = Some status ->
        400 <= status < 500 -> status <> 429 ->
        BaseError.code e <> API_TIMEOUT ->
        RetryHelper.defaultShouldRetry error attempt = false)
  /\ (forall timestamp response,
        BaseError.code (ApiError.fromAxiosError timestamp response) = API_TIMEOUT
        <-> AxiosError.status response = Some 408
            \/ AxiosError.status response = Some 504)
  /\ (forall timestamp response status,
        AxiosError.status response = Some status ->
        400 <= status < 500 ->
        (RetryHelper.defaultShouldRetry
           (ThrownBase (ApiError.fromAxiosError timestamp response)) attempt = true
         <-> status = 429 \/ status = 408)).
Proof.
  assert (Hchar : forall err,
    RetryHelper.defaultShouldRetry err attempt = true <->
    exists e,
      err = ThrownBase e
      /\ instanceofApiError (BaseError.cls e) = true
      /\ (500 <= default 0 (BaseError.statusCode e)
          \/ BaseError.statusCode e = Some 429
          \/ BaseError.code e = API_TIMEOUT)).
  { intros err. unfold RetryHelper.defaultShouldRetry. split.
    - destruct err as [e| |]; try discriminate.
      destruct (instanceofApiError (BaseError.cls e)) eqn:Hcls; [|discriminate].
      intros Hb. exists e. split; [reflexivity|]. split; [exact Hcls|].
      apply orb_prop in Hb. destruct Hb as [Hb|Hb].
      + apply orb_prop in Hb. destruct Hb as [Hb|Hb]; [left; lia|].
        right; left. destruct (BaseError.statusCode e) as [s|]; simpl in Hb;
          [f_equal; lia | discriminate].
      + right; right. apply ErrorCode_eqb_eq; exact Hb.
    - intros (e & -> & Hcls & Hor). rewrite Hcls.
      destruct Hor as [Hs|[Hs|Hc]].
      + apply orb_true_intro; left. apply orb_true_intro; left. lia.
      + rewrite Hs; simpl. reflexivity.
      + rewrite Hc. simpl. apply orb_true_r. }
  split; [apply Hchar|]. split; [|split].
  - intros e status -> Hs Hrange Hne Hcode.
    destruct (RetryHelper.defaultShouldRetry (ThrownBase e) attempt) eqn:Hb;
      [|reflexivity].
    apply Hchar in Hb. destruct Hb as (e' & Heq & _ & Hor).
    inversion Heq; subst e'. rewrite Hs in Hor. simpl in Hor.
    destruct Hor as [?|[Heq'|?]]; [lia | inversion Heq'; lia | contradiction].
  - intros timestamp response. apply fromAxiosError_timeout.
  - intros timestamp response status Hs Hrange.
    rewrite Hchar. split.
    + intros (e & Heq & _ & Hor). inversion Heq; subst e; clear Heq.
      destruct (fromAxiosError_status timestamp response) as [Hst _].
      rewrite Hst, Hs in Hor. simpl in Hor.
      destruct Hor as [?|[Heq|Hc]]; [lia | inversion Heq; left; reflexivity |].
      apply (proj1 (classifyStatus_timeout _ _)) in Hc. rewrite Hs in Hc.
      destruct Hc as [Hc|Hc]; inversion Hc; [right; reflexivity | lia].
    + intros Hor. eexists. split; [reflexivity|].
      destruct (fromAxiosError_status timestamp response) as [Hst Hcls].
      rewrite Hcls, Hst, Hs. split; [reflexivity|].
      destruct Hor as [->| ->]; [right; left; reflexivity|].
      right; right. apply fromAxiosError_timeout. left; exact Hs.
Qed.

(** ** The retry loop *)

Lemma retryFrom_success {T : Type} (operation : M T) options rounds attempt delay
    lastError w v w1 :
  attempt <= RetryHelper.maxAttemptsOf options ->
  operation w = (Returned v, w1) ->
  RetryHelper.retryFrom operation options (S rounds) attempt delay lastError w
  = (Returned v, w1).
Proof.
  intros Hle Hop. simpl.
  destruct (attempt <=? RetryHelper.maxAttemptsOf options) eqn:E; [|lia].
  unfold tryCatch. rewrite Hop. reflexivity.
Qed.

Lemma retryFrom_give_up {T : Type} (operation : M T) options rounds attempt delay
    lastError w e w1 :
  attempt <= RetryHelper.maxAttemptsOf options ->
  operation w = (Threw e, w1) ->
  attempt = RetryHelper.maxAttemptsOf options
  \/ RetryHelper.shouldRetryOf options e attempt = false ->
  RetryHelper.retryFrom operation options (S rounds) attempt delay lastError w
  = (Threw e, w1).
Proof.
  intros Hle Hop Hstop. simpl.
  destruct (attempt <=? RetryHelper.maxAttemptsOf options) eqn:E; [|lia].
  unfold tryCatch. rewrite Hop.
  destruct Hstop as [->|Hno].
  - rewrite Z.eqb_refl. reflexivity.
  - rewrite Hno. rewrite orb_true_r. reflexivity.
Qed.

Lemma retryFrom_again {T : Type} (operation : M T) options rounds attempt delay
    lastError w e w1 :
  attempt < RetryHelper.maxAttemptsOf options ->
  operation w = (Threw e, w1) ->
  RetryHelper.shouldRetryOf options e attempt = true ->
  RetryHelper.retryFrom operation options (S rounds) attempt delay lastError w
  = RetryHelper.retryFrom operation options rounds (attempt + 1)
      (Z.min (delay * RetryHelper.factorOf options) (RetryHelper.maxDelayOf options))
      e (snd (sleep delay w1)).
Proof.
  intros Hlt Hop Hyes. simpl.
  destruct (attempt <=? RetryHelper.maxAttemptsOf options) eqn:E; [|lia].
  unfold tryCatch. rewrite Hop.
  destruct (attempt =? RetryHelper.maxAttemptsOf options) eqn:E2; [lia|].
  rewrite Hyes. simpl. reflexivity.
Qed.

(** C6. With [maxAttempts = 3]: an operation that fails retryably on
    attempts 1 and 2 and succeeds on attempt 3 yields its result, after
    delays of [initialDelay] and [min(initialDelay * factor, maxDelay)];
    one that fails three times yields its last error. In general, a
    success is returned at once; a failure is rethrown at once when the
    attempt is the last one or [shouldRetry] refuses; otherwise the loop
    sleeps for [delay] and goes on with the next attempt and the delay
    [min(delay * factor, maxDelay)]. Under the default [shouldRetry] an
    [ApiError] of status 503 is retried. *)
Theorem retry_with_three_attempts {T : Type} (operation : M T) options :
  RetryHelper.maxAttemptsOf options = 3 ->
  let d1 := RetryHelper.initialDelayOf options in
  let d2 := Z.min (d1 * RetryHelper.factorOf options) (RetryHelper.maxDelayOf options) in
  (forall w0 e1 w1 e2 w2 v w3,
     operation w0 = (Threw e1, w1) ->
     RetryHelper.shouldRetryOf options e1 1 = true ->
     operation (snd (sleep d1 w1)) = (Threw e2, w2) ->
     RetryHelper.shouldRetryOf options e2 2 = true ->
     operation (snd (sleep d2 w2)) = (Returned v, w3) ->
     RetryHelper.retry operation options w0 = (Returned v, w3))
  /\ (forall w0 e1 w1 e2 w2 e3 w3,
        operation w0 = (Threw e1, w1) ->
        RetryHelper.shouldRetryOf options e1 1 = true ->
        operation (snd (sleep d1 w1)) = (Threw e2, w2) ->
        RetryHelper.shouldRetryOf options e2 2 = true ->
        operation (snd (sleep d2 w2)) = (Threw e3, w3) ->
        RetryHelper.retry operation options w0 = (Threw e3, w3))
  /\ (forall rounds attempt delay lastError w v w1,
        attempt <= 3 ->
        operation w = (Returned v, w1) ->
        RetryHelper.retryFrom operation options (S rounds) attempt delay lastError w
        = (Returned v, w1))
  /\ (forall rounds attempt delay lastError w e w1,
        attempt <= 3 ->
        operation w = (Threw e, w1) ->
        (attempt = 3 \/ RetryHelper.shouldRetryOf options e attempt = false ->
         RetryHelper.retryFrom operation options (S rounds) attempt delay lastError w
         = (Threw e, w1))
        /\ (attempt < 3 -> RetryHelper.shouldRetryOf options e attempt = true ->
            RetryHelper.retryFrom operation options (S rounds) attempt delay lastError w
            = RetryHelper.retryFrom operation options rounds (attempt + 1)
                (Z.min (delay * RetryHelper.factorOf options)
                       (RetryHelper.maxDelayOf options))
                e (snd (sleep delay w1))))
  /\ (forall e attempt,
        instanceofApiError (BaseError.cls e) = true ->
        BaseError.statusCode e = Some 503 ->
        RetryHelper.defaultShouldRetry (ThrownBase e) attempt = true).
Proof.
  intros Hmax d1 d2.
  assert (Hrounds : Z.to_nat (RetryHelper.maxAttemptsOf options) = 3%nat)
    by (rewrite Hmax; reflexivity).
  split; [|split; [|split; [|split]]].
  - intros w0 e1 w1 e2 w2 v w3 H1 R1 H2 R2 H3.
    unfold RetryHelper.retry. rewrite Hrounds.
    subst d1 d2.
    rewrite (retryFrom_again operation options 2 1 _ ThrownUndefined w0 e1 w1
               ltac:(lia) H1 R1).
    rewrite (retryFrom_again operation options 1 (1 + 1) _ e1 _ e2 w2
               ltac:(lia) H2 R2).
    apply retryFrom_success; [lia | exact H3].
  - intros w0 e1 w1 e2 w2 e3 w3 H1 R1 H2 R2 H3.
    unfold RetryHelper.retry. rewrite Hrounds.
    subst d1 d2.
    rewrite (retryFrom_again operation options 2 1 _ ThrownUndefined w0 e1 w1
               ltac:(lia) H1 R1).
    rewrite (retryFrom_again operation options 1 (1 + 1) _ e1 _ e2 w2
               ltac:(lia) H2 R2).
    apply retryFrom_give_up; [lia | exact H3 | left; lia].
  - intros rounds attempt delay lastError w v w1 Hle Hop.
    apply retryFrom_success; [lia | exact Hop].
  - intros rounds attempt delay lastError w e w1 Hle Hop. split.
    + intros Hstop. apply retryFrom_give_up; [lia | exact Hop |].
      destruct Hstop; [left; lia | right; assumption].
    + intros Hlt Hyes. apply retryFrom_again; [lia | exact Hop | exact Hyes].
  - intros e attempt Hcls Hs. unfold RetryHelper.defaultShouldRetry.
    rewrite Hcls, Hs. reflexivity.
Qed.

End RetryProperties.

(* ================================================================== *)
(** * Properties of the cache store *)
(* ================================================================== *)

Lemma mapGet_mapDelete_same k m :
  CacheManager.mapGet k (CacheManager.mapDelete k m) = None.
Proof.
  unfold CacheManager.mapDelete.
  induction m as [|[k' e] m IH]; simpl; [reflexivity|].
  destruct (String.eqb k' k) eqn:E; simpl; [exact IH|].
  rewrite E. exact IH.
Qed.

Lemma mapGet_mapDelete_Some k k' m e :
  CacheManager.mapGet k (CacheManager.mapDelete k' m) = Some e ->
  CacheManager.mapGet k m = Some e.
Proof.
  unfold CacheManager.mapDelete.
  induction m as [|[k0 e0] m IH]; simpl; [discriminate|].
  destruct (String.eqb k0 k') eqn:E; simpl.
  - intros Hg. specialize (IH Hg).
    destruct (String.eqb k0 k) eqn:E2; [|exact IH].
    apply String.eqb_eq in E, E2. subst.
    pose proof (mapGet_mapDelete_same k m) as Hn.
    unfold CacheManager.mapDelete in Hn. rewrite Hn in Hg. discriminate.
  - destruct (String.eqb k0 k); [auto | exact IH].
Qed.

Lemma mapGet_mapSet_same k v m :
  CacheManager.mapGet k (CacheManager.mapSet k v m) = Some v.
Proof.
  induction m as [|[k' e] m IH]; simpl.
  - rewrite String.eqb_refl. reflexivity.
  - destruct (String.eqb k' k) eqn:E; simpl.
    + rewrite String.eqb_refl. reflexivity.
    + rewrite E. exact IH.
Qed.

Lemma getFullKey_evictOldest c key :
  CacheManager.getFullKey (CacheManager.evictOldest c) key
  = CacheManager.getFullKey c key.
Proof.
  unfold CacheManager.evictOldest.
  destruct (strOrNull _); reflexivity.
Qed.

(** After [set], a lookup of the key finds the entry just written. *)
Lemma set_then_lookup now c key data ttl :
  let c' := CacheManager.set now c key data (Some ttl) in
  CacheManager.getFullKey c' key = CacheManager.getFullKey c key
  /\ CacheManager.mapGet (CacheManager.getFullKey c key) (CacheManager.cache c')
     = Some {| CacheEntry.data := data;
               CacheEntry.expiry :=
                 now + (if ttl =? 0 then CacheManager.defaultTTL c else ttl) * 1000;
               CacheEntry.key := CacheManager.getFullKey c key |}.
Proof.
  unfold CacheManager.set. cbv zeta.
  set (c1 := if _ : bool then CacheManager.evictOldest c else c).
  assert (Hp : CacheManager.prefix c1 = CacheManager.prefix c).
  { unfold c1. destruct (_ && _); [|reflexivity].
    unfold CacheManager.evictOldest. destruct (strOrNull _); reflexivity. }
  split.
  - unfold CacheManager.getFullKey. simpl. rewrite Hp. reflexivity.
  - simpl. rewrite mapGet_mapSet_same. f_equal. f_equal.
    destruct ttl; reflexivity.
Qed.

(** A read that answers [null] leaves no entry under the key, and nothing
    in the store that was not there before. *)
Lemma get_miss now c key c' :
  CacheManager.get now c key = (None, c') ->
  CacheManager.getFullKey c' key = CacheManager.getFullKey c key
  /\ CacheManager.mapGet (CacheManager.getFullKey c key) (CacheManager.cache c') = None
  /\ forall k e, CacheManager.mapGet k (CacheManager.cache c') = Some e ->
                 CacheManager.mapGet k (CacheManager.cache c) = Some e.
Proof.
  unfold CacheManager.get. cbv zeta.
  destruct (CacheManager.mapGet _ _) as [entry|] eqn:Hg.
  - destruct (CacheEntry.expiry entry <? now); [|discriminate].
    intros Heq; inversion Heq; subst; clear Heq. simpl.
    split; [reflexivity|]. split; [apply mapGet_mapDelete_same|].
    intros k e. apply mapGet_mapDelete_Some.
  - intros Heq; inversion Heq; subst; clear Heq. simpl.
    split; [reflexivity|]. split; [exact Hg | auto].
Qed.

(** A read within the time to live answers the stored data and counts a
    hit. *)
Lemma get_hit now c key entry :
  CacheManager.mapGet (CacheManager.getFullKey c key) (CacheManager.cache c)
  = Some entry ->
  now <= CacheEntry.expiry entry ->
  CacheManager.get now c key
  = (Some (CacheEntry.data entry),
     {| CacheManager.cache := CacheManager.cache c;
        CacheManager.defaultTTL := CacheManager.defaultTTL c;
        CacheManager.maxSize := CacheManager.maxSize c;
        CacheManager.prefix := CacheManager.prefix c;
        CacheManager.hitCount := CacheManager.hitCount c + 1;
        CacheManager.missCount := CacheManager.missCount c |}).
Proof.
  intros Hg Hle. unfold CacheManager.get. cbv zeta. rewrite Hg.
  destruct (CacheEntry.expiry entry <? now) eqn:E; [lia | reflexivity].
Qed.

(* ================================================================== *)
(** * Properties of the gateway *)
(* ================================================================== *)

Section GatewayProperties.
Context `{Runtime} `{Upstream}.

Ltac run := unfold mbind, M_bind, bind, mret, M_ret, ret, throw, tryCatch, diverge.

Lemma keepsCache_request r : keepsCache (request r).
Proof.
  intros w. unfold request.
  destruct (respond _ _ _) as [latency [error|data]]; reflexivity.
Qed.

Lemma keepsCache_retryFrom {T : Type} (operation : M T) options :
  keepsCache operation ->
  forall rounds attempt delay lastError,
    keepsCache (RetryHelper.retryFrom operation options rounds attempt delay lastError).
Proof.
  intros Hop. induction rounds as [|rounds IH]; intros attempt delay lastError w; simpl.
  - reflexivity.
  - destruct (attempt <=? RetryHelper.maxAttemptsOf options); [|reflexivity].
    unfold tryCatch. specialize (Hop w).
    destruct (operation w) as [[v|e|] w1]; simpl in *; try exact Hop.
    destruct ((attempt =? _) || _); [exact Hop|].
    run. simpl. rewrite IH. simpl. exact Hop.
Qed.

Lemma keepsCache_retry {T : Type} (operation : M T) options :
  keepsCache operation -> keepsCache (RetryHelper.retry operation options).
Proof. intros Hop. apply keepsCache_retryFrom; exact Hop. Qed.

Lemma keepsCache_pages budget :
  forall sprintId startAt allIssues,
    keepsCache (getSprintTicketsPaginated budget sprintId startAt allIssues).
Proof.
  induction budget as [|budget IH]; intros sprintId startAt allIssues w; simpl.
  - reflexivity.
  - run.
    pose proof (keepsCache_retry (request (GetSprintIssues sprintId startAt pageSize))
                  threeAttempts (keepsCache_request _) w) as Hr.
    destruct (RetryHelper.retry _ _ w) as [[response|e|] w1]; simpl in *;
      try exact Hr.
    destruct (startAt + pageSize <? _); [|exact Hr].
    rewrite IH. exact Hr.
Qed.

Lemma growsTrace_retryFrom {T : Type} (operation : M T) options :
  growsTrace operation ->
  forall rounds attempt delay lastError,
    growsTrace (RetryHelper.retryFrom operation options rounds attempt delay lastError).
Proof.
  intros Hop. induction rounds as [|rounds IH]; intros attempt delay lastError w; simpl.
  - exists []. simpl. rewrite app_nil_r. reflexivity.
  - destruct (attempt <=? RetryHelper.maxAttemptsOf options);
      [|exists []; simpl; rewrite app_nil_r; reflexivity].
    unfold tryCatch. destruct (Hop w) as [ev Hev].
    destruct (operation w) as [[v|e|] w1]; simpl in *; try (exists ev; exact Hev).
    destruct ((attempt =? _) || _); [exists ev; exact Hev|].
    run. simpl.
    destruct (IH (attempt + 1)
                 (Z.min (delay * RetryHelper.factorOf options)
                        (RetryHelper.maxDelayOf options)) e
                 {| World.clock := World.clock w1 + delay;
                    World.sprintCache := World.sprintCache w1;
                    World.trace := World.trace w1 ++ [EvSleep delay] |})
      as [ev' Hev'].
    exists (ev ++ [EvSleep delay] ++ ev')%list.
    rewrite Hev'. simpl. rewrite Hev. rewrite <- !app_assoc. reflexivity.
Qed.

(** A retried request starts by sending the request. *)
Lemma retry_request_first r options w :
  1 <= RetryHelper.maxAttemptsOf options ->
  exists rest,
    World.trace (snd (RetryHelper.retry (request r) options w))
    = (World.trace w ++ EvRequest r :: rest)%list.
Proof.
  intros Hmax. unfold RetryHelper.retry.
  destruct (Z.to_nat (RetryHelper.maxAttemptsOf options)) as [|rounds] eqn:Hr; [lia|].
  simpl. destruct (1 <=? RetryHelper.maxAttemptsOf options) eqn:E; [|lia].
  unfold tryCatch.
  assert (Hreq : World.trace (snd (request r w)) = (World.trace w ++ [EvRequest r])%list).
  { unfold request. destruct (respond _ _ _) as [latency [error|data]]; reflexivity. }
  destruct (request r w) as [[v|e|] w1]; simpl in *;
    try (exists []; exact Hreq).
  match goal with
  | |- context [if ?b then _ else _] => destruct b; [exists []; exact Hreq|]
  end.
  run. simpl.
  assert (Hgrow : growsTrace (request r)).
  { intros w0. exists [EvRequest r]. unfold request.
    destruct (respond _ _ _) as [latency [error|data]]; reflexivity. }
  destruct (growsTrace_retryFrom (request r) options Hgrow rounds (1 + 1)
              (Z.min (RetryHelper.initialDelayOf options * RetryHelper.factorOf options)
                     (RetryHelper.maxDelayOf options)) e
              {| World.clock := World.clock w1 + RetryHelper.initialDelayOf options;
                 World.sprintCache := World.sprintCache w1;
                 World.trace := World.trace w1 ++ [EvSleep (RetryHelper.initialDelayOf options)] |})
    as [ev Hev].
  exists (EvSleep (RetryHelper.initialDelayOf options) :: ev).
  rewrite Hev. simpl. rewrite Hreq. rewrite <- !app_assoc. reflexivity.
Qed.

(** C8. On a cache miss, [getActiveSprint] answers the first sprint of the
    upstream response, or [null] when there is none. A [null] answer
    leaves the cache as the read left it, with no entry under the key of
    the board, so that any later call with the store in that state sends
    the upstream request again. A sprint is stored under the key of the
    board with an expiry 600 seconds after the time of the write. *)
Theorem getActiveSprint_caches_only_sprints boardId w c1 response w2 :
  let key := CacheKeys.sprint boardId in
  let fullKey := CacheManager.getFullKey (World.sprintCache w) key in
  CacheManager.get (World.clock w) (World.sprintCache w) key = (None, c1) ->
  RetryHelper.retry (request (GetBoardSprints boardId)) sprintLookupOptions
    (afterRead w c1) = (Returned response, w2) ->
  match head (default [] (ResponseData.values response)) with
  | None =>
      getActiveSprint boardId w = (Returned None, w2)
      /\ World.sprintCache w2 = c1
      /\ CacheManager.mapGet fullKey (CacheManager.cache (World.sprintCache w2)) = None
      /\ forall later,
           World.sprintCache later = World.sprintCache w2 ->
           exists rest,
             World.trace (snd (getActiveSprint boardId later))
             = (World.trace later ++ EvRequest (GetBoardSprints boardId) :: rest)%list
  | Some sprint =>
      exists w3,
        getActiveSprint boardId w = (Returned (Some sprint), w3)
        /\ World.clock w3 = World.clock w2 /\ World.trace w3 = World.trace w2
        /\ CacheManager.mapGet fullKey (CacheManager.cache (World.sprintCache w3))
           = Some {| CacheEntry.data := DSprint sprint;
                     CacheEntry.expiry := World.clock w2 + 600 * 1000;
                     CacheEntry.key := fullKey |}
  end.
Proof.
  intros key fullKey Hget Hretry.
  pose proof (get_miss _ _ _ _ Hget) as (Hfk & Hnone & _).
  pose proof (keepsCache_retry (request (GetBoardSprints boardId)) sprintLookupOptions
                (keepsCache_request _) (afterRead w c1)) as Hkeep.
  rewrite Hretry in Hkeep. simpl in Hkeep.
  assert (Hrun : getActiveSprint boardId w =
                 match head (default [] (ResponseData.values response)) with
                 | Some sprint =>
                     (_ ← cacheSet key (DSprint sprint) 600; mret (Some sprint)) w2
                 | None => (Returned None, w2)
                 end).
  { unfold getActiveSprint. run. unfold cacheGet. fold key. rewrite Hget.
    fold (afterRead w c1). rewrite Hretry.
    destruct (head _); reflexivity. }
  destruct (head (default [] (ResponseData.values response))) as [sprint|] eqn:Hhead.
  - eexists. split; [rewrite Hrun; run; unfold cacheSet; reflexivity|].
    simpl. split; [reflexivity|]. split; [reflexivity|].
    rewrite Hkeep.
    pose proof (set_then_lookup (World.clock w2) c1 key (DSprint sprint) 600)
      as [_ Hlook].
    fold key fullKey in Hfk. rewrite Hfk in Hlook. exact Hlook.
  - split; [exact Hrun|]. split; [exact Hkeep|]. split.
    + rewrite Hkeep. exact Hnone.
    + intros later Hsame.
      assert (Hmiss : exists c2,
                CacheManager.get (World.clock later) (World.sprintCache later) key
                = (None, c2)).
      { unfold CacheManager.get. cbv zeta.
        rewrite Hsame, Hkeep. fold key. rewrite Hfk. fold fullKey in Hnone.
        fold fullKey. rewrite Hnone. eexists; reflexivity. }
      destruct Hmiss as [c2 Hc2].
      destruct (retry_request_first (GetBoardSprints boardId) sprintLookupOptions
                  (afterRead later c2) ltac:(vm_compute; discriminate))
        as [rest Hrest].
      unfold getActiveSprint. run. unfold cacheGet. fold key. rewrite Hc2.
      fold (afterRead later c2).
      destruct (RetryHelper.retry _ _ (afterRead later c2)) as [[resp|e|] w4];
        simpl in *; try (exists rest; exact Hrest).
      destruct (head (default [] (ResponseData.values resp)));
        simpl; exists rest; exact Hrest.
Qed.

(** ** Pagination *)

Lemma get_no_new_entries now c key r c' :
  CacheManager.get now c key = (r, c') ->
  forall k e, CacheManager.mapGet k (CacheManager.cache c') = Some e ->
              CacheManager.mapGet k (CacheManager.cache c) = Some e.
Proof.
  destruct r as [d|].
  - unfold CacheManager.get. cbv zeta.
    destruct (CacheManager.mapGet _ _) as [entry|]; [|discriminate].
    destruct (CacheEntry.expiry entry <? now); [discriminate|].
    intros Heq; inversion Heq; subst; auto.
  - intros Hg. apply (get_miss _ _ _ _ Hg).
Qed.

Lemma pages_step budget sprintId startAt acc w :
  getSprintTicketsPaginated (S budget) sprintId startAt acc w
  = match RetryHelper.retry (request (GetSprintIssues sprintId startAt pageSize))
            threeAttempts w with
    | (Returned response, w1) =>
        if startAt + pageSize <? default 0 (ResponseData.total response)
        then getSprintTicketsPaginated budget sprintId (startAt + pageSize)
               (acc ++ default [] (ResponseData.issues response))%list w1
        else (Returned (acc ++ default [] (ResponseData.issues response))%list, w1)
    | (Threw e, w1) => (Threw e, w1)
    | (Diverged, w1) => (Diverged, w1)
    end.
Proof.
  simpl. run.
  destruct (RetryHelper.retry _ _ w) as [[response|e|] w1]; try reflexivity.
  destruct (_ <? _); reflexivity.
Qed.

Lemma request_served sprintId store (k : nat) w :
  servesPages sprintId store ->
  exists data w1,
    RetryHelper.retry (request (GetSprintIssues sprintId (50 * Z.of_nat k) pageSize))
      threeAttempts w = (Returned data, w1)
    /\ ResponseData.issues data = Some (take 50 (drop (50 * k) store))
    /\ ResponseData.total data = Some (Z.of_nat (length store))
    /\ World.trace w1
       = (World.trace w ++ [EvRequest (GetSprintIssues sprintId (50 * Z.of_nat k) 50)])%list
    /\ World.sprintCache w1 = World.sprintCache w.
Proof.
  intros Hserve.
  destruct (Hserve (World.trace w) (World.clock w) k)
    as (latency & data & Hresp & Hissues & Htotal).
  exists data. eexists. split; [|split; [exact Hissues | split; [exact Htotal|]]].
  - unfold RetryHelper.retry. apply retryFrom_success; [vm_compute; discriminate|].
    unfold request, pageSize. rewrite Hresp. reflexivity.
  - simpl. split; reflexivity.
Qed.

Lemma pages_served sprintId store :
  servesPages sprintId store ->
  forall (n k : nat) w,
    (1 <= n)%nat ->
    (length store <= 50 * (k + n))%nat ->
    exists (p : nat) w',
      (1 <= p <= n)%nat
      /\ (length store <= 50 * (k + p))%nat
      /\ (p = 1%nat \/ (50 * (k + p - 1) < length store)%nat)
      /\ getSprintTicketsPaginated n sprintId (50 * Z.of_nat k)
           (take (50 * k) store) w = (Returned store, w')
      /\ World.trace w' = (World.trace w ++ pageRequests sprintId k p)%list
      /\ World.sprintCache w' = World.sprintCache w.
Proof.
  intros Hserve. induction n as [|n IH]; intros k w Hn Hcover; [lia|].
  destruct (request_served sprintId store k w Hserve)
    as (data & w1 & Hretry & Hissues & Htotal & Htrace & Hcache).
  assert (Hacc : (take (50 * k) store ++ default [] (ResponseData.issues data))%list
                 = take (50 * (k + 1)) store).
  { rewrite Hissues. simpl default. rewrite take_take_drop. f_equal. lia. }
  assert (Hstep : getSprintTicketsPaginated (S n) sprintId (50 * Z.of_nat k)
                    (take (50 * k) store) w
                  = if 50 * Z.of_nat k + pageSize <? Z.of_nat (length store)
                    then getSprintTicketsPaginated n sprintId
                           (50 * Z.of_nat k + pageSize) (take (50 * (k + 1)) store) w1
                    else (Returned (take (50 * (k + 1)) store), w1)).
  { rewrite pages_step, Hretry, Hacc, Htotal. reflexivity. }
  rewrite Hstep. unfold pageSize.
  destruct (50 * Z.of_nat k + 50 <? Z.of_nat (length store)) eqn:Hmore.
  - assert (Hn' : (1 <= n)%nat) by lia.
    destruct (IH (k + 1)%nat w1 Hn' ltac:(lia))
      as (p & w' & Hp & Hcov & Hlast & Hrun & Htr & Hc).
    exists (S p), w'. split; [lia|]. split; [lia|]. split; [right; lia|].
    split.
    + replace (50 * Z.of_nat k + 50) with (50 * Z.of_nat (k + 1)) by lia.
      exact Hrun.
    + split; [|congruence].
      rewrite Htr, Htrace. unfold pageRequests. simpl.
      rewrite <- app_assoc. simpl. replace (k + 1)%nat with (S k) by lia.
      reflexivity.
  - exists 1%nat, w1. split; [lia|]. split; [lia|]. split; [left; reflexivity|].
    split; [|split; [|exact Hcache]].
    + f_equal. f_equal. apply take_ge. lia.
    + rewrite Htrace. unfold pageRequests. simpl. reflexivity.
Qed.

Lemma pagesFetched_offset sprintId n startAt acc w startAt' acc' w' :
  pagesFetched sprintId n startAt acc w startAt' acc' w' ->
  startAt' = startAt + pageSize * Z.of_nat n.
Proof. induction 1; [lia|]. rewrite IHpagesFetched. lia. Qed.

Lemma pagesFetched_run sprintId n startAt acc w startAt' acc' w' :
  pagesFetched sprintId n startAt acc w startAt' acc' w' ->
  forall budget,
    getSprintTicketsPaginated (n + budget) sprintId startAt acc w
    = getSprintTicketsPaginated budget sprintId startAt' acc' w'.
Proof.
  induction 1 as [|n startAt acc w response w1 startAt' acc' w' Hretry Hmore _ IH];
    intros budget; [reflexivity|].
  rewrite Nat.add_succ_l, pages_step, Hretry.
  destruct (startAt + pageSize <? default 0 (ResponseData.total response)) eqn:E;
    [|lia].
  apply IH.
Qed.

Lemma page_failure sprintId budget startAt acc w e w1 :
  RetryHelper.retry (request (GetSprintIssues sprintId startAt pageSize))
    threeAttempts w = (Threw e, w1) ->
  getSprintTicketsPaginated (S budget) sprintId startAt acc w = (Threw e, w1).
Proof. intros Hretry. rewrite pages_step, Hretry. reflexivity. Qed.

Lemma getSprintTickets_unfold budget sprintId w :
  getSprintTickets budget sprintId w
  = let '(r, c1) :=
      CacheManager.get (World.clock w) (World.sprintCache w)
                       (CacheKeys.sprintIssues sprintId) in
    match r with
    | Some (DIssues l) => (Returned l, afterRead w c1)
    | _ =>
        match getSprintTicketsPaginated budget sprintId 0 [] (afterRead w c1) with
        | (Returned allIssues, w1) =>
            (Returned allIssues,
             snd (cacheSet (CacheKeys.sprintIssues sprintId) (DIssues allIssues) 300 w1))
        | (Threw e, w1) => (Threw e, w1)
        | (Diverged, w1) => (Diverged, w1)
        end
    end.
Proof.
  unfold getSprintTickets. run. unfold cacheGet.
  destruct (CacheManager.get _ _ _) as [r c1]. fold (afterRead w c1).
  destruct r as [[s|l|r]|]; try reflexivity;
    destruct (getSprintTicketsPaginated _ _ _ _ _) as [[v|e|] w1]; reflexivity.
Qed.

(** C5. [getSprintTickets] fetches pages of 50 one after the other, moving
    the offset by 50 until it reaches the reported total. Against a
    tracker that serves a sprint of [length store] issues, a call that
    misses the cache sends exactly [p] page requests, at the offsets 0, 50,
    ..., where [p] is the least number of pages (at least one) that covers
    the sprint, returns all the issues in order and stores them for 300
    seconds; for 120 issues these are the three requests at 0, 50 and 100.
    If the fetch of page [n] fails after its retries, the pages before it
    having been fetched, the call throws that error; and whenever the call
    throws, the store holds no entry that it did not hold before. *)
Theorem getSprintTickets_pages_and_failures sprintId :
  let key := CacheKeys.sprintIssues sprintId in
  (forall store budget w c1,
     servesPages sprintId store ->
     CacheManager.get (World.clock w) (World.sprintCache w) key = (None, c1) ->
     (1 <= budget)%nat -> (length store <= 50 * budget)%nat ->
     exists (p : nat) w',
       (1 <= p)%nat /\ (length store <= 50 * p)%nat
       /\ (p = 1%nat \/ (50 * (p - 1) < length store)%nat)
       /\ (length store = 120%nat -> p = 3%nat)
       /\ getSprintTickets budget sprintId w = (Returned store, w')
       /\ World.trace w' = (World.trace w ++ pageRequests sprintId 0 p)%list
       /\ CacheManager.mapGet
            (CacheManager.getFullKey (World.sprintCache w) key)
            (CacheManager.cache (World.sprintCache w'))
          = Some {| CacheEntry.data := DIssues store;
                    CacheEntry.expiry := World.clock w' + 300 * 1000;
                    CacheEntry.key :=
                      CacheManager.getFullKey (World.sprintCache w) key |})
  /\ (forall n budget w c1 startAt acc wn e w',
        CacheManager.get (World.clock w) (World.sprintCache w) key = (None, c1) ->
        pagesFetched sprintId n 0 [] (afterRead w c1) startAt acc wn ->
        RetryHelper.retry (request (GetSprintIssues sprintId startAt pageSize))
          threeAttempts wn = (Threw e, w') ->
        startAt = 50 * Z.of_nat n
        /\ getSprintTickets (n + S budget) sprintId w = (Threw e, w')
        /\ World.sprintCache w' = c1
        /\ CacheManager.mapGet
             (CacheManager.getFullKey (World.sprintCache w) key)
             (CacheManager.cache (World.sprintCache w')) = None)
  /\ (forall budget w e w',
        getSprintTickets budget sprintId w = (Threw e, w') ->
        forall k entry,
          CacheManager.mapGet k (CacheManager.cache (World.sprintCache w')) = Some entry ->
          CacheManager.mapGet k (CacheManager.cache (World.sprintCache w)) = Some entry).
Proof.
  intros key. split; [|split].
  - intros store budget w c1 Hserve Hget Hb Hcover.
    destruct (pages_served sprintId store Hserve budget 0%nat (afterRead w c1) Hb
                ltac:(lia))
      as (p & w1 & Hp & Hcov & Hlast & Hrun & Htr & Hc).
    change (50 * Z.of_nat 0) with 0 in Hrun.
    change (take (50 * 0) store) with (@nil JiraIssue.t) in Hrun.
    pose proof (get_miss _ _ _ _ Hget) as (Hfk & _ & _).
    eexists p, _. split; [lia|]. split; [lia|].
    split; [destruct Hlast; [left; assumption | right; lia]|].
    split; [intros H120; rewrite H120 in *; lia|].
    split; [|split].
    + rewrite getSprintTickets_unfold. fold key. rewrite Hget, Hrun. reflexivity.
    + simpl. exact Htr.
    + simpl. rewrite Hc. simpl.
      pose proof (set_then_lookup (World.clock w1) c1 key (DIssues store) 300)
        as [_ Hlook].
      rewrite Hfk in Hlook. exact Hlook.
  - intros n budget w c1 startAt acc wn e w' Hget Hpages Hfail.
    pose proof (get_miss _ _ _ _ Hget) as (Hfk & Hnone & _).
    pose proof (pagesFetched_offset _ _ _ _ _ _ _ _ Hpages) as Hoff.
    pose proof (pagesFetched_run _ _ _ _ _ _ _ _ Hpages (S budget)) as Hrun.
    rewrite (page_failure _ _ _ _ _ _ _ Hfail) in Hrun.
    pose proof (keepsCache_pages (n + S budget) sprintId 0 [] (afterRead w c1))
      as Hkeep.
    rewrite Hrun in Hkeep. simpl in Hkeep.
    split; [unfold pageSize in Hoff; lia|]. split; [|split].
    + rewrite getSprintTickets_unfold. fold key. rewrite Hget, Hrun. reflexivity.
    + exact Hkeep.
    + rewrite Hkeep. exact Hnone.
  - intros budget w e w' Hthrow k entry Hlook.
    rewrite getSprintTickets_unfold in Hthrow. fold key in Hthrow.
    destruct (CacheManager.get (World.clock w) (World.sprintCache w) key)
      as [r c1] eqn:Hget.
    pose proof (keepsCache_pages budget sprintId 0 [] (afterRead w c1)) as Hkeep.
    assert (Hc : World.sprintCache w' = c1).
    { destruct r as [[s|l|r]|]; try discriminate;
        (destruct (getSprintTicketsPaginated budget sprintId 0 [] (afterRead w c1))
           as [[v|e0|] w1]; simpl in *; try discriminate;
         injection Hthrow as _ Hw; rewrite <- Hw; exact Hkeep). }
    rewrite Hc in Hlook. eapply get_no_new_entries; eauto.
Qed.

End GatewayProperties.

(* ================================================================== *)
(** * Properties of the tool handler *)
(* ================================================================== *)

Section HandlerProperties.
Context `{Runtime} `{Upstream}.

Lemma handleJiraTool_daily budget args :
  handleJiraTool budget "jira_daily_standup_report" args
  = tryCatch (dailyStandupReport budget args)
             (handleError "jira_daily_standup_report").
Proof. reflexivity. Qed.

Lemma dailyStandupReport_validated budget args validated :
  DailyStandupReportSchema args = Some validated ->
  dailyStandupReport budget args
  = standupReport budget (DailyStandupReportInput.boardId validated)
      (DailyStandupReportInput.projectKey validated)
      (orTwo (DailyStandupReportInput.daysStale validated)).
Proof.
  intros Hv. unfold dailyStandupReport, validate. rewrite Hv. reflexivity.
Qed.

(** The three kinds of entry of the handler live under keys that cannot
    coincide. *)
Lemma cache_keys_of_different_kinds boardId sprintId boardId' projectKey :
  CacheKeys.sprint boardId <> CacheKeys.sprintIssues sprintId
  /\ CacheKeys.sprint boardId <> CacheKeys.standupReport boardId' projectKey
  /\ CacheKeys.sprintIssues sprintId <> CacheKeys.standupReport boardId' projectKey.
Proof.
  unfold CacheKeys.sprint, CacheKeys.sprintIssues, CacheKeys.standupReport.
  destruct (strOrNull projectKey); simpl; repeat split; discriminate.
Qed.

(** A report that the handler returns after a miss of the report cache is
    one that [buildReport] built. *)
Lemma standupReport_fresh budget boardId projectKey daysStale w c1 payload w' :
  CacheManager.get (World.clock w) (World.sprintCache w)
    (CacheKeys.standupReport boardId projectKey) = (None, c1) ->
  standupReport budget boardId projectKey daysStale w = (Returned payload, w') ->
  exists now activeSprint issues report,
    payload = PData (DReport report)
    /\ buildReport now activeSprint issues projectKey daysStale = inr report.
Proof.
  intros Hget. unfold standupReport, mbind, M_bind, bind, cacheGet.
  rewrite Hget.
  destruct (getActiveSprint boardId _) as [[[activeSprint|]|e|] w1];
    try discriminate.
  destruct (getSprintTickets budget (Sprint.id activeSprint) w1)
    as [[issues|e|] w2]; try discriminate.
  unfold now.
  destruct (buildReport (World.clock w2) activeSprint issues projectKey daysStale)
    as [e|report] eqn:Hb; [discriminate|].
  unfold cacheSet, mret, M_ret, ret. intros Heq. inversion Heq; subst.
  exists (World.clock w2), activeSprint, issues, report. auto.
Qed.

(** C3. The key of the report cache is built from the board and the
    project key alone. When the store holds an entry under that key and
    the clock has not passed its expiry, a [jira_daily_standup_report]
    request for that board and project answers the stored data as it is,
    whatever [daysStale] it asks for, without any upstream request: the
    world only counts one more cache hit. *)
Theorem cached_report_ignores_daysStale budget boardId projectKey w entry :
  CacheManager.mapGet
    (CacheManager.getFullKey (World.sprintCache w)
       (CacheKeys.standupReport boardId projectKey))
    (CacheManager.cache (World.sprintCache w)) = Some entry ->
  World.clock w <= CacheEntry.expiry entry ->
  forall args validated,
    DailyStandupReportSchema args = Some validated ->
    DailyStandupReportInput.boardId validated = boardId ->
    DailyStandupReportInput.projectKey validated = projectKey ->
    handleJiraTool budget "jira_daily_standup_report" args w
    = (Returned (PData (CacheEntry.data entry)), afterHit w).
Proof.
  intros Hlook Hfresh args validated Hv Hb Hp.
  rewrite handleJiraTool_daily, (dailyStandupReport_validated _ _ _ Hv), Hb, Hp.
  unfold tryCatch, standupReport, mbind, M_bind, bind, cacheGet.
  rewrite (get_hit _ _ _ _ Hlook Hfresh). reflexivity.
Qed.

(** ** Arguments that differ in one field *)

Lemma getField_withoutField key other fields :
  key <> other ->
  getField key (withoutField other fields) = getField key fields.
Proof.
  intros Hne. unfold withoutField.
  induction fields as [|[k v] fields IH]; simpl; [reflexivity|].
  destruct (String.eqb k other) eqn:E; simpl.
  - apply String.eqb_eq in E. subst k.
    destruct (String.eqb other key) eqn:E2; [|exact IH].
    apply String.eqb_eq in E2. congruence.
  - rewrite IH. reflexivity.
Qed.

Lemma schema_reads_fields fields validated :
  DailyStandupReportSchema (VObject fields) = Some validated ->
  parseBoardId (getField "boardId" fields)
  = Some (DailyStandupReportInput.boardId validated)
  /\ parseOptional (parseStringIf isProjectKey) (getField "projectKey" fields)
     = Some (DailyStandupReportInput.projectKey validated)
  /\ parseOptional (parseIntBetween 1 30) (getField "daysStale" fields)
     = Some (DailyStandupReportInput.daysStale validated).
Proof.
  unfold DailyStandupReportSchema.
  destruct (strictKeys _ fields); [|discriminate].
  destruct (parseBoardId _) as [b|]; [|discriminate].
  destruct (parseOptional (parseStringIf isProjectKey) _) as [pk|]; [|discriminate].
  destruct (parseOptional (parseIntBetween 1 30) _) as [ds|]; [|discriminate].
  destruct (parseOptional parseBool _) as [iu|]; [|discriminate].
  simpl. intros Heq; inversion Heq; subst; simpl. auto.
Qed.

(** C10. Two [jira_daily_standup_report] calls whose arguments differ only
    in [includeUnassigned], both accepted by the schema, give the same
    response and leave the same world (cache, clock and log) when started
    in the same world. *)
Theorem includeUnassigned_has_no_effect budget args1 args2 validated1 validated2 w :
  sameExcept "includeUnassigned" args1 args2 ->
  DailyStandupReportSchema args1 = Some validated1 ->
  DailyStandupReportSchema args2 = Some validated2 ->
  handleJiraTool budget "jira_daily_standup_report" args1 w
  = handleJiraTool budget "jira_daily_standup_report" args2 w.
Proof.
  intros Hsame Hv1 Hv2.
  destruct args1 as [| | | | | |l1|fields1]; try discriminate.
  destruct args2 as [| | | | | |l2|fields2]; try discriminate.
  simpl in Hsame.
  destruct (schema_reads_fields _ _ Hv1) as (Hb1 & Hp1 & Hd1).
  destruct (schema_reads_fields _ _ Hv2) as (Hb2 & Hp2 & Hd2).
  rewrite <- (getField_withoutField "boardId" "includeUnassigned") in Hb1, Hb2
    by discriminate.
  rewrite <- (getField_withoutField "projectKey" "includeUnassigned") in Hp1, Hp2
    by discriminate.
  rewrite <- (getField_withoutField "daysStale" "includeUnassigned") in Hd1, Hd2
    by discriminate.
  rewrite Hsame in Hb1, Hp1, Hd1.
  rewrite !handleJiraTool_daily.
  rewrite (dailyStandupReport_validated _ _ _ Hv1),
          (dailyStandupReport_validated _ _ _ Hv2).
  congruence.
Qed.


End HandlerProperties.

(* ================================================================== *)
(** * The statements at work on the reference platform *)
(* ================================================================== *)

(** The scenario of the specification: three issues, one of them done. *)
Example scenario_summary :
  exists report,
    @buildReport refRuntime (100 * day) (Sprint.mk 7 "Sprint 42")
      scenarioIssues None 2 = inr report
    /\ SprintSummary.totalSprintIssues (StandupReport.summary report) = 3
    /\ SprintSummary.completedIssues (StandupReport.summary report) = 1
    /\ SprintSummary.inProgressIssues (StandupReport.summary report) = 1
    /\ SprintSummary.todoIssues (StandupReport.summary report) = 1
    /\ List.map IssueData.key (StandupReport.staleIssues report) = ["WEB-2"]
    /\ List.map IssueData.key (StandupReport.overdueIssues report) = ["WEB-2"]
    /\ List.map IssueData.key (StandupReport.unassignedIssues report) = ["OPS-3"]
    /\ StandupReport.blockedIssues report = [].
Proof. eexists. split; [vm_compute; reflexivity|]. vm_compute. repeat split. Qed.

Lemma summary_total_is_sum_witness :
  @buildReport refRuntime (100 * day) (Sprint.mk 7 "Sprint 42")
    scenarioIssues (Some "WEB") 2 = inr scenarioReport
  /\ SprintSummary.totalSprintIssues (StandupReport.summary scenarioReport)
     = SprintSummary.completedIssues (StandupReport.summary scenarioReport)
       + SprintSummary.inProgressIssues (StandupReport.summary scenarioReport)
       + SprintSummary.todoIssues (StandupReport.summary scenarioReport).
Proof.
  split; [vm_compute; reflexivity|].
  apply (@summary_total_is_sum refRuntime (100 * day) (Sprint.mk 7 "Sprint 42")
           scenarioIssues (Some "WEB") 2 scenarioReport).
  vm_compute; reflexivity.
Defined.

Lemma completed_issue_witness :
  @statusCategoryOf refRuntime doneIssue = completed
  /\ CategorizedIssue.categories
       (@processIssue refRuntime (100 * day) doneIssue
          (@jiraBaseUrl refRuntime) 2) = [].
Proof.
  split; [vm_compute; reflexivity|].
  apply (@completed_issue_counted_but_not_categorised refRuntime (100 * day)
           (Some "WEB") 2 doneIssue).
  vm_compute; reflexivity.
Defined.

(** The plain collation of the reference platform orders all strings as
    the plain comparison does. *)
Lemma refRuntime_collates_plainly : @collatesDueDatesPlainly refRuntime.
Proof.
  intros a b _ _. unfold collatesPlainly. simpl.
  destruct (lexCompare a b); reflexivity.
Qed.

Lemma digit_not_upper c : isDigit c = true -> lowerChar c = c.
Proof.
  destruct c as [[] [] [] [] [] [] [] []]; vm_compute; intros Hd; congruence.
Qed.

Lemma dueKey_has_no_capitals s : isDueKey s = true -> mapChars lowerChar s = s.
Proof.
  unfold isDueKey. destruct s as [|c s]; [reflexivity|].
  unfold isIsoDate.
  destruct s as [|y2 [|y3 [|y4 [|h1 [|m1 [|m2 [|h2 [|d1 [|d2 [|extra rest]]]]]]]]]];
    try discriminate.
  cbn [forallb]. rewrite !andb_true_iff.
  intros [[(H1 & H2 & H3 & H4 & H5 & H6 & H7 & H8 & _) Hh1] Hh2].
  apply Ascii.eqb_eq in Hh1, Hh2. subst h1 h2. cbn [mapChars].
  rewrite (digit_not_upper c H1), (digit_not_upper y2 H2), (digit_not_upper y3 H3),
    (digit_not_upper y4 H4), (digit_not_upper m1 H5), (digit_not_upper m2 H6),
    (digit_not_upper d1 H7), (digit_not_upper d2 H8).
  reflexivity.
Qed.

(** A collation that compares without regard to case first, as the
    collations of browsers and of Node do, still orders ISO dates as the
    plain comparison does: they hold no letters. *)
Lemma collatingRuntime_collates_due_dates : @collatesDueDatesPlainly collatingRuntime.
Proof.
  intros a b Ha Hb. unfold collatesPlainly. simpl.
  rewrite (dueKey_has_no_capitals a Ha), (dueKey_has_no_capitals b Hb).
  destruct (lexCompare a b) eqn:Hab; try reflexivity.
  rewrite (lexCompare_antisym b a), Hab. reflexivity.
Qed.

Lemma isoRuntime_collates_due_dates : @collatesDueDatesPlainly isoRuntime.
Proof. exact collatingRuntime_collates_due_dates. Qed.

Lemma report_lists_sorted_witness :
  @buildReport isoRuntime isoNow (Sprint.mk 7 "Sprint 42") isoIssues None 2
  = inr isoReport
  /\ dueDatesAreIso isoIssues = true
  /\ List.map IssueData.key (StandupReport.staleIssues isoReport)
     = ["WEB-2"; "WEB-1"; "WEB-3"]
  /\ List.map IssueData.key (StandupReport.overdueIssues isoReport)
     = ["WEB-3"; "WEB-2"; "WEB-1"]
  /\ (forall n x y,
        StandupReport.staleIssues isoReport !! n = Some x ->
        StandupReport.staleIssues isoReport !! S n = Some y ->
        exists dx dy,
          IssueData.daysSinceUpdate x = Num dx
          /\ IssueData.daysSinceUpdate y = Num dy /\ dx >= dy)
  /\ (forall n x y,
        StandupReport.overdueIssues isoReport !! n = Some x ->
        StandupReport.overdueIssues isoReport !! S n = Some y ->
        lexLe (dueKey x) (dueKey y) /\ (dueKey y = "" -> dueKey x = "")).
Proof.
  assert (Hb : @buildReport isoRuntime isoNow (Sprint.mk 7 "Sprint 42") isoIssues
                 None 2 = inr isoReport) by (vm_compute; reflexivity).
  split; [exact Hb|]. split; [vm_compute; reflexivity|].
  split; [vm_compute; reflexivity|]. split; [vm_compute; reflexivity|].
  destruct (@report_lists_sorted isoRuntime isoNow (Sprint.mk 7 "Sprint 42")
              isoIssues None 2 isoReport Hb) as [Hstale Hoverdue].
  split; [exact Hstale|].
  apply Hoverdue; [exact isoRuntime_collates_due_dates | vm_compute; reflexivity].
Defined.

(** Outside ISO dates the order of [localeCompare] need not be the plain
    one: a collation that compares without regard to case first puts
    "jan 1, 2020" before "Jan 2, 2020". *)
Example month_names_collate_by_letter :
  exists report x y,
    @buildReport collatingRuntime 1700000000000 (Sprint.mk 7 "Sprint 42")
      monthNameIssues None 2 = inr report
    /\ StandupReport.overdueIssues report !! 0%nat = Some x
    /\ StandupReport.overdueIssues report !! 1%nat = Some y
    /\ ~ lexLe (dueKey x) (dueKey y).
Proof.
  do 3 eexists. split; [vm_compute; reflexivity|].
  split; [reflexivity|]. split; [reflexivity|].
  vm_compute. intros Hle. apply Hle. reflexivity.
Qed.

Lemma retry_with_three_attempts_witness :
  RetryHelper.maxAttemptsOf threeAttempts = 3
  /\ forall e attempt,
       instanceofApiError (BaseError.cls e) = true ->
       BaseError.statusCode e = Some 503 ->
       RetryHelper.defaultShouldRetry (ThrownBase e) attempt = true.
Proof.
  split; [reflexivity|].
  apply (@retry_with_three_attempts ResponseData.t
           (@sprintRequest refRuntime (pagedUpstream [])) threeAttempts).
  reflexivity.
Defined.

(** Two failures with status 503, then success: the third attempt answers,
    after delays of one and two seconds. *)
Example retry_succeeds_on_third_attempt :
  exists data w',
    RetryHelper.retry (@sprintRequest refRuntime (flakyUpstream 2 503 []))
      RetryOptions.empty startWorld = (Returned data, w')
    /\ World.trace w'
       = [ EvRequest (GetBoardSprints 1); EvSleep 1000;
           EvRequest (GetBoardSprints 1); EvSleep 2000;
           EvRequest (GetBoardSprints 1) ].
Proof. do 2 eexists. split; vm_compute; reflexivity. Qed.

(** Three failures with status 503: the last error comes out. *)
Example retry_gives_up_after_three_attempts :
  exists e w',
    RetryHelper.retry (@sprintRequest refRuntime (failingUpstream 503))
      RetryOptions.empty startWorld = (Threw (ThrownBase e), w')
    /\ BaseError.statusCode e = Some 503
    /\ World.trace w'
       = [ EvRequest (GetBoardSprints 1); EvSleep 1000;
           EvRequest (GetBoardSprints 1); EvSleep 2000;
           EvRequest (GetBoardSprints 1) ].
Proof. do 2 eexists. split; [vm_compute; reflexivity|]. split; reflexivity. Qed.

(** A status of 404 is not retried. *)
Example retry_rethrows_404_at_once :
  exists e w',
    RetryHelper.retry (@sprintRequest refRuntime (failingUpstream 404))
      RetryOptions.empty startWorld = (Threw (ThrownBase e), w')
    /\ BaseError.code e = API_NOT_FOUND
    /\ World.trace w' = [EvRequest (GetBoardSprints 1)].
Proof. do 2 eexists. split; [vm_compute; reflexivity|]. split; reflexivity. Qed.

Lemma getActiveSprint_witness :
  exists c1 response w2,
    CacheManager.get (World.clock startWorld) (World.sprintCache startWorld)
      (@CacheKeys.sprint refRuntime 1) = (None, c1)
    /\ RetryHelper.retry
         (@request refRuntime (pagedUpstream scenarioIssues) (GetBoardSprints 1))
         sprintLookupOptions (afterRead startWorld c1) = (Returned response, w2)
    /\ exists w3,
         @getActiveSprint refRuntime (pagedUpstream scenarioIssues) 1 startWorld
         = (Returned (Some (Sprint.mk 7 "Sprint 42")), w3)
         /\ CacheManager.mapGet "sprint:sprint:1"
              (CacheManager.cache (World.sprintCache w3))
            = Some {| CacheEntry.data := DSprint (Sprint.mk 7 "Sprint 42");
                      CacheEntry.expiry := World.clock w2 + 600 * 1000;
                      CacheEntry.key := "sprint:sprint:1" |}.
Proof.
  do 3 eexists.
  split; [vm_compute; reflexivity|]. split; [vm_compute; reflexivity|].
  pose proof (@getActiveSprint_caches_only_sprints refRuntime
                (pagedUpstream scenarioIssues) 1 startWorld _ _ _
                eq_refl eq_refl) as Hw.
  cbv zeta in Hw. simpl head in Hw.
  destruct Hw as (w3 & Hrun & _ & _ & Hlook).
  exists w3. split; [exact Hrun | exact Hlook].
Defined.

(** A board without an active sprint: the answer is [null], nothing is
    cached, and the second call asks the tracker again. *)
Example sprintless_board_is_asked_again :
  exists w1 w2,
    @getActiveSprint refRuntime sprintlessUpstream 1 startWorld = (Returned None, w1)
    /\ CacheManager.cache (World.sprintCache w1) = []
    /\ @getActiveSprint refRuntime sprintlessUpstream 1 w1 = (Returned None, w2)
    /\ World.trace w2
       = [EvRequest (GetBoardSprints 1); EvRequest (GetBoardSprints 1)].
Proof.
  do 2 eexists. split; [vm_compute; reflexivity|]. split; [reflexivity|].
  split; [vm_compute; reflexivity | reflexivity].
Qed.

Lemma pagedUpstream_servesPages sprintId store :
  @servesPages (pagedUpstream store) sprintId store.
Proof.
  intros trace clock k. do 2 eexists. split; [reflexivity|]. simpl.
  split; [|reflexivity].
  do 2 f_equal. f_equal. lia.
Qed.

Lemma getSprintTickets_witness :
  exists (p : nat) w',
    p = 3%nat
    /\ @getSprintTickets refRuntime (pagedUpstream (manyIssues 120)) 3 7 startWorld
       = (Returned (manyIssues 120), w')
    /\ World.trace w'
       = [ EvRequest (GetSprintIssues 7 0 50); EvRequest (GetSprintIssues 7 50 50);
           EvRequest (GetSprintIssues 7 100 50) ].
Proof.
  destruct (@getSprintTickets_pages_and_failures refRuntime
              (pagedUpstream (manyIssues 120)) 7) as [Hpages _].
  destruct (Hpages (manyIssues 120) 3%nat startWorld _
              (pagedUpstream_servesPages 7 (manyIssues 120)) eq_refl
              ltac:(lia) ltac:(vm_compute; lia))
    as (p & w' & _ & _ & _ & H120 & Hrun & Htrace & _).
  exists p, w'. specialize (H120 eq_refl). subst p.
  split; [reflexivity|]. split; [exact Hrun | exact Htrace].
Defined.

(** Pages 0 and 1 arrive, page 2 fails three times with status 503: the
    call throws that error and the store stays empty. *)
Example third_page_failure_discards_the_pages :
  exists e w',
    @getSprintTickets refRuntime (breakingUpstream 2 503 (manyIssues 120)) 5 7
      startWorld = (Threw (ThrownBase e), w')
    /\ BaseError.statusCode e = Some 503
    /\ CacheManager.cache (World.sprintCache w') = []
    /\ World.trace w'
       = [ EvRequest (GetSprintIssues 7 0 50); EvRequest (GetSprintIssues 7 50 50);
           EvRequest (GetSprintIssues 7 100 50); EvSleep 1000;
           EvRequest (GetSprintIssues 7 100 50); EvSleep 2000;
           EvRequest (GetSprintIssues 7 100 50) ].
Proof.
  do 2 eexists. split; [vm_compute; reflexivity|].
  split; [reflexivity|]. split; reflexivity.
Qed.

Lemma cached_report_witness :
  exists entry,
    CacheManager.mapGet "sprint:standup:1"
      (CacheManager.cache (World.sprintCache cachedWorld)) = Some entry
    /\ World.clock cachedWorld <= CacheEntry.expiry entry
    /\ @handleJiraTool refRuntime (pagedUpstream scenarioIssues) 5
         "jira_daily_standup_report"
         (VObject [("boardId", VInt 1); ("daysStale", VInt 7)]) cachedWorld
       = (Returned (PData (CacheEntry.data entry)), afterHit cachedWorld).
Proof.
  eexists. split; [vm_compute; reflexivity|].
  split; [vm_compute; discriminate|].
  eapply (@cached_report_ignores_daysStale refRuntime (pagedUpstream scenarioIssues)
            5 1 None cachedWorld).
  - vm_compute; reflexivity.
  - vm_compute; discriminate.
  - vm_compute; reflexivity.
  - reflexivity.
  - reflexivity.
Defined.

Lemma includeUnassigned_witness :
  sameExcept "includeUnassigned" (argsWithUnassigned true) (argsWithUnassigned false)
  /\ @handleJiraTool refRuntime (pagedUpstream scenarioIssues) 5
       "jira_daily_standup_report" (argsWithUnassigned true) startWorld
     = @handleJiraTool refRuntime (pagedUpstream scenarioIssues) 5
         "jira_daily_standup_report" (argsWithUnassigned false) startWorld.
Proof.
  split; [vm_compute; reflexivity|].
  eapply (@includeUnassigned_has_no_effect refRuntime (pagedUpstream scenarioIssues)).
  - vm_compute; reflexivity.
  - vm_compute; reflexivity.
  - vm_compute; reflexivity.
Defined.

(** An empty tool name, which no caller passes, falls to the default case
    and is named "unknown" in the response. *)
Example empty_tool_name_is_reported_unknown :
  exists response w',
    @handleJiraTool refRuntime (pagedUpstream []) 1 "" VUndefined startWorld
    = (Returned (PError response), w')
    /\ ErrorResponse.error response = "Unknown Jira tool: "
    /\ ErrorResponse.tool response = "unknown"
    /\ ErrorResponse.tool response <> "".
Proof.
  do 2 eexists. split; [vm_compute; reflexivity|].
  split; [reflexivity|]. split; [reflexivity | discriminate].
Qed.

(** The error sources the handler turns into responses: a rejected
    argument (a plain [Error], hence status 500), an upstream failure, a
    board without a sprint, and a failure inside the report builder. *)
Example validation_error_response :
  fst (@handleJiraTool refRuntime (pagedUpstream []) 1
         "jira_daily_standup_report" (VObject [("boardId", VInt 0)]) startWorld)
  = Returned (PError {| ErrorResponse.error := "Input validation failed";
                        ErrorResponse.tool := "jira_daily_standup_report";
                        ErrorResponse.status := Some 500;
                        ErrorResponse.details :=
                          DetailsText "An unexpected error occurred" |}).
Proof. vm_compute; reflexivity. Qed.

Example upstream_error_response :
  exists details,
    fst (@handleJiraTool refRuntime (failingUpstream 401) 1
           "jira_get_sprint_issues" (VObject [("boardId", VInt 1)]) startWorld)
    = Returned (PError {| ErrorResponse.error := "Authentication failed";
                          ErrorResponse.tool := "jira_get_sprint_issues";
                          ErrorResponse.status := Some 401;
                          ErrorResponse.details := details |}).
Proof. eexists. vm_compute; reflexivity. Qed.

Example no_sprint_error_response :
  exists details,
    fst (@handleJiraTool refRuntime sprintlessUpstream 1
           "jira_daily_standup_report" (VObject [("boardId", VInt 1)]) startWorld)
    = Returned (PError {| ErrorResponse.error := "No active sprint found for board 1";
                          ErrorResponse.tool := "jira_daily_standup_report";
                          ErrorResponse.status := Some 404;
                          ErrorResponse.details := details |}).
Proof. eexists. vm_compute; reflexivity. Qed.

Example builder_error_response :
  fst (@handleJiraTool refRuntime
         (pagedUpstream [sampleIssue "WEB-7" "To Do" (Some "constructor")
                           "8640000000" None "WEB"])
         1 "jira_daily_standup_report" (VObject [("boardId", VInt 1)]) startWorld)
  = Returned (PError {| ErrorResponse.error :=
                          "Cannot read properties of undefined (reading 'push')";
                        ErrorResponse.tool := "jira_daily_standup_report";
                        ErrorResponse.status := Some 500;
                        ErrorResponse.details :=
                          DetailsText "An unexpected error occurred" |}).
Proof. vm_compute; reflexivity. Qed.

(* ================================================================== *)
(** * Further properties of the report builder *)
(* ================================================================== *)

Section BuilderFurther.
Context `{Runtime}.

(** What the body of the loop does, by the kind of issue. *)
Lemma processOne_by_kind now projectKey daysStale report issue :
  processOne now projectKey daysStale report issue =
    if isOpenKept projectKey issue
    then
      let p := processIssue now issue jiraBaseUrl daysStale in
      match groupByAssignee (StandupReport.byAssignee report) p with
      | inl e => inl e
      | inr byAssignee' =>
          inr {| StandupReport.sprintName := StandupReport.sprintName report;
                 StandupReport.sprintId := StandupReport.sprintId report;
                 StandupReport.date := StandupReport.date report;
                 StandupReport.staleIssues :=
                   pushIf (inCategory now daysStale stale issue)
                          (StandupReport.staleIssues report)
                          (issueDataOf now daysStale issue);
                 StandupReport.overdueIssues :=
                   pushIf (inCategory now daysStale overdue issue)
                          (StandupReport.overdueIssues report)
                          (issueDataOf now daysStale issue);
                 StandupReport.unassignedIssues :=
                   pushIf (inCategory now daysStale unassigned issue)
                          (StandupReport.unassignedIssues report)
                          (issueDataOf now daysStale issue);
                 StandupReport.blockedIssues :=
                   pushIf (inCategory now daysStale blocked issue)
                          (StandupReport.blockedIssues report)
                          (issueDataOf now daysStale issue);
                 StandupReport.byAssignee := byAssignee';
                 StandupReport.summary :=
                   bumpSummary (StandupReport.summary report)
                               (statusCategoryOf issue) |}
      end
    else if filteredOut projectKey issue then inr report
    else inr (withSummary report
                (bumpSummary (StandupReport.summary report) completed)).
Proof.
  unfold processOne, isOpenKept.
  destruct (filteredOut projectKey issue); [reflexivity|].
  cbv zeta. rewrite processIssue_status.
  destruct (statusCategoryOf issue); reflexivity.
Qed.

Lemma recordsOfCategory_cons now projectKey daysStale c issue rest :
  recordsOfCategory now projectKey daysStale c (issue :: rest)
  = ((if isOpenKept projectKey issue && inCategory now daysStale c issue
      then [issueDataOf now daysStale issue] else [])
     ++ recordsOfCategory now projectKey daysStale c rest)%list.
Proof.
  unfold recordsOfCategory. simpl.
  destruct (isOpenKept projectKey issue && inCategory now daysStale c issue);
    reflexivity.
Qed.

Lemma processAll_lists c now projectKey daysStale issues :
  forall report report',
    processAll now projectKey daysStale report issues = inr report' ->
    categoryList c report'
    = (categoryList c report
       ++ recordsOfCategory now projectKey daysStale c issues)%list.
Proof.
  induction issues as [|issue rest IH]; intros report report'; simpl.
  - intros Heq; inversion Heq; subst. unfold recordsOfCategory; simpl.
    rewrite app_nil_r. reflexivity.
  - destruct (processOne now projectKey daysStale report issue) as [e|r1] eqn:Hone;
      [discriminate|].
    intros Hall. rewrite (IH _ _ Hall), recordsOfCategory_cons, app_assoc.
    f_equal. rewrite processOne_by_kind in Hone.
    destruct (isOpenKept projectKey issue); simpl.
    + cbv zeta in Hone.
      destruct (groupByAssignee _ _) as [e|m']; [discriminate|].
      inversion Hone; subst; clear Hone.
      clear Hall IH.
      destruct c; simpl; unfold pushIf;
        match goal with
        | |- context [inCategory ?a ?b ?c ?d] => destruct (inCategory a b c d)
        end; simpl; rewrite ?app_nil_r; reflexivity.
    + rewrite app_nil_r.
      destruct (filteredOut projectKey issue); inversion Hone; subst;
        destruct c; reflexivity.
Qed.

(** X1. The four lists of a built report are exactly the records of the
    issues that pass the project filter, are not completed and carry the
    category: in the order of the sprint for the unassigned and the blocked
    list, and sorted by the two comparators for the stale and the overdue
    list. *)
Theorem report_lists_are_the_categories
    now activeSprint issues projectKey daysStale report :
  buildReport now activeSprint issues projectKey daysStale = inr report ->
  StandupReport.unassignedIssues report
  = recordsOfCategory now projectKey daysStale unassigned issues
  /\ StandupReport.blockedIssues report
     = recordsOfCategory now projectKey daysStale blocked issues
  /\ StandupReport.staleIssues report
     = arraySort compareStale
         (recordsOfCategory now projectKey daysStale stale issues)
  /\ StandupReport.overdueIssues report
     = arraySort compareOverdue
         (recordsOfCategory now projectKey daysStale overdue issues).
Proof.
  unfold buildReport.
  destruct (processAll _ _ _ _ _) as [e|r] eqn:Hall; [discriminate|].
  intros Heq; inversion Heq; subst; clear Heq. simpl.
  pose proof (processAll_lists unassigned _ _ _ _ _ _ Hall) as Hu.
  pose proof (processAll_lists blocked _ _ _ _ _ _ Hall) as Hb.
  pose proof (processAll_lists stale _ _ _ _ _ _ Hall) as Hs.
  pose proof (processAll_lists overdue _ _ _ _ _ _ Hall) as Ho.
  simpl in Hu, Hb, Hs, Ho. rewrite Hu, Hb, Hs, Ho. auto.
Qed.

(** ** What a category says about an issue record *)

Lemma category_meaning now issue baseUrl daysStale :
  let p := processIssue now issue baseUrl daysStale in
  let x := CategorizedIssue.data p in
  let cats := CategorizedIssue.categories p in
  (hasCategory cats stale = true <->
   categorizeStatus (IssueData.status x) <> completed
   /\ number_gtb (IssueData.daysSinceUpdate x) daysStale = true)
  /\ (hasCategory cats overdue = true <->
      categorizeStatus (IssueData.status x) <> completed
      /\ isOverdue now (IssueData.duedate x) = true)
  /\ (hasCategory cats unassigned = true <->
      categorizeStatus (IssueData.status x) <> completed
      /\ JiraIssue.assignee issue = None)
  /\ (hasCategory cats blocked = true <->
      categorizeStatus (IssueData.status x) <> completed
      /\ (arrayIncludes (IssueData.labels x) "blocked"
          || arrayIncludes (IssueData.labels x) "impediment"
          || includes (toLowerCase (IssueData.status x)) "blocked") = true).
Proof.
  unfold processIssue; simpl. unfold computeCategories.
  set (status := strOr (JiraIssue.status issue) "Unknown").
  set (d := computeDaysSinceUpdate now _).
  destruct (categorizeStatus status) eqn:Hc.
  - repeat split; try discriminate; intros [Hn _]; contradiction.
  - destruct (number_gtb d daysStale), (isOverdue now _),
      (JiraIssue.assignee issue),
      (arrayIncludes _ "blocked" || arrayIncludes _ "impediment" || includes _ "blocked");
      simpl; repeat split; try discriminate; try reflexivity;
      try (intros [_ Hf]; discriminate).
  - destruct (number_gtb d daysStale), (isOverdue now _),
      (JiraIssue.assignee issue),
      (arrayIncludes _ "blocked" || arrayIncludes _ "impediment" || includes _ "blocked");
      simpl; repeat split; try discriminate; try reflexivity;
      try (intros [_ Hf]; discriminate).
Qed.

(** X2. Every record in a list of a built report meets the condition of
    the list: a stale record was last updated a whole number of days ago,
    more than the threshold; an overdue record has a due date that the
    platform parses to a time strictly before the clock; an unassigned
    record is filed under "Unassigned" with no e-mail address; a blocked
    record has the label [blocked] or [impediment], or a status whose lower
    case contains "blocked". *)
Theorem report_list_members now activeSprint issues projectKey daysStale report :
  buildReport now activeSprint issues projectKey daysStale = inr report ->
  (forall x, In x (StandupReport.staleIssues report) ->
     exists days, IssueData.daysSinceUpdate x = Num days /\ daysStale < days)
  /\ (forall x, In x (StandupReport.overdueIssues report) ->
        exists due t,
          IssueData.duedate x = Some due /\ due <> ""
          /\ dateParse due = Some t /\ t < now)
  /\ (forall x, In x (StandupReport.unassignedIssues report) ->
        IssueData.assignee x = "Unassigned" /\ IssueData.assigneeEmail x = None)
  /\ (forall x, In x (StandupReport.blockedIssues report) ->
        In "blocked" (IssueData.labels x) \/ In "impediment" (IssueData.labels x)
        \/ includes (toLowerCase (IssueData.status x)) "blocked" = true).
Proof.
  intros Hb. split; [|split; [|split]].
  - intros x Hx.
    destruct (buildReport_provenance stale _ _ _ _ _ _ Hb x Hx) as (i & _ & -> & Hc).
    destruct (stale_category_days _ _ _ _ Hc) as (z & Hz & Hlt). eauto.
  - intros x Hx.
    destruct (buildReport_provenance overdue _ _ _ _ _ _ Hb x Hx) as (i & _ & -> & Hc).
    apply (category_meaning now i jiraBaseUrl daysStale) in Hc.
    destruct Hc as [_ Hov]. unfold isOverdue in Hov.
    destruct (IssueData.duedate _) as [due|] eqn:Hdue; [|discriminate].
    destruct (dateParse due) as [t|] eqn:Ht; [|discriminate].
    exists due, t. repeat split; try assumption; [|lia].
    simpl in Hdue. intros ->. destruct (JiraIssue.duedate i) as [[|]|]; discriminate.
  - intros x Hx.
    destruct (buildReport_provenance unassigned _ _ _ _ _ _ Hb x Hx)
      as (i & _ & -> & Hc).
    apply (category_meaning now i jiraBaseUrl daysStale) in Hc.
    destruct Hc as [_ Hnone]. simpl. rewrite Hnone. split; reflexivity.
  - intros x Hx.
    destruct (buildReport_provenance blocked _ _ _ _ _ _ Hb x Hx)
      as (i & _ & -> & Hc).
    apply (category_meaning now i jiraBaseUrl daysStale) in Hc.
    destruct Hc as [_ Hbl].
    apply orb_prop in Hbl. destruct Hbl as [Hbl|Hbl]; [|right; right; exact Hbl].
    apply orb_prop in Hbl.
    assert (Hin : forall l s, arrayIncludes l s = true -> In s l).
    { intros l s. unfold arrayIncludes. rewrite existsb_exists.
      intros (y & Hy & Heq). apply String.eqb_eq in Heq. subst. exact Hy. }
    destruct Hbl as [Hbl|Hbl]; [left | right; left]; apply Hin; exact Hbl.
Qed.

(** ** The buckets by assignee *)

Lemma groupByAssignee_key now issue daysStale :
  IssueData.assignee (issueDataOf now daysStale issue) = bucketKeyOf issue.
Proof. reflexivity. Qed.

Lemma groupByAssignee_wellFiled m p m' :
  groupByAssignee m p = inr m' ->
  bucketsWellFiled m -> bucketsWellFiled m'.
Proof.
  unfold groupByAssignee. intros Hg Hm k bucket.
  destruct (m !! IssueData.assignee (CategorizedIssue.data p)) as [b0|] eqn:Hlook.
  - inversion Hg; subst; clear Hg.
    rewrite lookup_insert_Some. intros [[<- <-]|[_ Hk]]; [|eauto].
    destruct (Hm _ _ Hlook) as (Hn & _ & Hall). simpl.
    split; [exact Hn|]. split; [intros Hnil; apply app_eq_nil in Hnil; destruct Hnil; discriminate|].
    apply Forall_app; split; [exact Hall | repeat constructor].
  - destruct (inheritedKey _); [discriminate|].
    inversion Hg; subst; clear Hg.
    rewrite lookup_insert_Some. intros [[<- <-]|[_ Hk]]; [|eauto].
    simpl. split; [reflexivity|]. split; [discriminate | repeat constructor].
Qed.

Lemma groupByAssignee_noInherited m p m' :
  groupByAssignee m p = inr m' ->
  noInheritedBucket m -> noInheritedBucket m'.
Proof.
  unfold groupByAssignee. intros Hg Hm k bucket.
  destruct (m !! IssueData.assignee (CategorizedIssue.data p)) as [b0|] eqn:Hlook.
  - inversion Hg; subst; clear Hg.
    rewrite lookup_insert_Some. intros [[<- _]|[_ Hk]]; eauto.
  - destruct (inheritedKey _) eqn:Hinh; [discriminate|].
    inversion Hg; subst; clear Hg.
    rewrite lookup_insert_Some. intros [[<- _]|[_ Hk]]; eauto.
Qed.

(** [groupByAssignee] fails exactly on a name of [Object.prototype], as
    long as no bucket sits under such a name. *)
Lemma groupByAssignee_fails m p :
  noInheritedBucket m ->
  (exists e, groupByAssignee m p = inl e)
  <-> inheritedKey (IssueData.assignee (CategorizedIssue.data p)) = true.
Proof.
  intros Hm. unfold groupByAssignee.
  destruct (m !! IssueData.assignee (CategorizedIssue.data p)) as [b0|] eqn:Hlook.
  - rewrite (Hm _ _ Hlook). split; [intros [e He]; discriminate | discriminate].
  - destruct (inheritedKey _); split; eauto; try discriminate.
    intros [e He]; discriminate.
Qed.

Lemma sumBuckets_insert_new f m k bucket :
  m !! k = None ->
  sumBuckets f (<[k := bucket]> m) = f bucket + sumBuckets f m.
Proof.
  intros Hk. unfold sumBuckets.
  rewrite map_fold_insert_L; [reflexivity | intros; lia | exact Hk].
Qed.

Lemma sumBuckets_insert_old f m k old bucket :
  m !! k = Some old ->
  sumBuckets f (<[k := bucket]> m) = f bucket - f old + sumBuckets f m.
Proof.
  intros Hk.
  rewrite <- insert_delete_eq, sumBuckets_insert_new by apply lookup_delete_eq.
  unfold sumBuckets at 2.
  rewrite (map_fold_delete_L _ _ k old m); [|intros; lia | exact Hk].
  fold (sumBuckets f (delete k m)). lia.
Qed.

Lemma groupByAssignee_sums m p m' :
  groupByAssignee m p = inr m' ->
  sumBuckets bucketSize m' = sumBuckets bucketSize m + 1
  /\ sumBuckets AssigneeReport.staleCount m'
     = sumBuckets AssigneeReport.staleCount m
       + (if hasCategory (CategorizedIssue.categories p) stale then 1 else 0)
  /\ sumBuckets AssigneeReport.overdueCount m'
     = sumBuckets AssigneeReport.overdueCount m
       + (if hasCategory (CategorizedIssue.categories p) overdue then 1 else 0).
Proof.
  unfold groupByAssignee.
  destruct (m !! IssueData.assignee (CategorizedIssue.data p)) as [b0|] eqn:Hlook.
  - intros Hg; inversion Hg; subst; clear Hg.
    rewrite !(sumBuckets_insert_old _ _ _ _ _ Hlook).
    unfold bucketSize, incrIf; simpl. rewrite length_app; simpl.
    destruct (hasCategory _ stale), (hasCategory _ overdue); repeat split; lia.
  - destruct (inheritedKey _); [discriminate|].
    intros Hg; inversion Hg; subst; clear Hg.
    rewrite !(sumBuckets_insert_new _ _ _ _ Hlook).
    unfold bucketSize, incrIf; simpl.
    destruct (hasCategory _ stale), (hasCategory _ overdue); repeat split; lia.
Qed.

(** The three balances that the loop keeps. *)
Lemma processOne_balances now projectKey daysStale report issue report' :
  processOne now projectKey daysStale report issue = inr report' ->
  let open r := SprintSummary.inProgressIssues (StandupReport.summary r)
                + SprintSummary.todoIssues (StandupReport.summary r) in
  sumBuckets bucketSize (StandupReport.byAssignee report') - open report'
  = sumBuckets bucketSize (StandupReport.byAssignee report) - open report
  /\ sumBuckets AssigneeReport.staleCount (StandupReport.byAssignee report')
     - Z.of_nat (length (StandupReport.staleIssues report'))
     = sumBuckets AssigneeReport.staleCount (StandupReport.byAssignee report)
       - Z.of_nat (length (StandupReport.staleIssues report))
  /\ sumBuckets AssigneeReport.overdueCount (StandupReport.byAssignee report')
     - Z.of_nat (length (StandupReport.overdueIssues report'))
     = sumBuckets AssigneeReport.overdueCount (StandupReport.byAssignee report)
       - Z.of_nat (length (StandupReport.overdueIssues report)).
Proof.
  rewrite processOne_by_kind. unfold isOpenKept.
  destruct (filteredOut projectKey issue) eqn:Hf; simpl.
  - intros Heq; inversion Heq; subst. auto.
  - destruct (statusCategoryOf issue) eqn:Hc; simpl.
    + intros Heq; inversion Heq; subst. simpl. auto.
    + destruct (groupByAssignee _ _) as [e|m'] eqn:Hg; [discriminate|].
      intros Heq; inversion Heq; subst; clear Heq. simpl.
      destruct (groupByAssignee_sums _ _ _ Hg) as (H1 & H2 & H3).
      rewrite H1, H2, H3. unfold inCategory, pushIf, incrIf.
      destruct (hasCategory _ stale), (hasCategory _ overdue);
        rewrite ?length_app; simpl; repeat split; lia.
    + destruct (groupByAssignee _ _) as [e|m'] eqn:Hg; [discriminate|].
      intros Heq; inversion Heq; subst; clear Heq. simpl.
      destruct (groupByAssignee_sums _ _ _ Hg) as (H1 & H2 & H3).
      rewrite H1, H2, H3. unfold inCategory, pushIf, incrIf.
      destruct (hasCategory _ stale), (hasCategory _ overdue);
        rewrite ?length_app; simpl; repeat split; lia.
Qed.

Lemma processAll_buckets now projectKey daysStale issues :
  forall report report',
    processAll now projectKey daysStale report issues = inr report' ->
    (bucketsWellFiled (StandupReport.byAssignee report) ->
     bucketsWellFiled (StandupReport.byAssignee report'))
    /\ (noInheritedBucket (StandupReport.byAssignee report) ->
        noInheritedBucket (StandupReport.byAssignee report'))
    /\ sumBuckets bucketSize (StandupReport.byAssignee report')
       - (SprintSummary.inProgressIssues (StandupReport.summary report')
          + SprintSummary.todoIssues (StandupReport.summary report'))
       = sumBuckets bucketSize (StandupReport.byAssignee report)
         - (SprintSummary.inProgressIssues (StandupReport.summary report)
            + SprintSummary.todoIssues (StandupReport.summary report))
    /\ sumBuckets AssigneeReport.staleCount (StandupReport.byAssignee report')
       - Z.of_nat (length (StandupReport.staleIssues report'))
       = sumBuckets AssigneeReport.staleCount (StandupReport.byAssignee report)
         - Z.of_nat (length (StandupReport.staleIssues report))
    /\ sumBuckets AssigneeReport.overdueCount (StandupReport.byAssignee report')
       - Z.of_nat (length (StandupReport.overdueIssues report'))
       = sumBuckets AssigneeReport.overdueCount (StandupReport.byAssignee report)
         - Z.of_nat (length (StandupReport.overdueIssues report)).
Proof.
  induction issues as [|issue rest IH]; intros report report'; simpl.
  - intros Heq; inversion Heq; subst. auto.
  - destruct (processOne now projectKey daysStale report issue) as [e|r1] eqn:Hone;
      [discriminate|].
    intros Hall. destruct (IH _ _ Hall) as (Hw & Hn & H1 & H2 & H3).
    destruct (processOne_balances _ _ _ _ _ _ Hone) as (B1 & B2 & B3).
    rewrite processOne_by_kind in Hone.
    assert (Hstep : (bucketsWellFiled (StandupReport.byAssignee report) ->
                     bucketsWellFiled (StandupReport.byAssignee r1))
                    /\ (noInheritedBucket (StandupReport.byAssignee report) ->
                        noInheritedBucket (StandupReport.byAssignee r1))).
    { destruct (isOpenKept projectKey issue).
      - cbv zeta in Hone. destruct (groupByAssignee _ _) as [e|m'] eqn:Hg;
          [discriminate|].
        inversion Hone; subst; simpl.
        split; [apply (groupByAssignee_wellFiled _ _ _ Hg)
               | apply (groupByAssignee_noInherited _ _ _ Hg)].
      - destruct (filteredOut projectKey issue); inversion Hone; subst; auto. }
    destruct Hstep as [Sw Sn].
    split; [auto|]. split; [auto|]. repeat split; lia.
Qed.

(** X3. In a built report every bucket is filed under its own name, is not
    empty, and holds only records of that assignee; no bucket is filed
    under a property name of [Object.prototype]. The buckets together hold
    as many records as the summary counts in-progress and to-do issues, and
    their stale and overdue counters add up to the lengths of the stale and
    the overdue list. *)
Theorem report_buckets_balance now activeSprint issues projectKey daysStale report :
  buildReport now activeSprint issues projectKey daysStale = inr report ->
  bucketsWellFiled (StandupReport.byAssignee report)
  /\ noInheritedBucket (StandupReport.byAssignee report)
  /\ sumBuckets bucketSize (StandupReport.byAssignee report)
     = SprintSummary.inProgressIssues (StandupReport.summary report)
       + SprintSummary.todoIssues (StandupReport.summary report)
  /\ sumBuckets AssigneeReport.staleCount (StandupReport.byAssignee report)
     = Z.of_nat (length (StandupReport.staleIssues report))
  /\ sumBuckets AssigneeReport.overdueCount (StandupReport.byAssignee report)
     = Z.of_nat (length (StandupReport.overdueIssues report)).
Proof.
  unfold buildReport.
  destruct (processAll _ _ _ _ _) as [e|r] eqn:Hall; [discriminate|].
  intros Heq; inversion Heq; subst; clear Heq.
  destruct (processAll_buckets _ _ _ _ _ _ Hall) as (Hw & Hn & H1 & H2 & H3).
  simpl in *. unfold sumBuckets in H1, H2, H3. rewrite !map_fold_empty in *.
  fold (sumBuckets bucketSize (StandupReport.byAssignee r)) in H1.
  fold (sumBuckets AssigneeReport.staleCount (StandupReport.byAssignee r)) in H2.
  fold (sumBuckets AssigneeReport.overdueCount (StandupReport.byAssignee r)) in H3.
  split; [apply Hw; intros k b Hk; rewrite lookup_empty in Hk; discriminate|].
  split; [apply Hn; intros k b Hk; rewrite lookup_empty in Hk; discriminate|].
  rewrite !(Permutation_length (arraySort_perm _ _)).
  repeat split; lia.
Qed.

(** ** When the builder fails *)

Lemma processAll_fails now projectKey daysStale issues :
  forall report,
    noInheritedBucket (StandupReport.byAssignee report) ->
    (forall e, processAll now projectKey daysStale report issues = inl e ->
       e = ThrownError "TypeError"
             "Cannot read properties of undefined (reading 'push')")
    /\ ((exists e, processAll now projectKey daysStale report issues = inl e)
        <-> exists issue,
              In issue issues /\ isOpenKept projectKey issue = true
              /\ inheritedKey (bucketKeyOf issue) = true).
Proof.
  induction issues as [|issue rest IH]; intros report Hn; simpl.
  - split; [discriminate|]. split; [intros [e He]; discriminate|].
    intros (i & [] & _).
  - pose proof (processOne_by_kind now projectKey daysStale report issue) as Hk.
    destruct (processOne now projectKey daysStale report issue) as [e1|r1] eqn:Hone.
    + destruct (isOpenKept projectKey issue) eqn:Hopen;
        [|destruct (filteredOut projectKey issue); discriminate].
      cbv zeta in Hk.
      destruct (groupByAssignee _ _) as [e2|m'] eqn:Hg; [|discriminate].
      inversion Hk; subst e2; clear Hk.
      assert (Hinh : inheritedKey (bucketKeyOf issue) = true).
      { apply (groupByAssignee_fails _ (processIssue now issue jiraBaseUrl daysStale) Hn).
        eauto. }
      split.
      * intros e Heq; inversion Heq; subst.
        unfold groupByAssignee in Hg.
        destruct (_ !! _); [discriminate|].
        destruct (inheritedKey _); inversion Hg; reflexivity.
      * split; [|eauto]. intros _. exists issue. auto.
    + assert (Hn1 : noInheritedBucket (StandupReport.byAssignee r1)).
      { destruct (isOpenKept projectKey issue).
        - cbv zeta in Hk. destruct (groupByAssignee _ _) as [e|m'] eqn:Hg;
            [discriminate|].
          inversion Hk; subst; simpl. apply (groupByAssignee_noInherited _ _ _ Hg Hn).
        - destruct (filteredOut projectKey issue); inversion Hk; subst; auto. }
      destruct (IH r1 Hn1) as [Herr Hiff]. split; [exact Herr|].
      rewrite Hiff. split.
      * intros (i & Hi & Ho & Hinh). exists i. auto.
      * intros (i & [<-|Hi] & Ho & Hinh); [|exists i; auto].
        exfalso. rewrite Ho in Hk. cbv zeta in Hk.
        destruct (groupByAssignee _ _) as [e|m'] eqn:Hg; [discriminate|].
        assert (Hex : exists e, groupByAssignee (StandupReport.byAssignee report)
                                  (processIssue now issue jiraBaseUrl daysStale) = inl e).
        { apply (groupByAssignee_fails _ _ Hn). exact Hinh. }
        destruct Hex as [e He]. congruence.
Qed.

(** X4. Building the report fails exactly when an issue that passes the
    project filter and is not completed has an assignee whose display name
    is a property name of [Object.prototype] (such as "constructor"); the
    failure is the [TypeError] of a push on [undefined]. In every other
    case a report is built. *)
Theorem buildReport_fails_on_inherited_names
    now activeSprint issues projectKey daysStale :
  (forall e, buildReport now activeSprint issues projectKey daysStale = inl e ->
     e = ThrownError "TypeError"
           "Cannot read properties of undefined (reading 'push')")
  /\ ((exists e, buildReport now activeSprint issues projectKey daysStale = inl e)
      <-> exists issue,
            In issue issues /\ isOpenKept projectKey issue = true
            /\ inheritedKey (bucketKeyOf issue) = true)
  /\ ((forall issue, In issue issues -> isOpenKept projectKey issue = true ->
         inheritedKey (bucketKeyOf issue) = false) ->
      exists report,
        buildReport now activeSprint issues projectKey daysStale = inr report).
Proof.
  assert (Hn : noInheritedBucket
                 (StandupReport.byAssignee (initialReport now activeSprint projectKey))).
  { intros k b Hk. simpl in Hk. rewrite lookup_empty in Hk. discriminate. }
  destruct (processAll_fails now projectKey daysStale issues _ Hn) as [Herr Hiff].
  unfold buildReport.
  destruct (processAll _ _ _ _ _) as [e|r] eqn:Hall.
  - split; [intros e0 Heq; inversion Heq; subst; apply Herr; reflexivity|].
    split.
    + split; [intros _; apply Hiff; eauto | eauto].
    + intros Hnone. exfalso.
      destruct (proj1 Hiff ltac:(eauto)) as (i & Hi & Ho & Hinh).
      rewrite (Hnone i Hi Ho) in Hinh. discriminate.
  - split; [discriminate|]. split; [|eauto].
    split; [intros [e He]; discriminate|].
    intros Hex. apply Hiff in Hex. destruct Hex as [e He]. discriminate.
Qed.

End BuilderFurther.

(* ================================================================== *)
(** * Further properties of the cache store *)
(* ================================================================== *)

Lemma mapGet_mapSet_other k k' v m :
  k' <> k ->
  CacheManager.mapGet k' (CacheManager.mapSet k v m) = CacheManager.mapGet k' m.
Proof.
  intros Hne. induction m as [|[k0 e0] m IH]; simpl.
  - destruct (String.eqb k k') eqn:E; [apply String.eqb_eq in E; congruence|].
    reflexivity.
  - destruct (String.eqb k0 k) eqn:E; simpl.
    + apply String.eqb_eq in E. subst k0.
      destruct (String.eqb k k') eqn:E2; [apply String.eqb_eq in E2; congruence|].
      reflexivity.
    + rewrite IH. reflexivity.
Qed.

Lemma mapGet_mapDelete_other k k' m :
  k' <> k ->
  CacheManager.mapGet k' (CacheManager.mapDelete k m) = CacheManager.mapGet k' m.
Proof.
  intros Hne. unfold CacheManager.mapDelete.
  induction m as [|[k0 e0] m IH]; simpl; [reflexivity|].
  destruct (String.eqb k0 k) eqn:E; simpl.
  - apply String.eqb_eq in E. subst k0.
    destruct (String.eqb k k') eqn:E2; [apply String.eqb_eq in E2; congruence|].
    exact IH.
  - rewrite IH. reflexivity.
Qed.

Lemma mapGet_In k m e :
  CacheManager.mapGet k m = Some e -> In (k, e) m.
Proof.
  induction m as [|[k0 e0] m IH]; simpl; [discriminate|].
  destruct (String.eqb k0 k) eqn:E.
  - apply String.eqb_eq in E. subst. intros Heq; inversion Heq; auto.
  - auto.
Qed.

Lemma mapGet_None_keys k m :
  CacheManager.mapGet k m = None <-> ~ In k (List.map fst m).
Proof.
  induction m as [|[k0 e0] m IH]; simpl; [tauto|].
  destruct (String.eqb k0 k) eqn:E.
  - apply String.eqb_eq in E. subst. split; [discriminate | intros Hn; exfalso; auto].
  - apply String.eqb_neq in E. rewrite IH. tauto.
Qed.

Lemma prefix_set now c key data ttl :
  CacheManager.prefix (CacheManager.set now c key data ttl) = CacheManager.prefix c
  /\ CacheManager.maxSize (CacheManager.set now c key data ttl) = CacheManager.maxSize c
  /\ CacheManager.defaultTTL (CacheManager.set now c key data ttl)
     = CacheManager.defaultTTL c.
Proof.
  unfold CacheManager.set. cbv zeta.
  destruct (_ && _); simpl; [|auto].
  unfold CacheManager.evictOldest. destruct (strOrNull _); simpl; auto.
Qed.

Lemma set_lookup now c key data ttl :
  CacheManager.mapGet (CacheManager.getFullKey c key)
    (CacheManager.cache (CacheManager.set now c key data ttl))
  = Some {| CacheEntry.data := data;
            CacheEntry.expiry := now + effectiveTTL c ttl * 1000;
            CacheEntry.key := CacheManager.getFullKey c key |}.
Proof.
  unfold CacheManager.set. cbv zeta. simpl.
  rewrite mapGet_mapSet_same. unfold effectiveTTL.
  destruct ttl as [[| |]|]; reflexivity.
Qed.

(** X5. What [set] stores, [get] gives back until the entry expires: a
    read of the key at a time up to [now + ttl * 1000] milliseconds (the
    time to live being [ttlSeconds], or the default of the store when that
    is absent or 0) answers the data and counts a hit; a later read answers
    [null], counts a miss and removes the entry. *)
Theorem cache_set_then_get now c key data ttlSeconds later :
  let stored := CacheManager.set now c key data ttlSeconds in
  let expiry := now + effectiveTTL c ttlSeconds * 1000 in
  let read := CacheManager.get later stored key in
  (later <= expiry ->
   fst read = Some data
   /\ CacheManager.hitCount (snd read) = CacheManager.hitCount c + 1
   /\ CacheManager.missCount (snd read) = CacheManager.missCount c
   /\ CacheManager.cache (snd read) = CacheManager.cache stored)
  /\ (expiry < later ->
      fst read = None
      /\ CacheManager.hitCount (snd read) = CacheManager.hitCount c
      /\ CacheManager.missCount (snd read) = CacheManager.missCount c + 1
      /\ CacheManager.mapGet (CacheManager.getFullKey c key)
           (CacheManager.cache (snd read)) = None).
Proof.
  intros stored expiry read.
  pose proof (set_lookup now c key data ttlSeconds) as Hlook.
  destruct (prefix_set now c key data ttlSeconds) as (Hp & _ & _).
  assert (Hcounts : CacheManager.hitCount stored = CacheManager.hitCount c
                    /\ CacheManager.missCount stored = CacheManager.missCount c).
  { unfold stored, CacheManager.set. cbv zeta. destruct (_ && _); simpl; [|auto].
    unfold CacheManager.evictOldest. destruct (strOrNull _); simpl; auto. }
  destruct Hcounts as [Hh Hm].
  fold stored in Hlook, Hp.
  assert (Hfk : CacheManager.getFullKey stored key = CacheManager.getFullKey c key).
  { unfold CacheManager.getFullKey. rewrite Hp. reflexivity. }
  fold expiry in Hlook. subst read. clearbody stored expiry.
  unfold CacheManager.get. cbv zeta. rewrite Hfk, Hlook.
  simpl CacheEntry.expiry. simpl CacheEntry.data.
  split; intros Hle.
  - destruct (expiry <? later) eqn:E; [lia|]. simpl. rewrite Hh, Hm. auto.
  - destruct (expiry <? later) eqn:E; [|lia]. simpl. rewrite Hh, Hm.
    repeat split; try reflexivity. apply mapGet_mapDelete_same.
Qed.

(** ** Eviction *)

Lemma oldest_spec m :
  forall k0 x0,
    (forall k e, In (k, e) m -> k <> "") ->
    exists k,
      CacheManager.oldest m (Some k0) (Some x0) = Some k
      /\ ((k = k0 /\ forall k' e', In (k', e') m -> x0 <= CacheEntry.expiry e')
          \/ exists e,
               In (k, e) m /\ CacheEntry.expiry e < x0
               /\ forall k' e', In (k', e') m ->
                                CacheEntry.expiry e <= CacheEntry.expiry e').
Proof.
  induction m as [|[k1 e1] m IH]; intros k0 x0 Hne; simpl.
  - exists k0. split; [reflexivity|]. left. split; [reflexivity|]. intros k' e' [].
  - destruct (CacheEntry.expiry e1 <? x0) eqn:E.
    + destruct (IH k1 (CacheEntry.expiry e1)) as (k & Hk & Hcase);
        [intros; eapply Hne; right; eauto|].
      exists k. split; [exact Hk|]. right.
      destruct Hcase as [[-> Hmin]|(e & Hin & Hlt & Hmin)].
      * exists e1. split; [left; reflexivity|]. split; [lia|].
        intros k' e' [Heq|Hin]; [inversion Heq; lia | eauto].
      * exists e. split; [right; exact Hin|]. split; [lia|].
        intros k' e' [Heq|Hin']; [inversion Heq; subst; lia | eauto].
    + destruct (IH k0 x0) as (k & Hk & Hcase);
        [intros; eapply Hne; right; eauto|].
      exists k. split; [exact Hk|].
      destruct Hcase as [[-> Hmin]|(e & Hin & Hlt & Hmin)].
      * left. split; [reflexivity|].
        intros k' e' [Heq|Hin]; [inversion Heq; subst; lia | eauto].
      * right. exists e. split; [right; exact Hin|]. split; [exact Hlt|].
        intros k' e' [Heq|Hin']; [inversion Heq; subst; lia | eauto].
Qed.

Lemma oldest_first m :
  m <> [] ->
  (forall k e, In (k, e) m -> k <> "") ->
  exists k e,
    CacheManager.oldest m None None = Some k
    /\ In (k, e) m
    /\ forall k' e', In (k', e') m -> CacheEntry.expiry e <= CacheEntry.expiry e'.
Proof.
  destruct m as [|[k1 e1] m]; [congruence|]. intros _ Hne. simpl.
  destruct (oldest_spec m k1 (CacheEntry.expiry e1)) as (k & Hk & Hcase);
    [intros; eapply Hne; right; eauto|].
  destruct Hcase as [[-> Hmin]|(e & Hin & Hlt & Hmin)].
  - exists k1, e1. split; [exact Hk|]. split; [left; reflexivity|].
    intros k' e' [Heq|Hin]; [inversion Heq; lia | eauto].
  - exists k, e. split; [exact Hk|]. split; [right; exact Hin|].
    intros k' e' [Heq|Hin']; [inversion Heq; subst; lia | eauto].
Qed.

(** X6. [evictOldest] on a store that is not empty (and has no empty key)
    removes one key, whose entry expires no later than any other entry of
    the store, and leaves every other key as it was. *)
Theorem evictOldest_removes_the_soonest_expiry c :
  CacheManager.cache c <> [] ->
  (forall k e, In (k, e) (CacheManager.cache c) -> k <> "") ->
  exists k e,
    In (k, e) (CacheManager.cache c)
    /\ (forall k' e', In (k', e') (CacheManager.cache c) ->
          CacheEntry.expiry e <= CacheEntry.expiry e')
    /\ CacheManager.mapGet k (CacheManager.cache (CacheManager.evictOldest c)) = None
    /\ forall k', k' <> k ->
         CacheManager.mapGet k' (CacheManager.cache (CacheManager.evictOldest c))
         = CacheManager.mapGet k' (CacheManager.cache c).
Proof.
  intros Hnonempty Hkeys.
  destruct (oldest_first _ Hnonempty Hkeys) as (k & e & Hold & Hin & Hmin).
  exists k, e. split; [exact Hin|]. split; [exact Hmin|].
  unfold CacheManager.evictOldest. rewrite Hold.
  assert (Hk : k <> "") by (eapply Hkeys; eauto).
  destruct k as [|a k]; [congruence|]. simpl.
  split; [apply mapGet_mapDelete_same|].
  intros k' Hne. apply mapGet_mapDelete_other. exact Hne.
Qed.

Lemma NoDup_List_filter {A : Type} (f : A -> bool) (l : list A) :
  NoDup l -> NoDup (List.filter f l).
Proof.
  induction 1 as [|x l Hnotin Hnd IH]; simpl; [constructor|].
  destruct (f x); [|exact IH]. constructor; [|exact IH].
  intros Hin. apply Hnotin. apply list_elem_of_In in Hin.
  apply filter_In in Hin. apply list_elem_of_In. tauto.
Qed.

Lemma length_mapSet k v m :
  length (CacheManager.mapSet k v m)
  = match CacheManager.mapGet k m with
    | Some _ => length m
    | None => S (length m)
    end.
Proof.
  induction m as [|[k0 e0] m IH]; simpl; [reflexivity|].
  destruct (String.eqb k0 k); simpl; [reflexivity|].
  rewrite IH. destruct (CacheManager.mapGet k m); reflexivity.
Qed.

Lemma keys_mapSet k v m :
  List.map fst (CacheManager.mapSet k v m)
  = match CacheManager.mapGet k m with
    | Some _ => List.map fst m
    | None => (List.map fst m ++ [k])%list
    end.
Proof.
  induction m as [|[k0 e0] m IH]; simpl; [reflexivity|].
  destruct (String.eqb k0 k) eqn:E; simpl.
  - apply String.eqb_eq in E. subst. reflexivity.
  - rewrite IH. destruct (CacheManager.mapGet k m); reflexivity.
Qed.

Lemma keys_mapDelete k m :
  List.map fst (CacheManager.mapDelete k m)
  = List.filter (fun k' => negb (String.eqb k' k)) (List.map fst m).
Proof.
  unfold CacheManager.mapDelete.
  induction m as [|[k0 e0] m IH]; simpl; [reflexivity|].
  destruct (String.eqb k0 k); simpl; rewrite IH; reflexivity.
Qed.

Lemma length_mapDelete_In k e m :
  In (k, e) m -> (length (CacheManager.mapDelete k m) < length m)%nat.
Proof.
  unfold CacheManager.mapDelete.
  induction m as [|[k0 e0] m IH]; simpl; [intros []|].
  intros [Heq|Hin].
  - inversion Heq; subst. rewrite String.eqb_refl. simpl.
    pose proof (List.filter_length_le (fun kv => negb (String.eqb (fst kv) k)) m). lia.
  - destruct (String.eqb k0 k); simpl.
    + pose proof (List.filter_length_le (fun kv => negb (String.eqb (fst kv) k)) m). lia.
    + specialize (IH Hin). lia.
Qed.

(** X7. [set] keeps a store well formed: the keys stay distinct and
    non-empty and their number stays within [maxSize], provided the full
    key written is not empty (as it is for every store with a prefix). *)
Theorem set_keeps_the_store_well_formed now c key data ttlSeconds :
  storeWellFormed c ->
  CacheManager.getFullKey c key <> "" ->
  storeWellFormed (CacheManager.set now c key data ttlSeconds).
Proof.
  intros (Hnd & Hne & Hmax & Hsize) Hfk.
  unfold storeWellFormed, storeKeys in *.
  destruct (prefix_set now c key data ttlSeconds) as (_ & Hms & _). rewrite Hms.
  unfold CacheManager.set. cbv zeta.
  set (fullKey := CacheManager.getFullKey c key) in *.
  set (entry := CacheEntry.mk data _ fullKey).
  assert (Hkeys : forall k e, In (k, e) (CacheManager.cache c) -> k <> "").
  { intros k e Hin. rewrite Forall_forall in Hne. apply Hne.
    apply list_elem_of_In. apply in_map_iff. exists (k, e). auto. }
  destruct (CacheManager.mapGet fullKey (CacheManager.cache c)) as [old|] eqn:Hold.
  - (* the key is present: its entry is replaced in place *)
    assert (Hdec : bool_decide (is_Some (Some old)) = true)
      by (apply bool_decide_eq_true; eauto).
    rewrite Hdec, andb_false_r. simpl.
    rewrite keys_mapSet, length_mapSet, Hold. auto.
  - assert (Hdec : bool_decide (is_Some (@None CacheEntry.t)) = false)
      by (apply bool_decide_eq_false; intros [x Hx]; discriminate).
    rewrite Hdec, andb_true_r.
    assert (Hfresh : ~ In fullKey (List.map fst (CacheManager.cache c)))
      by (apply mapGet_None_keys; exact Hold).
    destruct (CacheManager.maxSize c <=? Z.of_nat (length (CacheManager.cache c)))
      eqn:Hfull.
    + (* full: the oldest entry makes room *)
      assert (Hnonempty : CacheManager.cache c <> []).
      { intros Hnil. rewrite Hnil in Hfull. simpl in Hfull.
        apply Z.leb_le in Hfull. lia. }
      destruct (oldest_first _ Hnonempty Hkeys) as (k & e & Holdest & Hin & _).
      unfold CacheManager.evictOldest. rewrite Holdest.
      assert (Hk : k <> "") by (eapply Hkeys; eauto).
      destruct k as [|a k]; [congruence|]. simpl.
      assert (Hgone : CacheManager.mapGet fullKey
                        (CacheManager.mapDelete (String a k) (CacheManager.cache c)) = None).
      { apply mapGet_None_keys. rewrite keys_mapDelete.
        intros Hin'. apply filter_In in Hin'. tauto. }
      rewrite keys_mapSet, length_mapSet, Hgone, keys_mapDelete.
      pose proof (length_mapDelete_In _ _ _ Hin) as Hshrink.
      split; [|split; [|split; [exact Hmax | lia]]].
      * apply NoDup_app. split; [apply NoDup_List_filter; exact Hnd|].
        split; [|apply NoDup_singleton].
        intros x Hx Hx'. apply list_elem_of_In in Hx, Hx'.
        destruct Hx' as [<-|[]]. apply filter_In in Hx. tauto.
      * apply Forall_app. split; [|repeat constructor; exact Hfk].
        rewrite Forall_forall in *. intros x Hx. apply Hne.
        apply list_elem_of_In in Hx. apply filter_In in Hx.
        apply list_elem_of_In. tauto.
    + apply Z.leb_gt in Hfull. simpl. rewrite keys_mapSet, length_mapSet, Hold.
      split; [|split; [|split; [exact Hmax | rewrite Nat2Z.inj_succ; lia]]].
      * apply NoDup_app. split; [exact Hnd|]. split; [|apply NoDup_singleton].
        intros x Hx Hx'. apply list_elem_of_In in Hx, Hx'.
        destruct Hx' as [<-|[]]. contradiction.
      * apply Forall_app. split; [exact Hne | repeat constructor; exact Hfk].
Qed.

(** X8. [delete] removes the key and nothing else. [set] writes its key
    and, as long as it does not have to evict (the key is present, or the
    store is below its capacity), leaves every other key as it was; when it
    evicts, whatever is found afterwards under another key was there
    before. *)
Theorem set_and_delete_touch_one_key now c key data ttlSeconds :
  let fullKey := CacheManager.getFullKey c key in
  (forall k,
     CacheManager.mapGet k (CacheManager.cache (CacheManager.delete c key))
     = if String.eqb k fullKey then None
       else CacheManager.mapGet k (CacheManager.cache c))
  /\ (forall k e,
        k <> fullKey ->
        CacheManager.mapGet k
          (CacheManager.cache (CacheManager.set now c key data ttlSeconds)) = Some e ->
        CacheManager.mapGet k (CacheManager.cache c) = Some e)
  /\ (is_Some (CacheManager.mapGet fullKey (CacheManager.cache c))
      \/ Z.of_nat (length (CacheManager.cache c)) < CacheManager.maxSize c ->
      forall k,
        k <> fullKey ->
        CacheManager.mapGet k
          (CacheManager.cache (CacheManager.set now c key data ttlSeconds))
        = CacheManager.mapGet k (CacheManager.cache c)).
Proof.
  intros fullKey. split; [|split].
  - intros k. unfold CacheManager.delete. simpl. fold fullKey.
    destruct (String.eqb k fullKey) eqn:E.
    + apply String.eqb_eq in E. subst. apply mapGet_mapDelete_same.
    + apply String.eqb_neq in E. apply mapGet_mapDelete_other. exact E.
  - intros k e Hne. unfold CacheManager.set. cbv zeta. fold fullKey.
    destruct (_ && _); simpl; rewrite mapGet_mapSet_other by exact Hne; [|auto].
    unfold CacheManager.evictOldest. destruct (strOrNull _); simpl; [|auto].
    apply mapGet_mapDelete_Some.
  - intros Hroom k Hne. unfold CacheManager.set. cbv zeta. fold fullKey.
    assert (Hnoevict :
              (CacheManager.maxSize c <=? Z.of_nat (length (CacheManager.cache c)))
              && negb (bool_decide
                         (is_Some (CacheManager.mapGet fullKey (CacheManager.cache c))))
              = false).
    { destruct Hroom as [Hsome|Hlt].
      - rewrite (bool_decide_eq_true_2 _ Hsome). apply andb_false_r.
      - apply andb_false_intro1. apply Z.leb_gt. exact Hlt. }
    rewrite Hnoevict. simpl. apply mapGet_mapSet_other. exact Hne.
Qed.

Lemma mapGet_swept now m :
  NoDup (List.map fst m) ->
  forall k,
    CacheManager.mapGet k
      (List.filter (fun kv => negb (CacheEntry.expiry (snd kv) <? now)) m)
    = match CacheManager.mapGet k m with
      | Some e => if CacheEntry.expiry e <? now then None else Some e
      | None => None
      end.
Proof.
  induction m as [|[k0 e0] m IH]; intros Hnd k; simpl; [reflexivity|].
  apply NoDup_cons in Hnd. destruct Hnd as [Hnotin Hnd].
  destruct (CacheEntry.expiry e0 <? now) eqn:E; simpl.
  - destruct (String.eqb k0 k) eqn:Ek.
    + apply String.eqb_eq in Ek. subst k0. rewrite E.
      apply mapGet_None_keys. intros Hin. apply Hnotin.
      apply list_elem_of_In. apply in_map_iff in Hin.
      destruct Hin as ([k1 e1] & Hk1 & Hin1).
      apply filter_In in Hin1. apply in_map_iff. exists (k1, e1). tauto.
    + apply IH. exact Hnd.
  - destruct (String.eqb k0 k) eqn:Ek.
    + rewrite E. reflexivity.
    + apply IH. exact Hnd.
Qed.

(** X9. [cleanup] removes exactly the entries whose expiry is before the
    clock, keeps the others in their order, and is invisible to a reader
    at that time: on a store with distinct keys, a [get] after the sweep
    answers what a [get] without it would have answered. *)
Theorem cleanup_is_invisible_to_readers now c :
  (forall k e, In (k, e) (CacheManager.cache (CacheManager.cleanup now c)) <->
               In (k, e) (CacheManager.cache c) /\ now <= CacheEntry.expiry e)
  /\ (NoDup (storeKeys c) ->
      forall key,
        fst (CacheManager.get now (CacheManager.cleanup now c) key)
        = fst (CacheManager.get now c key)).
Proof.
  split.
  - intros k e. unfold CacheManager.cleanup. simpl. rewrite filter_In. simpl.
    split; intros [Hin Hb]; (split; [exact Hin|]);
      destruct (CacheEntry.expiry e <? now) eqn:E; simpl in *;
      try discriminate; try lia; reflexivity.
  - intros Hnd key. unfold CacheManager.get, CacheManager.cleanup. cbv zeta.
    change (CacheManager.getFullKey (CacheManager.withCache c _) key)
      with (CacheManager.getFullKey c key).
    simpl CacheManager.cache. rewrite (mapGet_swept now _ Hnd).
    destruct (CacheManager.mapGet _ (CacheManager.cache c)) as [e|];
      [|reflexivity].
    destruct (CacheEntry.expiry e <? now) eqn:E; [reflexivity|].
    rewrite E. reflexivity.
Qed.

(** ** Read-through caching *)

Lemma getOrSet_unfold key factory ttlSeconds w :
  getOrSet key factory ttlSeconds w
  = match CacheManager.get (World.clock w) (World.sprintCache w) key with
    | (Some data, c) => (Returned data, afterRead w c)
    | (None, c) =>
        match factory (afterRead w c) with
        | (Returned data, w1) =>
            (Returned data,
             withStore w1
               (CacheManager.set (World.clock w1) (World.sprintCache w1) key data
                                 ttlSeconds))
        | (Threw e, w1) => (Threw e, w1)
        | (Diverged, w1) => (Diverged, w1)
        end
    end.
Proof.
  unfold getOrSet, mbind, M_bind, bind, cacheGet.
  destruct (CacheManager.get _ _ key) as [[data|] c]; [reflexivity|].
  unfold afterRead. destruct (factory _) as [[data|e|] w1]; reflexivity.
Qed.

Lemma getOrSet_hit key factory ttlSeconds w entry :
  CacheManager.mapGet (CacheManager.getFullKey (World.sprintCache w) key)
    (CacheManager.cache (World.sprintCache w)) = Some entry ->
  World.clock w <= CacheEntry.expiry entry ->
  getOrSet key factory ttlSeconds w = (Returned (CacheEntry.data entry), afterHit w).
Proof.
  intros Hg Hle. rewrite getOrSet_unfold, (get_hit _ _ _ _ Hg Hle). reflexivity.
Qed.

(** X10. Once [getOrSet] has returned a value, the store holds it under
    the key, and while that entry has not expired a further [getOrSet] for
    the key returns the same value as a cache hit, whatever factory it is
    given: the factory is not run and nothing but the hit counter
    changes. *)
Theorem getOrSet_fills_the_store_once key factory ttlSeconds w data w1 :
  getOrSet key factory ttlSeconds w = (Returned data, w1) ->
  exists entry,
    CacheManager.mapGet (CacheManager.getFullKey (World.sprintCache w1) key)
      (CacheManager.cache (World.sprintCache w1)) = Some entry
    /\ CacheEntry.data entry = data
    /\ forall factory' ttlSeconds' w2,
         World.sprintCache w2 = World.sprintCache w1 ->
         World.clock w2 <= CacheEntry.expiry entry ->
         getOrSet key factory' ttlSeconds' w2 = (Returned data, afterHit w2).
Proof.
  rewrite getOrSet_unfold. intros Hrun.
  assert (Hfound :
            exists entry,
              CacheManager.mapGet (CacheManager.getFullKey (World.sprintCache w1) key)
                (CacheManager.cache (World.sprintCache w1)) = Some entry
              /\ CacheEntry.data entry = data).
  { unfold CacheManager.get in Hrun. cbv zeta in Hrun.
    destruct (CacheManager.mapGet _ (CacheManager.cache (World.sprintCache w)))
      as [entry|] eqn:Hg.
    - destruct (CacheEntry.expiry entry <? World.clock w) eqn:E.
      + destruct (factory _) as [[d|e|] w'] eqn:Hf; try discriminate.
        inversion Hrun; subst; clear Hrun. simpl.
        destruct (prefix_set (World.clock w') (World.sprintCache w') key data
                    ttlSeconds) as (Hp & _ & _).
        unfold CacheManager.getFullKey. rewrite Hp.
        eexists. split; [apply set_lookup | reflexivity].
      + inversion Hrun; subst; clear Hrun. simpl.
        exists entry. split; [exact Hg | reflexivity].
    - destruct (factory _) as [[d|e|] w'] eqn:Hf; try discriminate.
      inversion Hrun; subst; clear Hrun. simpl.
      destruct (prefix_set (World.clock w') (World.sprintCache w') key data
                  ttlSeconds) as (Hp & _ & _).
      unfold CacheManager.getFullKey. rewrite Hp.
      eexists. split; [apply set_lookup | reflexivity]. }
  destruct Hfound as (entry & Hg & Hdata).
  exists entry. split; [exact Hg|]. split; [exact Hdata|].
  intros factory' ttl' w2 Hstore Hle. rewrite <- Hdata.
  apply getOrSet_hit; [rewrite Hstore; exact Hg | exact Hle].
Qed.

(** X11. [getOrSet] consults its factory only on a miss and stores only
    what the factory returned: on a hit the result is the cached value for
    every factory, and when the factory throws after a miss the error
    passes to the caller with the store as the factory left it, so that a
    failure is never cached. *)
Theorem getOrSet_consults_the_factory_on_a_miss_only key factory ttlSeconds w :
  (forall data,
     fst (CacheManager.get (World.clock w) (World.sprintCache w) key) = Some data ->
     forall factory' ttlSeconds',
       getOrSet key factory' ttlSeconds' w = (Returned data, afterHit w))
  /\ (forall e w1,
        fst (CacheManager.get (World.clock w) (World.sprintCache w) key) = None ->
        factory (afterRead w
                   (snd (CacheManager.get (World.clock w) (World.sprintCache w) key)))
        = (Threw e, w1) ->
        getOrSet key factory ttlSeconds w = (Threw e, w1)).
Proof.
  split.
  - intros data Hget factory' ttl'. rewrite getOrSet_unfold.
    unfold CacheManager.get in *. cbv zeta in *.
    destruct (CacheManager.mapGet _ _) as [entry|]; [|discriminate].
    destruct (CacheEntry.expiry entry <? World.clock w); [discriminate|].
    simpl in Hget. inversion Hget; subst. reflexivity.
  - intros e w1 Hget Hfactory. rewrite getOrSet_unfold.
    destruct (CacheManager.get _ _ key) as [[d|] c]; [discriminate|].
    simpl in Hfactory. rewrite Hfactory. reflexivity.
Qed.

(* ================================================================== *)
(** * Further properties of the retry executor *)
(* ================================================================== *)

Lemma sleepsOf_app t1 t2 : sleepsOf (t1 ++ t2) = (sleepsOf t1 ++ sleepsOf t2)%list.
Proof. unfold sleepsOf. apply omap_app. Qed.

Lemma retryFrom_last_run {T : Type} (operation : M T) options rounds :
  forall attempt delay lastError w,
    attempt <= RetryHelper.maxAttemptsOf options ->
    (Z.to_nat (RetryHelper.maxAttemptsOf options - attempt) < rounds)%nat ->
    exists w0,
      operation w0
      = RetryHelper.retryFrom operation options rounds attempt delay lastError w.
Proof.
  induction rounds as [|rounds IH]; intros attempt delay lastError w Hle Hrounds;
    [lia|].
  simpl.
  destruct (attempt <=? RetryHelper.maxAttemptsOf options) eqn:E;
    [|apply Z.leb_gt in E; lia].
  unfold tryCatch.
  destruct (operation w) as [[v|e|] w1] eqn:Hop.
  - exists w. exact Hop.
  - destruct (attempt =? RetryHelper.maxAttemptsOf options) eqn:Elast; simpl.
    + exists w. exact Hop.
    + destruct (RetryHelper.shouldRetryOf options e attempt); simpl.
      * apply Z.eqb_neq in Elast.
        unfold mbind, M_bind, bind, sleep.
        apply IH; lia.
      * exists w. exact Hop.
  - exists w. exact Hop.
Qed.

(** X12. What [retry] answers is what the last run of the operation
    answered, and the world it leaves is the world that run left: as long
    as [maxAttempts] is at least 1, [retry] never invents an error and does
    nothing after the last run. With [maxAttempts] below 1 the operation is
    not run at all and [retry] throws [undefined]. *)
Theorem retry_answers_as_the_last_run {T : Type} (operation : M T) options w :
  (1 <= RetryHelper.maxAttemptsOf options ->
   exists w0, operation w0 = RetryHelper.retry operation options w)
  /\ (RetryHelper.maxAttemptsOf options <= 0 ->
      RetryHelper.retry operation options w = (Threw ThrownUndefined, w)).
Proof.
  split; intros Hmax; unfold RetryHelper.retry.
  - apply retryFrom_last_run; lia.
  - replace (Z.to_nat (RetryHelper.maxAttemptsOf options)) with O by lia.
    reflexivity.
Qed.

Lemma retryFrom_waits {T : Type} (operation : M T) options :
  (forall w, sleepsOf (World.trace (snd (operation w))) = sleepsOf (World.trace w)) ->
  forall rounds attempt delay lastError w,
    exists k : nat,
      Z.of_nat k <= Z.max 0 (RetryHelper.maxAttemptsOf options - attempt)
      /\ sleepsOf (World.trace
                     (snd (RetryHelper.retryFrom operation options rounds attempt
                             delay lastError w)))
         = (sleepsOf (World.trace w) ++ backoff options k delay)%list.
Proof.
  intros Hquiet.
  induction rounds as [|rounds IH]; intros attempt delay lastError w.
  - exists O. split; [lia|]. simpl. rewrite app_nil_r. reflexivity.
  - simpl.
    destruct (attempt <=? RetryHelper.maxAttemptsOf options) eqn:E;
      [|exists O; split; [lia|]; simpl; rewrite app_nil_r; reflexivity].
    apply Z.leb_le in E. unfold tryCatch.
    pose proof (Hquiet w) as Hw.
    destruct (operation w) as [[v|e|] w1] eqn:Hop; simpl in Hw.
    + exists O. split; [lia|]. simpl. rewrite app_nil_r. exact Hw.
    + destruct (attempt =? RetryHelper.maxAttemptsOf options) eqn:Elast; simpl.
      * exists O. split; [lia|]. simpl. rewrite app_nil_r. exact Hw.
      * destruct (RetryHelper.shouldRetryOf options e attempt); simpl.
        -- apply Z.eqb_neq in Elast.
           unfold mbind, M_bind, bind, sleep.
           destruct (IH (attempt + 1)
                        (Z.min (delay * RetryHelper.factorOf options)
                               (RetryHelper.maxDelayOf options))
                        e
                        {| World.clock := World.clock w1 + delay;
                           World.sprintCache := World.sprintCache w1;
                           World.trace := World.trace w1 ++ [EvSleep delay] |})
             as (k & Hk & Hsleeps).
           exists (S k). split; [lia|].
           rewrite Hsleeps. simpl World.trace. rewrite sleepsOf_app, Hw.
           simpl. rewrite <- app_assoc. reflexivity.
        -- exists O. split; [lia|]. simpl. rewrite app_nil_r. exact Hw.
    + exists O. split; [lia|]. simpl. rewrite app_nil_r. exact Hw.
Qed.

Lemma backoff_of_capped options k :
  forall x i d,
    backoff options k (Z.min x (RetryHelper.maxDelayOf options)) !! i = Some d ->
    d <= RetryHelper.maxDelayOf options.
Proof.
  induction k as [|k IH]; intros x i d; simpl; [discriminate|].
  destruct i as [|i]; simpl.
  - intros Heq; inversion Heq. lia.
  - apply IH.
Qed.

Lemma backoff_capped options k delay i d :
  backoff options k delay !! S i = Some d -> d <= RetryHelper.maxDelayOf options.
Proof.
  destruct k as [|k]; simpl; [discriminate|]. apply backoff_of_capped.
Qed.

(** X13. The waits of [retry], for an operation that does not wait
    itself, are an initial part of the back-off schedule: the first wait is
    [initialDelay], each further one is the one before times [factor]
    capped by [maxDelay] (so none of them exceeds [maxDelay]), and there
    are fewer waits than [maxAttempts]. *)
Theorem retry_waits_follow_the_backoff {T : Type} (operation : M T) options w :
  (forall w0,
     sleepsOf (World.trace (snd (operation w0))) = sleepsOf (World.trace w0)) ->
  exists k : nat,
    Z.of_nat k <= Z.max 0 (RetryHelper.maxAttemptsOf options - 1)
    /\ sleepsOf (World.trace (snd (RetryHelper.retry operation options w)))
       = (sleepsOf (World.trace w)
          ++ backoff options k (RetryHelper.initialDelayOf options))%list
    /\ forall i d,
         backoff options k (RetryHelper.initialDelayOf options) !! S i = Some d ->
         d <= RetryHelper.maxDelayOf options.
Proof.
  intros Hquiet. unfold RetryHelper.retry.
  destruct (retryFrom_waits operation options Hquiet
              (Z.to_nat (RetryHelper.maxAttemptsOf options)) 1
              (RetryHelper.initialDelayOf options) ThrownUndefined w)
    as (k & Hk & Hsleeps).
  exists k. split; [exact Hk|]. split; [exact Hsleeps|].
  intros i d. apply backoff_capped.
Qed.

(* ================================================================== *)
(** * Further properties of the tool handler *)
(* ================================================================== *)

Section HandlerFurther.
Context `{Runtime} `{Upstream}.

Lemma toResponse_without_context timestamp message code statusCode tool :
  toResponse (newApiError timestamp message code statusCode) tool
  = {| ErrorResponse.error := message;
       ErrorResponse.tool := strOr (Some tool) "unknown";
       ErrorResponse.status := Some statusCode;
       ErrorResponse.details := DetailsBase code timestamp None |}.
Proof. unfold toResponse, newApiError. simpl. destruct development; reflexivity. Qed.

(** X14. A tool name that [handleJiraTool] does not know is answered with
    the error "Unknown Jira tool: <name>", status 400 and code
    [UNKNOWN_TOOL] (an empty name being reported as "unknown"); the
    arguments are not looked at, nothing is requested from the issue
    tracker and the cache is not touched. *)
Theorem unknown_tool_is_refused budget name args w :
  ~ In name jiraTools ->
  handleJiraTool budget name args w
  = (Returned
       (PError
          {| ErrorResponse.error := "Unknown Jira tool: " ++ name;
             ErrorResponse.tool := strOr (Some name) "unknown";
             ErrorResponse.status := Some 400;
             ErrorResponse.details :=
               DetailsBase UNKNOWN_TOOL (World.clock w) None |}),
     w).
Proof.
  intros Hnot. unfold handleJiraTool, dispatch.
  repeat match goal with
         | |- context [String.eqb name ?s] =>
             let E := fresh "E" in
             destruct (String.eqb name s) eqn:E;
             [apply String.eqb_eq in E; exfalso; apply Hnot; subst name;
              unfold jiraTools; simpl; tauto|]
         end.
  unfold tryCatch, mbind, M_bind, bind, now, throw, handleError, mret, M_ret, ret.
  simpl. rewrite toResponse_without_context. reflexivity.
Qed.

(** X15. Arguments that the schema of the tool rejects are answered with
    "Input validation failed" and status 500, for each of the six tools,
    before anything else happens: no request is sent, the cache is neither
    read nor written, and the clock and the log stay as they were. *)
Theorem invalid_arguments_are_refused_first budget name args w :
  In name jiraTools ->
  schemaAccepts name args = false ->
  handleJiraTool budget name args w
  = (Returned
       (PError
          {| ErrorResponse.error := "Input validation failed";
             ErrorResponse.tool := name;
             ErrorResponse.status := Some 500;
             ErrorResponse.details :=
               if development then DetailsStack "ValidationError"
               else DetailsText "An unexpected error occurred" |}),
     w).
Proof.
  intros Hin Hrej. unfold jiraTools in Hin. simpl in Hin.
  destruct Hin as [<-|[<-|[<-|[<-|[<-|[<-|[]]]]]]];
    unfold schemaAccepts in Hrej; simpl in Hrej;
    unfold handleJiraTool, dispatch; simpl;
    unfold createIssue, searchIssues, updateIssue, getSprintIssues,
      dailyStandupReport, generateStandupPdf, validate, tryCatch, mbind, M_bind,
      bind, throw, handleError, mret, M_ret, ret;
    match goal with
    | Hrej : accepted ?parsed = false |- _ =>
        destruct parsed; [discriminate | reflexivity]
    end.
Qed.

(** ** Upstream failures *)

Lemma request_fails r err w :
  (forall trace clock, snd (respond trace clock r) = inl err) ->
  exists latency,
    request r w
    = (Threw (ThrownBase (ApiError.fromAxiosError (World.clock w + latency) err)),
       {| World.clock := World.clock w + latency;
          World.sprintCache := World.sprintCache w;
          World.trace := World.trace w ++ [EvRequest r] |}).
Proof.
  intros Hfail. unfold request. specialize (Hfail (World.trace w) (World.clock w)).
  destruct (respond _ _ r) as [latency answer]. simpl in Hfail. subst answer.
  exists latency. reflexivity.
Qed.

Lemma retry_failing_request r err w :
  (forall trace clock, snd (respond trace clock r) = inl err) ->
  exists timestamp w',
    RetryHelper.retry (request r) threeAttempts w
    = (Threw (ThrownBase (ApiError.fromAxiosError timestamp err)), w')
    /\ World.sprintCache w' = World.sprintCache w
    /\ World.trace w'
       = (World.trace w
          ++ if RetryHelper.defaultShouldRetry
                  (ThrownBase (ApiError.fromAxiosError 0 err)) 1
             then [EvRequest r; EvSleep 1000; EvRequest r; EvSleep 2000; EvRequest r]
             else [EvRequest r])%list.
Proof.
  intros Hfail. unfold RetryHelper.retry.
  change (Z.to_nat (RetryHelper.maxAttemptsOf threeAttempts)) with 3%nat.
  change (RetryHelper.initialDelayOf threeAttempts) with 1000.
  destruct (request_fails r err w Hfail) as (l1 & Hr1).
  set (w1 := {| World.clock := World.clock w + l1;
                World.sprintCache := World.sprintCache w;
                World.trace := World.trace w ++ [EvRequest r] |}) in *.
  destruct (RetryHelper.defaultShouldRetry
              (ThrownBase (ApiError.fromAxiosError 0 err)) 1) eqn:Hretry.
  - rewrite (retryFrom_again (request r) threeAttempts 2 1 1000 ThrownUndefined
               w _ w1 ltac:(reflexivity) Hr1 Hretry).
    destruct (request_fails r err (snd (sleep 1000 w1)) Hfail) as (l2 & Hr2).
    set (w2 := {| World.clock := World.clock (snd (sleep 1000 w1)) + l2;
                  World.sprintCache := World.sprintCache (snd (sleep 1000 w1));
                  World.trace := World.trace (snd (sleep 1000 w1)) ++ [EvRequest r] |})
      in *.
    rewrite (retryFrom_again (request r) threeAttempts 1 2 _ _
               _ _ w2 ltac:(reflexivity) Hr2 Hretry).
    destruct (request_fails r err (snd (sleep 2000 w2)) Hfail) as (l3 & Hr3).
    change (Z.min (1000 * RetryHelper.factorOf threeAttempts)
                  (RetryHelper.maxDelayOf threeAttempts)) with 2000.
    rewrite (retryFrom_give_up (request r) threeAttempts 0 3 _ _ _ _ _
               ltac:(reflexivity) Hr3 ltac:(left; reflexivity)).
    eexists _, _. split; [reflexivity|]. split; [reflexivity|].
    simpl. rewrite <- !app_assoc. reflexivity.
  - rewrite (retryFrom_give_up (request r) threeAttempts 2 1 1000 ThrownUndefined
               w _ w1 ltac:(discriminate) Hr1 ltac:(right; exact Hretry)).
    eexists _, _. split; [reflexivity|]. split; reflexivity.
Qed.

(** X16. When the issue tracker fails every attempt of a
    [jira_create_issue] or [jira_update_issue] request with the same
    failure, the tool answers an error response that carries the HTTP
    status of the failure and the message [fromAxiosError] gives it. The
    request is sent three times, with waits of 1000 and 2000 milliseconds
    between the attempts, when the default policy retries the failure, and
    once otherwise; the cache is left as it was (an update that failed
    invalidates nothing). *)
Theorem upstream_failure_reaches_the_caller budget name args r err w :
  (name = "jira_create_issue"
   /\ exists issueData,
        CreateJiraIssueSchema args = Some issueData /\ r = PostIssue issueData)
  \/ (name = "jira_update_issue"
      /\ exists validated,
           UpdateJiraIssueSchema args = Some validated
           /\ r = PutIssue (UpdateJiraIssueInput.issueKey validated)
                           (UpdateJiraIssueInput.fields validated)) ->
  (forall trace clock, snd (respond trace clock r) = inl err) ->
  exists response w',
    handleJiraTool budget name args w = (Returned (PError response), w')
    /\ ErrorResponse.status response = AxiosError.status err
    /\ ErrorResponse.error response
       = snd (ApiError.classifyStatus (AxiosError.status err)
                (ApiError.bodyMessage (AxiosError.data err)))
    /\ ErrorResponse.tool response = name
    /\ World.sprintCache w' = World.sprintCache w
    /\ World.trace w'
       = (World.trace w
          ++ if RetryHelper.defaultShouldRetry
                  (ThrownBase (ApiError.fromAxiosError 0 err)) 1
             then [EvRequest r; EvSleep 1000; EvRequest r; EvSleep 2000; EvRequest r]
             else [EvRequest r])%list.
Proof.
  intros Htool Hfail.
  destruct (retry_failing_request r err w Hfail) as (timestamp & w' & Hretry & Hc & Ht).
  destruct Htool as [(-> & issueData & Hv & ->)|(-> & validated & Hv & ->)].
  - exists (ErrorHandler.handle
              (ThrownBase (ApiError.fromAxiosError timestamp err)) "jira_create_issue"),
           w'.
    split; [|repeat split; assumption].
    unfold handleJiraTool, dispatch. simpl.
    unfold createIssue, validate. rewrite Hv.
    unfold tryCatch, mbind, M_bind, bind, mret, M_ret, ret.
    rewrite Hretry. reflexivity.
  - exists (ErrorHandler.handle
              (ThrownBase (ApiError.fromAxiosError timestamp err)) "jira_update_issue"),
           w'.
    split; [|repeat split; assumption].
    unfold handleJiraTool, dispatch. simpl.
    unfold updateIssue, validate. rewrite Hv.
    unfold tryCatch, mbind, M_bind, bind, mret, M_ret, ret.
    rewrite Hretry. reflexivity.
Qed.

(** ** The cache across an update *)

Lemma append_inv_head (p a b : string) : (p ++ a = p ++ b)%string -> a = b.
Proof.
  induction p as [|c p IH]; simpl; [auto|].
  intros Heq. injection Heq as Heq. auto.
Qed.

Lemma getFullKey_inj c k1 k2 :
  CacheManager.getFullKey c k1 = CacheManager.getFullKey c k2 -> k1 = k2.
Proof.
  unfold CacheManager.getFullKey. destruct (strOrNull _) as [p|]; [|auto].
  intros Heq. apply append_inv_head in Heq. apply append_inv_head in Heq. exact Heq.
Qed.

(** X17. [jira_update_issue] invalidates the key of the updated issue and
    nothing else: whatever the outcome of the update, every other key of
    the cache reads as before, and the hit and miss counters are unchanged.
    The keys of sprints, of issue lists and of standup reports are all
    different from the key of an issue, so a report cached before the
    update is still the one served after it. *)
Theorem update_issue_invalidates_one_key budget args validated w :
  UpdateJiraIssueSchema args = Some validated ->
  let before := World.sprintCache w in
  let after := World.sprintCache (snd (handleJiraTool budget "jira_update_issue" args w)) in
  (forall key,
     key <> CacheKeys.issue (UpdateJiraIssueInput.issueKey validated) ->
     CacheManager.mapGet (CacheManager.getFullKey before key) (CacheManager.cache after)
     = CacheManager.mapGet (CacheManager.getFullKey before key)
         (CacheManager.cache before))
  /\ CacheManager.hitCount after = CacheManager.hitCount before
  /\ CacheManager.missCount after = CacheManager.missCount before
  /\ forall boardId sprintId projectKey,
       CacheKeys.sprint boardId
       <> CacheKeys.issue (UpdateJiraIssueInput.issueKey validated)
       /\ CacheKeys.sprintIssues sprintId
          <> CacheKeys.issue (UpdateJiraIssueInput.issueKey validated)
       /\ CacheKeys.standupReport boardId projectKey
          <> CacheKeys.issue (UpdateJiraIssueInput.issueKey validated).
Proof.
  intros Hv before after.
  assert (Hkeys : forall boardId sprintId projectKey,
             CacheKeys.sprint boardId
             <> CacheKeys.issue (UpdateJiraIssueInput.issueKey validated)
             /\ CacheKeys.sprintIssues sprintId
                <> CacheKeys.issue (UpdateJiraIssueInput.issueKey validated)
             /\ CacheKeys.standupReport boardId projectKey
                <> CacheKeys.issue (UpdateJiraIssueInput.issueKey validated)).
  { intros boardId sprintId projectKey.
    unfold CacheKeys.sprint, CacheKeys.sprintIssues, CacheKeys.standupReport,
      CacheKeys.issue.
    destruct (strOrNull projectKey); simpl; repeat split; discriminate. }
  subst after. unfold handleJiraTool, dispatch. simpl.
  unfold updateIssue, validate. rewrite Hv.
  unfold tryCatch, mbind, M_bind, bind, mret, M_ret, ret, handleError, cacheDelete.
  pose proof (keepsCache_retry
                (request (PutIssue (UpdateJiraIssueInput.issueKey validated)
                                   (UpdateJiraIssueInput.fields validated)))
                threeAttempts (keepsCache_request _) w) as Hkeep.
  destruct (RetryHelper.retry _ threeAttempts w) as [[response|e|] w1];
    simpl in Hkeep; simpl; rewrite Hkeep; fold before.
  - split; [|split; [reflexivity|split; [reflexivity|exact Hkeys]]].
    intros key Hne. apply mapGet_mapDelete_other.
    intros Heq. apply Hne. apply (getFullKey_inj before). exact Heq.
  - split; [reflexivity|]. split; [reflexivity|]. split; [reflexivity|exact Hkeys].
  - split; [reflexivity|]. split; [reflexivity|]. split; [reflexivity|exact Hkeys].
Qed.

(** ** The sprint overview *)

Lemma tally_adds_up (tasks : list JiraIssue.t) (statusOf : JiraIssue.t -> string) :
  forall s : SprintSummary.t,
    let tally (s : SprintSummary.t) (c : StatusCategory) :=
      {| SprintSummary.totalSprintIssues := SprintSummary.totalSprintIssues s;
         SprintSummary.completedIssues :=
           incrIf (match c with completed => true | _ => false end)
                  (SprintSummary.completedIssues s);
         SprintSummary.inProgressIssues :=
           incrIf (match c with inProgress => true | _ => false end)
                  (SprintSummary.inProgressIssues s);
         SprintSummary.todoIssues :=
           incrIf (match c with todo => true | _ => false end)
                  (SprintSummary.todoIssues s);
         SprintSummary.projectFiltered := SprintSummary.projectFiltered s;
         SprintSummary.projectKey := SprintSummary.projectKey s |} in
    let s' := foldl (fun s issue => tally s (categorizeStatus (statusOf issue)))
                    s tasks in
    SprintSummary.totalSprintIssues s' = SprintSummary.totalSprintIssues s
    /\ SprintSummary.projectFiltered s' = SprintSummary.projectFiltered s
    /\ SprintSummary.projectKey s' = SprintSummary.projectKey s
    /\ SprintSummary.completedIssues s <= SprintSummary.completedIssues s'
    /\ SprintSummary.inProgressIssues s <= SprintSummary.inProgressIssues s'
    /\ SprintSummary.todoIssues s <= SprintSummary.todoIssues s'
    /\ SprintSummary.completedIssues s' + SprintSummary.inProgressIssues s'
       + SprintSummary.todoIssues s'
       = SprintSummary.completedIssues s + SprintSummary.inProgressIssues s
         + SprintSummary.todoIssues s + Z.of_nat (length tasks).
Proof.
  induction tasks as [|issue tasks IH]; intros s; cbv zeta.
  - simpl. repeat split; lia.
  - cbv zeta in IH. simpl foldl.
    match goal with
    | |- context [foldl ?f ?s1 tasks] => specialize (IH s1)
    end.
    destruct IH as (Ht & Hf & Hk & Hc & Hi & Hd & Hsum).
    rewrite Ht, Hf, Hk, Hsum. simpl SprintSummary.totalSprintIssues.
    simpl SprintSummary.projectFiltered. simpl SprintSummary.projectKey.
    simpl in Hc, Hi, Hd. simpl.
    unfold incrIf in *.
    destruct (categorizeStatus (statusOf issue)); repeat split; lia.
Qed.

(** X18. The summary of a [jira_get_sprint_issues] answer adds up: its
    total is the number of issues of the sprint, which is also the
    [totalIssues] of the answer, every issue is counted once as completed,
    in progress or to do, and the summary is marked as not filtered by
    project. *)
Theorem sprint_overview_adds_up budget args w sprintName totalIssues byStatus
    byAssignee summary w' :
  handleJiraTool budget "jira_get_sprint_issues" args w
  = (Returned (PSprintIssues sprintName totalIssues byStatus byAssignee summary), w') ->
  SprintSummary.totalSprintIssues summary = totalIssues
  /\ SprintSummary.completedIssues summary + SprintSummary.inProgressIssues summary
     + SprintSummary.todoIssues summary = totalIssues
  /\ 0 <= SprintSummary.completedIssues summary
  /\ 0 <= SprintSummary.inProgressIssues summary
  /\ 0 <= SprintSummary.todoIssues summary
  /\ SprintSummary.projectFiltered summary = false
  /\ SprintSummary.projectKey summary = None.
Proof.
  unfold handleJiraTool, dispatch. simpl.
  unfold getSprintIssues, validate, tryCatch, mbind, M_bind, bind, mret, M_ret, ret,
    handleError, throw, now.
  destruct (GetSprintIssuesSchema args) as [boardId|]; [|discriminate].
  destruct (getActiveSprint boardId w) as [[[activeSprint|]|e|] w1];
    try discriminate.
  destruct (getSprintTickets budget (Sprint.id activeSprint) w1)
    as [[tasks|e|] w2]; try discriminate.
  intros Heq. inversion Heq; subst; clear Heq.
  pose proof (tally_adds_up tasks
                (fun issue => strOr (JiraIssue.status issue) "Unknown")
                {| SprintSummary.totalSprintIssues := Z.of_nat (length tasks);
                   SprintSummary.completedIssues := 0;
                   SprintSummary.inProgressIssues := 0;
                   SprintSummary.todoIssues := 0;
                   SprintSummary.projectFiltered := false;
                   SprintSummary.projectKey := None |}) as Hsum.
  cbv zeta beta in Hsum. simpl in Hsum.
  destruct Hsum as (Ht & Hf & Hk & Hc & Hi & Hd & Hsum).
  repeat split; try assumption; lia.
Qed.

(** ** The report cache *)

Lemma standupReport_miss budget boardId projectKey daysStale w c1 payload w' :
  CacheManager.get (World.clock w) (World.sprintCache w)
    (CacheKeys.standupReport boardId projectKey) = (None, c1) ->
  standupReport budget boardId projectKey daysStale w = (Returned payload, w') ->
  exists report w2,
    payload = PData (DReport report)
    /\ w' = snd (cacheSet (CacheKeys.standupReport boardId projectKey)
                          (DReport report) 300 w2).
Proof.
  intros Hget. unfold standupReport, mbind, M_bind, bind, cacheGet.
  rewrite Hget.
  destruct (getActiveSprint boardId _) as [[[activeSprint|]|e|] w1];
    try discriminate.
  destruct (getSprintTickets budget (Sprint.id activeSprint) w1)
    as [[issues|e|] w2]; try discriminate.
  unfold now.
  destruct (buildReport (World.clock w2) activeSprint issues projectKey daysStale)
    as [e|report] eqn:Hb; [discriminate|].
  unfold cacheSet, mret, M_ret, ret. intros Heq. inversion Heq; subst.
  exists report, w2. auto.
Qed.

(** X19. A standup report that the handler has just built (the report
    cache missed) is served from the cache for the next 300 seconds: any
    [jira_daily_standup_report] request for the same board and project
    that starts from the cache as the first request left it, no later than
    300000 milliseconds after it, answers the same report without any
    request to the issue tracker; the world only counts one more hit. *)
Theorem fresh_report_is_served_for_five_minutes budget args validated w d w1 :
  DailyStandupReportSchema args = Some validated ->
  fst (CacheManager.get (World.clock w) (World.sprintCache w)
         (CacheKeys.standupReport (DailyStandupReportInput.boardId validated)
            (DailyStandupReportInput.projectKey validated))) = None ->
  handleJiraTool budget "jira_daily_standup_report" args w = (Returned (PData d), w1) ->
  forall budget' args' validated' w2,
    DailyStandupReportSchema args' = Some validated' ->
    DailyStandupReportInput.boardId validated'
    = DailyStandupReportInput.boardId validated ->
    DailyStandupReportInput.projectKey validated'
    = DailyStandupReportInput.projectKey validated ->
    World.sprintCache w2 = World.sprintCache w1 ->
    World.clock w2 <= World.clock w1 + 300000 ->
    handleJiraTool budget' "jira_daily_standup_report" args' w2
    = (Returned (PData d), afterHit w2).
Proof.
  intros Hv Hmiss Hrun budget' args' validated' w2 Hv' Hb Hp Hstore Hclock.
  rewrite handleJiraTool_daily, (dailyStandupReport_validated _ _ _ Hv) in Hrun.
  destruct (CacheManager.get (World.clock w) (World.sprintCache w) _)
    as [r c1] eqn:Hget. simpl in Hmiss. subst r.
  unfold tryCatch in Hrun.
  destruct (standupReport budget _ _ _ w) as [[payload|e|] w'] eqn:Hreport;
    [|discriminate|discriminate].
  inversion Hrun; subst payload w'; clear Hrun.
  destruct (standupReport_miss _ _ _ _ _ _ _ _ Hget Hreport)
    as (report & w0 & Hd & Hw1).
  inversion Hd; subst d; clear Hd.
  rewrite handleJiraTool_daily, (dailyStandupReport_validated _ _ _ Hv'), Hb, Hp.
  set (key := CacheKeys.standupReport (DailyStandupReportInput.boardId validated)
                (DailyStandupReportInput.projectKey validated)) in *.
  assert (Hentry :
            CacheManager.mapGet (CacheManager.getFullKey (World.sprintCache w2) key)
              (CacheManager.cache (World.sprintCache w2))
            = Some {| CacheEntry.data := DReport report;
                      CacheEntry.expiry := World.clock w1 + 300000;
                      CacheEntry.key :=
                        CacheManager.getFullKey (World.sprintCache w0) key |}).
  { rewrite Hstore, Hw1. unfold cacheSet. simpl.
    destruct (prefix_set (World.clock w0) (World.sprintCache w0) key (DReport report)
                (Some 300)) as (Hprefix & _ & _).
    unfold CacheManager.getFullKey at 1. rewrite Hprefix.
    fold (CacheManager.getFullKey (World.sprintCache w0) key).
    rewrite mapGet_mapSet_same. reflexivity. }
  unfold tryCatch, standupReport, mbind, M_bind, bind, cacheGet.
  rewrite (get_hit _ _ _ _ Hentry) by (simpl; exact Hclock). reflexivity.
Qed.

(** ** A board without an active sprint *)

Lemma getActiveSprint_none boardId w latency data :
  CacheManager.mapGet
    (CacheManager.getFullKey (World.sprintCache w) (CacheKeys.sprint boardId))
    (CacheManager.cache (World.sprintCache w)) = None ->
  respond (World.trace w) (World.clock w) (GetBoardSprints boardId)
  = (latency, inr data) ->
  head (default [] (ResponseData.values data)) = None ->
  exists c1,
    getActiveSprint boardId w
    = (Returned None,
       {| World.clock := World.clock w + latency;
          World.sprintCache := c1;
          World.trace := World.trace w ++ [EvRequest (GetBoardSprints boardId)] |})
    /\ CacheManager.cache c1 = CacheManager.cache (World.sprintCache w).
Proof.
  intros Hmiss Hrespond Hnone.
  unfold getActiveSprint, mbind, M_bind, bind, cacheGet, CacheManager.get.
  cbv zeta. rewrite Hmiss.
  set (w0 := {| World.clock := World.clock w;
                World.sprintCache := _; World.trace := World.trace w |}).
  assert (Hrequest :
            request (GetBoardSprints boardId) w0
            = (Returned data,
               {| World.clock := World.clock w + latency;
                  World.sprintCache := World.sprintCache w0;
                  World.trace :=
                    World.trace w ++ [EvRequest (GetBoardSprints boardId)] |})).
  { unfold request. simpl. rewrite Hrespond. reflexivity. }
  unfold RetryHelper.retry.
  change (Z.to_nat (RetryHelper.maxAttemptsOf sprintLookupOptions)) with 3%nat.
  rewrite (retryFrom_success _ sprintLookupOptions 2 1 _ _ w0 _ _
             ltac:(discriminate) Hrequest).
  rewrite Hnone. eexists. split; reflexivity.
Qed.

Lemma get_keeps_prefix now c key r c' :
  CacheManager.get now c key = (r, c') ->
  CacheManager.prefix c' = CacheManager.prefix c.
Proof.
  unfold CacheManager.get. cbv zeta.
  destruct (CacheManager.mapGet (CacheManager.getFullKey c key) (CacheManager.cache c))
    as [entry|].
  - destruct (CacheEntry.expiry entry <? now); intros Heq; inversion Heq; reflexivity.
  - intros Heq; inversion Heq; reflexivity.
Qed.

(** X20. When the board has no active sprint (the sprint is not cached and
    the issue tracker answers the lookup with an empty list), both
    [jira_get_sprint_issues] and [jira_daily_standup_report] answer the
    error "No active sprint found for board <id>" with status 404 and code
    [JIRA_SPRINT_NOT_FOUND], after one request and no wait; nothing is
    added to the cache, so the next call asks the issue tracker again. *)
Theorem missing_sprint_is_reported budget name args boardId w latency data :
  (name = "jira_get_sprint_issues" /\ GetSprintIssuesSchema args = Some boardId)
  \/ (name = "jira_daily_standup_report"
      /\ exists validated,
           DailyStandupReportSchema args = Some validated
           /\ DailyStandupReportInput.boardId validated = boardId
           /\ fst (CacheManager.get (World.clock w) (World.sprintCache w)
                     (CacheKeys.standupReport boardId
                        (DailyStandupReportInput.projectKey validated))) = None) ->
  CacheManager.mapGet
    (CacheManager.getFullKey (World.sprintCache w) (CacheKeys.sprint boardId))
    (CacheManager.cache (World.sprintCache w)) = None ->
  respond (World.trace w) (World.clock w) (GetBoardSprints boardId)
  = (latency, inr data) ->
  head (default [] (ResponseData.values data)) = None ->
  exists w',
    handleJiraTool budget name args w
    = (Returned
         (PError
            {| ErrorResponse.error :=
                 "No active sprint found for board " ++ numToString boardId;
               ErrorResponse.tool := name;
               ErrorResponse.status := Some 404;
               ErrorResponse.details :=
                 DetailsBase JIRA_SPRINT_NOT_FOUND (World.clock w + latency)
                   (if development then Some (CtxBoardId boardId) else None) |}),
       w')
    /\ World.clock w' = World.clock w + latency
    /\ World.trace w' = (World.trace w ++ [EvRequest (GetBoardSprints boardId)])%list
    /\ forall k e,
         CacheManager.mapGet k (CacheManager.cache (World.sprintCache w')) = Some e ->
         CacheManager.mapGet k (CacheManager.cache (World.sprintCache w)) = Some e.
Proof.
  intros Htool Hmiss Hrespond Hnone.
  destruct Htool as [(-> & Hv)|(-> & validated & Hv & Hb & Hreport)].
  - destruct (getActiveSprint_none boardId w latency data Hmiss Hrespond Hnone)
      as (c1 & Hsprint & Hc1).
    eexists. split; [|split; [|split]].
    + unfold handleJiraTool, dispatch. simpl.
      unfold getSprintIssues, validate. rewrite Hv.
      unfold tryCatch, mbind, M_bind, bind, mret, M_ret, ret, handleError, throw, now.
      rewrite Hsprint. simpl. reflexivity.
    + reflexivity.
    + reflexivity.
    + simpl. rewrite Hc1. auto.
  - destruct (CacheManager.get (World.clock w) (World.sprintCache w) _)
      as [r c0] eqn:Hget. simpl in Hreport. subst r.
    destruct (get_miss _ _ _ _ Hget) as (Hfk & _ & Hold).
    set (w0 := {| World.clock := World.clock w; World.sprintCache := c0;
                  World.trace := World.trace w |}).
    assert (Hfk0 : CacheManager.getFullKey c0 (CacheKeys.sprint boardId)
                   = CacheManager.getFullKey (World.sprintCache w)
                       (CacheKeys.sprint boardId)).
    { unfold CacheManager.getFullKey.
      rewrite (get_keeps_prefix _ _ _ _ _ Hget). reflexivity. }
    assert (Hmiss0 :
              CacheManager.mapGet
                (CacheManager.getFullKey (World.sprintCache w0)
                   (CacheKeys.sprint boardId))
                (CacheManager.cache (World.sprintCache w0)) = None).
    { simpl. rewrite Hfk0.
      destruct (CacheManager.mapGet _ (CacheManager.cache c0)) as [e|] eqn:E;
        [|reflexivity].
      apply Hold in E. congruence. }
    destruct (getActiveSprint_none boardId w0 latency data Hmiss0 Hrespond Hnone)
      as (c1 & Hsprint & Hc1).
    eexists. split; [|split; [|split]].
    + rewrite handleJiraTool_daily, (dailyStandupReport_validated _ _ _ Hv), Hb.
      unfold tryCatch, standupReport, mbind, M_bind, bind, cacheGet.
      rewrite Hget. fold w0. rewrite Hsprint.
      unfold now, throw, handleError, mret, M_ret, ret. simpl. reflexivity.
    + reflexivity.
    + reflexivity.
    + simpl. rewrite Hc1. simpl. exact Hold.
Qed.

(** ** Accepted arguments *)

Lemma parseBoardId_Some v z : parseBoardId v = Some z -> v = VInt z /\ 0 < z.
Proof.
  destruct v; simpl; try discriminate.
  destruct (0 <? z0) eqn:E; [|discriminate].
  intros Heq; inversion Heq; subst. apply Z.ltb_lt in E. auto.
Qed.

Lemma parseOptional_Some {A : Type} (inner : JsValue -> option A) v a :
  parseOptional inner v = Some (Some a) -> inner v = Some a.
Proof.
  unfold parseOptional. destruct v; try discriminate;
    destruct (inner _); intros Heq; inversion Heq; reflexivity.
Qed.

Lemma parseStringIf_Some p v s0 :
  parseStringIf p v = Some s0 -> v = VString s0 /\ p s0 = true.
Proof.
  destruct v; simpl; try discriminate.
  destruct (p s) eqn:E; [|discriminate].
  intros Heq; inversion Heq; subst. auto.
Qed.

Lemma parseIntBetween_Some lo hi v z :
  parseIntBetween lo hi v = Some z -> v = VInt z /\ lo <= z <= hi.
Proof.
  destruct v; simpl; try discriminate.
  destruct ((lo <=? z0) && (z0 <=? hi)) eqn:E; [|discriminate].
  intros Heq; inversion Heq; subst.
  apply andb_true_iff in E. destruct E as [E1 E2].
  apply Z.leb_le in E1, E2. auto.
Qed.

Lemma orTwo_in_range daysStale :
  (forall d, daysStale = Some d -> 1 <= d <= 30) -> 1 <= orTwo daysStale <= 30.
Proof.
  intros Hrange. destruct daysStale as [d|]; simpl; [|lia].
  specialize (Hrange d eq_refl). destruct d; simpl; lia.
Qed.

Lemma isProjectKey_shape s0 :
  isProjectKey s0 = true ->
  (2 <= String.length s0 <= 10)%nat
  /\ Forall (fun c => isUpper c = true) (list_ascii_of_string s0).
Proof.
  unfold isProjectKey, allChars. rewrite !andb_true_iff.
  intros [[Hall Hlo] Hhi]. apply Nat.leb_le in Hlo, Hhi.
  split; [lia|]. apply Forall_forall. intros c Hin.
  rewrite forallb_forall in Hall. apply Hall. apply list_elem_of_In. exact Hin.
Qed.

Lemma pdf_schema_reads args validated :
  GenerateStandupPDFSchema args = Some validated ->
  0 < GenerateStandupPDFInput.boardId validated
  /\ (forall pk, GenerateStandupPDFInput.projectKey validated = Some pk ->
                 isProjectKey pk = true)
  /\ (forall d, GenerateStandupPDFInput.daysStale validated = Some d -> 1 <= d <= 30)
  /\ (forall path, GenerateStandupPDFInput.outputPath validated = Some path ->
                   isPdfPath path = true).
Proof.
  unfold GenerateStandupPDFSchema.
  destruct args as [| | | | | |l|fields]; try discriminate.
  destruct (strictKeys _ fields); [|discriminate].
  destruct (parseBoardId _) as [b|] eqn:Hb; [|discriminate].
  destruct (parseOptional (parseStringIf isProjectKey) _) as [pk|] eqn:Hpk;
    [|discriminate].
  destruct (parseOptional (parseIntBetween 1 30) _) as [ds|] eqn:Hds; [|discriminate].
  destruct (parseOptional (parseStringIf isPdfPath) _) as [op|] eqn:Hop;
    [|discriminate].
  simpl. intros Heq; inversion Heq; subst; simpl.
  split; [apply (parseBoardId_Some _ _ Hb)|].
  split; [|split].
  - intros pk' ->. apply parseOptional_Some in Hpk.
    apply (parseStringIf_Some _ _ _ Hpk).
  - intros d ->. apply parseOptional_Some in Hds.
    apply (parseIntBetween_Some _ _ _ _ Hds).
  - intros path ->. apply parseOptional_Some in Hop.
    apply (parseStringIf_Some _ _ _ Hop).
Qed.

Lemma daily_schema_reads args validated :
  DailyStandupReportSchema args = Some validated ->
  0 < DailyStandupReportInput.boardId validated
  /\ (forall pk, DailyStandupReportInput.projectKey validated = Some pk ->
                 isProjectKey pk = true)
  /\ (forall d, DailyStandupReportInput.daysStale validated = Some d -> 1 <= d <= 30).
Proof.
  unfold DailyStandupReportSchema.
  destruct args as [| | | | | |l|fields]; try discriminate.
  destruct (strictKeys _ fields); [|discriminate].
  destruct (parseBoardId _) as [b|] eqn:Hb; [|discriminate].
  destruct (parseOptional (parseStringIf isProjectKey) _) as [pk|] eqn:Hpk;
    [|discriminate].
  destruct (parseOptional (parseIntBetween 1 30) _) as [ds|] eqn:Hds; [|discriminate].
  destruct (parseOptional parseBool _) as [iu|]; [|discriminate].
  simpl. intros Heq; inversion Heq; subst; simpl.
  split; [apply (parseBoardId_Some _ _ Hb)|].
  split.
  - intros pk' ->. apply parseOptional_Some in Hpk.
    apply (parseStringIf_Some _ _ _ Hpk).
  - intros d ->. apply parseOptional_Some in Hds.
    apply (parseIntBetween_Some _ _ _ _ Hds).
Qed.

(** X21. The arguments a standup report is built from are in range: when
    [DailyStandupReportSchema] accepts, the board id is positive, a project
    key (if any) is 2 to 10 capital letters, and the staleness threshold
    the handler goes on with, [daysStale || 2], lies between 1 and 30. *)
Theorem report_arguments_are_in_range args validated :
  DailyStandupReportSchema args = Some validated ->
  0 < DailyStandupReportInput.boardId validated
  /\ 1 <= orTwo (DailyStandupReportInput.daysStale validated) <= 30
  /\ forall pk,
       DailyStandupReportInput.projectKey validated = Some pk ->
       (2 <= String.length pk <= 10)%nat
       /\ Forall (fun c => isUpper c = true) (list_ascii_of_string pk).
Proof.
  intros Hv. destruct (daily_schema_reads _ _ Hv) as (Hb & Hpk & Hds).
  split; [exact Hb|]. split; [apply orTwo_in_range; exact Hds|].
  intros pk Heq. apply isProjectKey_shape. apply Hpk. exact Heq.
Qed.

(** ** The PDF tool *)

Lemma nested_report_args_accepted validated :
  0 < GenerateStandupPDFInput.boardId validated ->
  (forall pk, GenerateStandupPDFInput.projectKey validated = Some pk ->
              isProjectKey pk = true) ->
  (forall d, GenerateStandupPDFInput.daysStale validated = Some d -> 1 <= d <= 30) ->
  DailyStandupReportSchema (nestedReportArgs validated)
  = Some {| DailyStandupReportInput.boardId :=
              GenerateStandupPDFInput.boardId validated;
            DailyStandupReportInput.projectKey :=
              GenerateStandupPDFInput.projectKey validated;
            DailyStandupReportInput.daysStale :=
              Some (orTwo (GenerateStandupPDFInput.daysStale validated));
            DailyStandupReportInput.includeUnassigned := Some true |}.
Proof.
  intros Hb Hpk Hds.
  pose proof (orTwo_in_range _ Hds) as Hrange.
  unfold nestedReportArgs, DailyStandupReportSchema.
  destruct validated as [b pk ds op]. simpl in *.
  assert (Hpos : (0 <? b) = true) by (apply Z.ltb_lt; exact Hb).
  assert (Hin : (1 <=? orTwo ds) && (orTwo ds <=? 30) = true).
  { apply andb_true_iff. split; apply Z.leb_le; lia. }
  destruct pk as [pk|].
  - cbn. rewrite Hpos. cbn. rewrite (Hpk pk eq_refl). cbn. rewrite Hin. reflexivity.
  - cbn. rewrite Hpos. cbn. rewrite Hin. reflexivity.
Qed.

Lemma generateStandupPdf_validated budget args validated :
  GenerateStandupPDFSchema args = Some validated ->
  generateStandupPdf budget args
  = (reportData ←
       tryCatch (dailyStandupReport budget (nestedReportArgs validated))
                (handleError "jira_daily_standup_report");
     match errorField reportData with
     | Some _ =>
         t ← now;
         throw (ThrownBase
                  (newApiError t "Failed to generate report data" INTERNAL_ERROR 500))
     | None =>
         pdfPath ←
           generateStandupPDF reportData
             (GenerateStandupPDFInput.outputPath validated);
         match reportData with
         | PData (DReport report) =>
             mret (PPdf pdfPath (StandupReport.sprintName report)
                     (StandupReport.date report)
                     (SprintSummary.totalSprintIssues (StandupReport.summary report))
                     (Z.of_nat (length (StandupReport.overdueIssues report)))
                     (Z.of_nat (length (StandupReport.staleIssues report))))
         | _ =>
             throw (ThrownError "TypeError"
                      "Cannot read properties of undefined (reading 'totalSprintIssues')")
         end
     end).
Proof.
  intros Hv. unfold generateStandupPdf, validate. rewrite Hv. reflexivity.
Qed.

(** X22. [jira_generate_standup_pdf] goes through the report tool with
    arguments that its schema always accepts, so it builds (or reads from
    the cache) exactly the report [jira_daily_standup_report] would give
    for the board, the project and [daysStale || 2]. When that report
    fails with an error that has a message, the PDF engine is not called
    and the answer is "Failed to generate report data" with status 500 and
    code [INTERNAL_ERROR], whatever the cause was. When it succeeds and
    the PDF engine returns a path, the answer carries that path and the
    sprint name, the date, the total and the numbers of overdue and stale
    issues of the report. *)
Theorem pdf_tool_goes_through_the_report_tool budget args validated w :
  GenerateStandupPDFSchema args = Some validated ->
  let report :=
    standupReport budget (GenerateStandupPDFInput.boardId validated)
      (GenerateStandupPDFInput.projectKey validated)
      (orTwo (GenerateStandupPDFInput.daysStale validated)) in
  handleJiraTool budget "jira_daily_standup_report" (nestedReportArgs validated) w
  = tryCatch report (handleError "jira_daily_standup_report") w
  /\ (forall e w1,
        report w = (Threw e, w1) ->
        thrownMessage e <> "" ->
        handleJiraTool budget "jira_generate_standup_pdf" args w
        = (Returned
             (PError
                {| ErrorResponse.error := "Failed to generate report data";
                   ErrorResponse.tool := "jira_generate_standup_pdf";
                   ErrorResponse.status := Some 500;
                   ErrorResponse.details :=
                     DetailsBase INTERNAL_ERROR (World.clock w1) None |}),
           w1))
  /\ (forall r w1 pdfPath w2,
        report w = (Returned (PData (DReport r)), w1) ->
        generateStandupPDF (PData (DReport r))
          (GenerateStandupPDFInput.outputPath validated) w1
        = (Returned pdfPath, w2) ->
        handleJiraTool budget "jira_generate_standup_pdf" args w
        = (Returned
             (PPdf pdfPath (StandupReport.sprintName r) (StandupReport.date r)
                (SprintSummary.totalSprintIssues (StandupReport.summary r))
                (Z.of_nat (length (StandupReport.overdueIssues r)))
                (Z.of_nat (length (StandupReport.staleIssues r)))),
           w2)).
Proof.
  intros Hv report.
  destruct (pdf_schema_reads _ _ Hv) as (Hb & Hpk & Hds & _).
  pose proof (nested_report_args_accepted validated Hb Hpk Hds) as Hnested.
  assert (Hdaily :
            dailyStandupReport budget (nestedReportArgs validated) = report).
  { rewrite (dailyStandupReport_validated _ _ _ Hnested). simpl.
    unfold report.
    destruct (GenerateStandupPDFInput.daysStale validated) as [[| |]|];
      reflexivity. }
  split; [|split].
  - rewrite handleJiraTool_daily, Hdaily. reflexivity.
  - intros e w1 Hfail Hmessage.
    unfold handleJiraTool, dispatch. simpl.
    rewrite (generateStandupPdf_validated _ _ _ Hv), Hdaily.
    unfold handleError, tryCatch, mbind, M_bind, bind, mret, M_ret, ret.
    rewrite Hfail. cbv beta iota.
    assert (Herr : errorField (PError (ErrorHandler.handle e "jira_daily_standup_report"))
                   = Some (thrownMessage e)).
    { unfold errorField.
      replace (ErrorResponse.error (ErrorHandler.handle e "jira_daily_standup_report"))
        with (thrownMessage e) by (destruct e; reflexivity).
      destruct (thrownMessage e); [contradiction | reflexivity]. }
    rewrite Herr. unfold now, throw. simpl.
    rewrite toResponse_without_context. reflexivity.
  - intros r w1 pdfPath w2 Hreport Hrender.
    unfold handleJiraTool, dispatch. simpl.
    rewrite (generateStandupPdf_validated _ _ _ Hv), Hdaily.
    unfold tryCatch, mbind, M_bind, bind, mret, M_ret, ret, handleError.
    rewrite Hreport. simpl. rewrite Hrender. reflexivity.
Qed.

End HandlerFurther.

(* ================================================================== *)
(** * Properties of the sanitizers *)
(* ================================================================== *)

Lemma trimStart_split s :
  exists pre,
    s = (pre ++ trimStart s)%list /\ Forall (fun u => isWhiteSpace u = true) pre.
Proof.
  induction s as [|u s IH]; simpl.
  - exists []. split; [reflexivity | constructor].
  - destruct (isWhiteSpace u) eqn:E.
    + destruct IH as (pre & Hs & Hpre). exists (u :: pre).
      split; [simpl; congruence | constructor; assumption].
    + exists []. split; [reflexivity | constructor].
Qed.

Lemma trimStart_head s u rest :
  trimStart s = u :: rest -> isWhiteSpace u = false.
Proof.
  induction s as [|v s IH]; simpl; [discriminate|].
  destruct (isWhiteSpace v) eqn:E; [exact IH|].
  intros Heq; inversion Heq; subst. exact E.
Qed.

Lemma trimStart_fixed s :
  (forall u, head s = Some u -> isWhiteSpace u = false) -> trimStart s = s.
Proof.
  destruct s as [|u s]; simpl; [reflexivity|].
  intros Hhead. rewrite (Hhead u eq_refl). reflexivity.
Qed.

Lemma trimEnd_split s :
  exists post,
    s = (trimEnd s ++ post)%list /\ Forall (fun u => isWhiteSpace u = true) post.
Proof.
  unfold trimEnd. destruct (trimStart_split (rev s)) as (pre & Hs & Hpre).
  exists (rev pre). split.
  - rewrite <- rev_app_distr, <- Hs, rev_involutive. reflexivity.
  - apply Forall_forall. intros u Hin. rewrite Forall_forall in Hpre.
    apply Hpre. apply list_elem_of_In. apply list_elem_of_In in Hin.
    apply in_rev. exact Hin.
Qed.

Lemma last_rev_head {A : Type} (l : list A) : last (rev l) = head l.
Proof. destruct l as [|x l]; simpl; [reflexivity | apply last_snoc]. Qed.

Lemma trimEnd_last s u :
  last (trimEnd s) = Some u -> isWhiteSpace u = false.
Proof.
  unfold trimEnd. rewrite last_rev_head.
  destruct (trimStart (rev s)) as [|v rest] eqn:E; simpl; [discriminate|].
  intros Heq; inversion Heq; subst. apply (trimStart_head _ _ _ E).
Qed.

Lemma trimEnd_fixed s :
  (forall u, last s = Some u -> isWhiteSpace u = false) -> trimEnd s = s.
Proof.
  intros Hlast. unfold trimEnd. rewrite trimStart_fixed.
  - apply rev_involutive.
  - intros u Hu. apply Hlast. rewrite <- (rev_involutive s), last_rev_head. exact Hu.
Qed.

Lemma trimEnd_head s u :
  head s = Some u -> isWhiteSpace u = false -> head (trimEnd s) = Some u.
Proof.
  intros Hhead Hu. destruct (trimEnd_split s) as (post & Hs & Hpost).
  destruct (trimEnd s) as [|v rest] eqn:E.
  - simpl in Hs. subst post. destruct s as [|w s]; [discriminate|].
    simpl in Hhead. inversion Hhead; subst.
    apply Forall_cons in Hpost. destruct Hpost as [Hw _]. congruence.
  - rewrite Hs in Hhead. simpl in *. exact Hhead.
Qed.

Lemma trim_split s :
  exists pre post,
    s = (pre ++ trim s ++ post)%list
    /\ Forall (fun u => isWhiteSpace u = true) pre
    /\ Forall (fun u => isWhiteSpace u = true) post.
Proof.
  unfold trim. destruct (trimStart_split s) as (pre & Hs & Hpre).
  destruct (trimEnd_split (trimStart s)) as (post & Ht & Hpost).
  exists pre, post. split; [|split; assumption].
  rewrite <- Ht. exact Hs.
Qed.

Lemma trim_head s u : head (trim s) = Some u -> isWhiteSpace u = false.
Proof.
  unfold trim. destruct (trimStart s) as [|v rest] eqn:E.
  - unfold trimEnd. simpl. discriminate.
  - pose proof (trimStart_head _ _ _ E) as Hv.
    rewrite (trimEnd_head (v :: rest) v eq_refl Hv).
    intros Heq; inversion Heq; subst. exact Hv.
Qed.

Lemma trim_last s u : last (trim s) = Some u -> isWhiteSpace u = false.
Proof. unfold trim. apply trimEnd_last. Qed.

Lemma trim_fixed s :
  (forall u, head s = Some u -> isWhiteSpace u = false) ->
  (forall u, last s = Some u -> isWhiteSpace u = false) ->
  trim s = s.
Proof.
  intros Hhead Hlast. unfold trim. rewrite (trimStart_fixed s Hhead).
  apply trimEnd_fixed. exact Hlast.
Qed.

Lemma List_filter_sublist {A : Type} (f : A -> bool) (l : list A) :
  sublist (List.filter f l) l.
Proof.
  induction l as [|x l IH]; simpl; [constructor|].
  destruct (f x); [apply sublist_skip | apply sublist_cons]; exact IH.
Qed.

Lemma List_filter_fixed {A : Type} (f : A -> bool) (l : list A) :
  (forall x, In x l -> f x = true) -> List.filter f l = l.
Proof.
  induction l as [|x l IH]; simpl; [reflexivity|].
  intros Hall. rewrite (Hall x (or_introl eq_refl)). f_equal. apply IH. auto.
Qed.

Lemma sublist_In {A : Type} (l1 l2 : list A) x :
  sublist l1 l2 -> In x l1 -> In x l2.
Proof.
  intros Hsub Hin. apply list_elem_of_In. apply list_elem_of_In in Hin.
  eapply elem_of_sublist; eauto.
Qed.

Lemma sanitizeString_sublist input :
  sublist (sanitizeString input) (List.filter (fun u => negb (u =? 0)%N) input).
Proof.
  unfold sanitizeString. cbv zeta.
  set (clean := List.filter _ input).
  assert (Htrim : sublist (trim clean) clean).
  { destruct (trim_split clean) as (pre & post & Hs & _ & _).
    rewrite Hs at 2. apply sublist_inserts_l. apply sublist_inserts_r. reflexivity. }
  destruct (10000 <? _); [|exact Htrim].
  etransitivity; [apply sublist_take | exact Htrim].
Qed.

(** X23. [sanitizeString] only removes code units: its result is a
    subsequence of the input, holds no NUL, is at most 10000 code units
    long and does not begin with white space. When the trimmed text fits
    into the 10000 code units, the result does not end with white space
    either and sanitizing it again changes nothing; an input that is
    already clean is returned as it is. *)
Theorem sanitizeString_only_removes input :
  let out := sanitizeString input in
  sublist out input
  /\ ~ In 0%N out
  /\ Z.of_nat (length out) <= 10000
  /\ (forall u, head out = Some u -> isWhiteSpace u = false)
  /\ (Z.of_nat (length (trim (List.filter (fun u => negb (u =? 0)%N) input))) <= 10000 ->
      (forall u, last out = Some u -> isWhiteSpace u = false)
      /\ sanitizeString out = out)
  /\ (~ In 0%N input ->
      Z.of_nat (length input) <= 10000 ->
      (forall u, head input = Some u -> isWhiteSpace u = false) ->
      (forall u, last input = Some u -> isWhiteSpace u = false) ->
      out = input).
Proof.
  intros out.
  pose proof (sanitizeString_sublist input) as Hsub. fold out in Hsub.
  assert (Hclean : forall l : CodeUnits,
             ~ In 0%N l -> List.filter (fun u => negb (u =? 0)%N) l = l).
  { intros l Hno. apply List_filter_fixed. intros x Hin.
    destruct (x =? 0)%N eqn:E; [|reflexivity].
    apply N.eqb_eq in E. subst. contradiction. }
  assert (Hnul : ~ In 0%N out).
  { intros Hin. apply (sublist_In _ _ _ Hsub) in Hin.
    apply filter_In in Hin. destruct Hin as [_ Hin]. discriminate. }
  assert (Hshort : forall l : CodeUnits,
             Z.of_nat (length l) <= 10000 -> (10000 <? Z.of_nat (length l)) = false).
  { intros l Hl. apply Z.ltb_ge. lia. }
  split; [|split; [|split; [|split; [|split]]]].
  - etransitivity; [exact Hsub | apply List_filter_sublist].
  - exact Hnul.
  - unfold out, sanitizeString. cbv zeta.
    destruct (10000 <? _) eqn:E.
    + rewrite length_take. lia.
    + apply Z.ltb_ge in E. lia.
  - unfold out, sanitizeString. cbv zeta. intros u.
    destruct (10000 <? _) eqn:E; [|apply trim_head].
    destruct (trim _) as [|v rest] eqn:Ht; [discriminate|].
    change (take (Z.to_nat 10000) (v :: rest))
      with (take (S (Z.to_nat 9999)) (v :: rest)).
    simpl. intros Heq; inversion Heq; subst.
    apply (trim_head (List.filter (fun u => negb (u =? 0)%N) input)).
    rewrite Ht. reflexivity.
  - intros Hfits.
    assert (Hout : out = trim (List.filter (fun u => negb (u =? 0)%N) input)).
    { unfold out, sanitizeString. cbv zeta. rewrite (Hshort _ Hfits). reflexivity. }
    assert (Hlast : forall u, last out = Some u -> isWhiteSpace u = false).
    { intros u. rewrite Hout. apply trim_last. }
    split; [exact Hlast|].
    assert (Hhead : forall u, head out = Some u -> isWhiteSpace u = false).
    { intros u. rewrite Hout. apply trim_head. }
    unfold sanitizeString at 1. cbv zeta.
    rewrite (Hclean out Hnul), (trim_fixed out Hhead Hlast).
    rewrite Hshort; [reflexivity|]. rewrite Hout. exact Hfits.
  - intros Hno Hlen Hhead Hlast. unfold out, sanitizeString. cbv zeta.
    rewrite (Hclean input Hno), (trim_fixed input Hhead Hlast).
    rewrite (Hshort _ Hlen). reflexivity.
Qed.

(** X24. [sanitizeJQL] only removes code units as well: its result is a
    subsequence of the query, free of NUL and of the characters [;], [<]
    and [>], and at most 10000 code units long; a query that is already
    clean is returned as it is. *)
Theorem sanitizeJQL_only_removes jql :
  let out := sanitizeJQL jql in
  sublist out jql
  /\ (forall u, In u out -> u <> 0%N /\ u <> 59%N /\ u <> 60%N /\ u <> 62%N)
  /\ Z.of_nat (length out) <= 10000
  /\ (~ In 0%N jql ->
      (forall u, In u jql -> isJqlDanger u = false) ->
      Z.of_nat (length jql) <= 10000 ->
      (forall u, head jql = Some u -> isWhiteSpace u = false) ->
      (forall u, last jql = Some u -> isWhiteSpace u = false) ->
      out = jql).
Proof.
  intros out.
  pose proof (sanitizeString_sublist jql) as Hsub.
  assert (Hlen : Z.of_nat (length (sanitizeString jql)) <= 10000).
  { unfold sanitizeString. cbv zeta. destruct (10000 <? _) eqn:E.
    - rewrite length_take. lia.
    - apply Z.ltb_ge in E. lia. }
  split; [|split; [|split]].
  - unfold out, sanitizeJQL.
    etransitivity; [apply List_filter_sublist|].
    etransitivity; [exact Hsub | apply List_filter_sublist].
  - intros u Hin. unfold out, sanitizeJQL in Hin.
    apply filter_In in Hin. destruct Hin as [Hin Hsafe].
    apply (sublist_In _ _ _ Hsub) in Hin. apply filter_In in Hin.
    destruct Hin as [_ Hnul].
    unfold isJqlDanger in Hsafe.
    repeat split; intros ->; discriminate.
  - unfold out, sanitizeJQL.
    pose proof (List.filter_length_le (fun u => negb (isJqlDanger u))
                  (sanitizeString jql)). lia.
  - intros Hno Hsafe Hlen' Hhead Hlast. unfold out, sanitizeJQL.
    assert (Hsame : sanitizeString jql = jql).
    { unfold sanitizeString. cbv zeta.
      rewrite (List_filter_fixed (fun u => negb (u =? 0)%N) jql).
      - rewrite (trim_fixed jql Hhead Hlast).
        destruct (10000 <? _) eqn:E; [apply Z.ltb_lt in E; lia | reflexivity].
      - intros x Hin. destruct (x =? 0)%N eqn:E; [|reflexivity].
        apply N.eqb_eq in E. subst. contradiction. }
    rewrite Hsame. apply List_filter_fixed.
    intros x Hin. rewrite (Hsafe x Hin). reflexivity.
Qed.

(* ================================================================== *)
(** * Properties of the configuration *)
(* ================================================================== *)

Lemma config_mapGet_mapSet k v m key :
  ConfigManager.mapGet key (ConfigManager.mapSet k v m)
  = if String.eqb k key then Some v else ConfigManager.mapGet key m.
Proof.
  induction m as [|[k0 v0] m IH]; simpl.
  - reflexivity.
  - destruct (String.eqb k0 k) eqn:E; simpl.
    + apply String.eqb_eq in E. subst k0.
      destruct (String.eqb k key); reflexivity.
    + rewrite IH. destruct (String.eqb k0 key) eqn:E2; [|reflexivity].
      apply String.eqb_eq in E2. subst k0. rewrite String.eqb_sym, E. reflexivity.
Qed.

Lemma blank_trim value : ConfigManager.blank value = true <-> trim value = [].
Proof.
  unfold ConfigManager.blank. destruct value as [|u rest]; [split; reflexivity|].
  destruct (trim (u :: rest)); split; congruence.
Qed.

Lemma loadKeys_spec env keys :
  forall state,
    let state' := foldl (ConfigManager.loadKey env) state keys in
    fst state' = (fst state ++ List.filter (unsetOrBlank env) keys)%list
    /\ forall key,
         ConfigManager.mapGet key (snd state')
         = if existsb (String.eqb key) keys && negb (unsetOrBlank env key)
           then trim <$> env key
           else ConfigManager.mapGet key (snd state).
Proof.
  induction keys as [|k keys IH]; intros state; cbv zeta.
  - simpl. rewrite app_nil_r. auto.
  - cbn [foldl]. specialize (IH (ConfigManager.loadKey env state k)).
    cbv zeta in IH. destruct IH as [Hmissing Hconfig]. rewrite Hmissing. split.
    + cbn [List.filter]. unfold unsetOrBlank at 2, ConfigManager.loadKey.
      destruct state as [missing config].
      destruct (env k) as [value|]; [destruct (ConfigManager.blank value)|];
        simpl; rewrite <- ?app_assoc; reflexivity.
    + intros key. rewrite Hconfig. cbn [existsb].
      destruct (unsetOrBlank env key) eqn:Hkey.
      * rewrite !andb_false_r.
        destruct state as [missing config]. unfold ConfigManager.loadKey.
        destruct (env k) as [value|] eqn:Hk; [|reflexivity].
        destruct (ConfigManager.blank value) eqn:Hb; [reflexivity|].
        simpl. rewrite config_mapGet_mapSet.
        destruct (String.eqb k key) eqn:Ek; [|reflexivity].
        apply String.eqb_eq in Ek. subst k.
        unfold unsetOrBlank in Hkey. rewrite Hk in Hkey. congruence.
      * rewrite !andb_true_r.
        destruct (existsb (String.eqb key) keys); [rewrite orb_true_r; reflexivity|].
        rewrite orb_false_r.
        destruct state as [missing config]. unfold ConfigManager.loadKey.
        unfold unsetOrBlank in Hkey.
        destruct (String.eqb key k) eqn:Ek.
        -- apply String.eqb_eq in Ek. subst k.
           destruct (env key) as [value|]; [|discriminate].
           rewrite Hkey. simpl.
           rewrite config_mapGet_mapSet, String.eqb_refl. reflexivity.
        -- destruct (env k) as [value|]; [|reflexivity].
           destruct (ConfigManager.blank value); [reflexivity|].
           simpl. rewrite config_mapGet_mapSet, String.eqb_sym, Ek. reflexivity.
Qed.

(** X25. [validateAndLoadConfig] loads all or nothing. When it succeeds,
    each of the four required variables is set to a value that is not
    blank, [get] answers that value trimmed (and so never throws for a
    required key), the trimmed Jira URL is one the URL parser accepts, and
    no other key is loaded. When it fails, either some required variable
    is unset or blank and the message lists exactly those variables, in
    the order of the required keys, or all are present and the Jira URL is
    not valid. *)
Theorem config_load_is_all_or_nothing isValidUrl env :
  (forall config,
     ConfigManager.validateAndLoadConfig isValidUrl env = inr config ->
     (forall key,
        In key ConfigManager.requiredKeys ->
        exists raw,
          env key = Some raw /\ trim raw <> []
          /\ ConfigManager.get config key = inr (trim raw))
     /\ (exists raw, env "JIRA_BASE_URL" = Some raw /\ isValidUrl (trim raw) = true)
     /\ (forall key,
           ~ In key ConfigManager.requiredKeys ->
           ConfigManager.mapGet key config = None))
  /\ (forall e,
        ConfigManager.validateAndLoadConfig isValidUrl env = inl e ->
        let missing := List.filter (unsetOrBlank env) ConfigManager.requiredKeys in
        (missing <> [] /\ e = ThrownError "Error" (missingVariables missing))
        \/ (missing = []
            /\ (exists raw,
                  env "JIRA_BASE_URL" = Some raw /\ isValidUrl (trim raw) = false)
            /\ e = ThrownError "Error"
                     "JIRA_BASE_URL must be a valid URL (e.g., https://your-domain.atlassian.net)")).
Proof.
  unfold ConfigManager.validateAndLoadConfig.
  pose proof (loadKeys_spec env ConfigManager.requiredKeys ([], [])) as Hspec.
  cbv zeta in Hspec.
  destruct (foldl (ConfigManager.loadKey env) ([], []) ConfigManager.requiredKeys)
    as [missing config] eqn:Hfold.
  simpl fst in Hspec. simpl snd in Hspec. destruct Hspec as [Hmissing Hconfig].
  rewrite app_nil_l in Hmissing.
  assert (Hpresent : missing = [] ->
                     forall key, In key ConfigManager.requiredKeys ->
                                 exists raw,
                                   env key = Some raw /\ trim raw <> []
                                   /\ ConfigManager.mapGet key config = Some (trim raw)).
  { intros Hnone key Hin.
    assert (Hkey : unsetOrBlank env key = false).
    { destruct (unsetOrBlank env key) eqn:E; [|reflexivity].
      assert (Hin' : In key (List.filter (unsetOrBlank env) ConfigManager.requiredKeys))
        by (apply filter_In; auto).
      rewrite <- Hmissing, Hnone in Hin'. destruct Hin'. }
    assert (Hex : existsb (String.eqb key) ConfigManager.requiredKeys = true).
    { apply existsb_exists. exists key. split; [exact Hin | apply String.eqb_refl]. }
    specialize (Hconfig key). rewrite Hex, Hkey in Hconfig. simpl in Hconfig.
    unfold unsetOrBlank in Hkey.
    destruct (env key) as [raw|]; [|discriminate].
    exists raw. split; [reflexivity|]. split; [|exact Hconfig].
    intros Hblank. apply blank_trim in Hblank. congruence. }
  assert (Hother : forall key, ~ In key ConfigManager.requiredKeys ->
                               ConfigManager.mapGet key config = None).
  { intros key Hnot. rewrite Hconfig.
    destruct (existsb (String.eqb key) ConfigManager.requiredKeys) eqn:E;
      [|reflexivity].
    apply existsb_exists in E. destruct E as (k & Hin & Heq).
    apply String.eqb_eq in Heq. subst k. contradiction. }
  assert (Hget : forall key raw,
             trim raw <> [] ->
             ConfigManager.mapGet key config = Some (trim raw) ->
             ConfigManager.get config key = inr (trim raw)).
  { intros key raw Hne Hlook. unfold ConfigManager.get. rewrite Hlook.
    destruct (trim raw); [congruence | reflexivity]. }
  split.
  - intros config' Hload.
    destruct missing as [|m ms]; [|discriminate].
    specialize (Hpresent eq_refl).
    destruct (Hpresent "JIRA_BASE_URL") as (rawUrl & Henv & Hne & Hlook);
      [unfold ConfigManager.requiredKeys; simpl; tauto|].
    rewrite Hlook in Hload.
    destruct (trim rawUrl) as [|u rest] eqn:Htrim; [congruence|].
    destruct (isValidUrl (u :: rest)) eqn:Hvalid; simpl in Hload; [|discriminate].
    inversion Hload; subst config'; clear Hload.
    split; [|split; [|exact Hother]].
    + intros key Hin. destruct (Hpresent key Hin) as (raw & Hraw & Hnb & Hl).
      exists raw. split; [exact Hraw|]. split; [exact Hnb|].
      apply Hget; assumption.
    + exists rawUrl. rewrite Htrim. auto.
  - intros e Hload. cbv zeta. rewrite <- Hmissing.
    destruct missing as [|m ms].
    + right. split; [reflexivity|].
      specialize (Hpresent eq_refl).
      destruct (Hpresent "JIRA_BASE_URL") as (rawUrl & Henv & Hne & Hlook);
        [unfold ConfigManager.requiredKeys; simpl; tauto|].
      rewrite Hlook in Hload.
      destruct (trim rawUrl) as [|u rest] eqn:Htrim; [congruence|].
      destruct (isValidUrl (u :: rest)) eqn:Hvalid; simpl in Hload; [discriminate|].
      inversion Hload; subst e. split; [|reflexivity].
      exists rawUrl. rewrite Htrim. auto.
    + left. split; [discriminate|]. inversion Hload. reflexivity.
Qed.

Lemma dropSlashes_split s :
  exists k : nat,
    s = (replicate k 47%N ++ ConfigManager.dropSlashes s)%list
    /\ head (ConfigManager.dropSlashes s) <> Some 47%N.
Proof.
  induction s as [|u s IH]; simpl.
  - exists O. split; [reflexivity | discriminate].
  - destruct (u =? 47)%N eqn:E.
    + apply N.eqb_eq in E. subst u. destruct IH as (k & Hs & Hhead).
      exists (S k). split; [simpl; congruence | exact Hhead].
    + exists O. split; [reflexivity|]. simpl. intros Heq. inversion Heq; subst.
      rewrite N.eqb_refl in E. discriminate.
Qed.

(** X26. The Jira base URL that the handler uses is the configured URL
    without the slashes at its end: it does not end in a slash, the
    configured value is that URL followed by slashes only, and the REST
    and Agile URLs are that URL followed by "/rest/api/3" and
    "/rest/agile/1.0". *)
Theorem jira_base_url_has_no_trailing_slash config base :
  ConfigManager.getJiraBaseUrl config = inr base ->
  last base <> Some 47%N
  /\ (exists k : nat,
        ConfigManager.get config "JIRA_BASE_URL"
        = inr (base ++ replicate k 47%N)%list)
  /\ ConfigManager.getJiraApiUrl config
     = inr (base ++ codeUnitsOf "/rest/api/3")%list
  /\ ConfigManager.getJiraAgileApiUrl config
     = inr (base ++ codeUnitsOf "/rest/agile/1.0")%list.
Proof.
  intros Hbase.
  unfold ConfigManager.getJiraApiUrl, ConfigManager.getJiraAgileApiUrl.
  rewrite Hbase. unfold ConfigManager.getJiraBaseUrl in Hbase.
  destruct (ConfigManager.get config "JIRA_BASE_URL") as [e|url]; [discriminate|].
  inversion Hbase; subst base; clear Hbase.
  destruct (dropSlashes_split (rev url)) as (k & Hs & Hhead).
  split; [|split; [|split; reflexivity]].
  - rewrite last_rev_head. exact Hhead.
  - exists k. f_equal.
    rewrite <- (rev_involutive url) at 1. rewrite Hs at 1.
    rewrite rev_app_distr. f_equal.
    clear. induction k as [|k IH]; simpl; [reflexivity|].
    rewrite IH. clear IH. induction k as [|k IH]; simpl; [reflexivity|].
    rewrite <- IH. reflexivity.
Qed.

(* ================================================================== *)
(** * Further properties of the classifier and of the error classes *)
(* ================================================================== *)

Section ClassifierFurther.
Context `{Runtime}.

Lemma substring0_length n s : (String.length (substring0 n s) <= n)%nat.
Proof.
  unfold substring0. revert s. induction n as [|n IH]; intros s.
  - destruct s; simpl; lia.
  - destruct s as [|c s]; simpl; [lia|]. specialize (IH s). lia.
Qed.

Lemma substring0_not_empty n c s : substring0 (S n) (String c s) <> "".
Proof. unfold substring0. simpl. discriminate. Qed.

Lemma extractCommentText_bounded body :
  extractCommentText body <> ""
  /\ (String.length (extractCommentText body) <= 200)%nat.
Proof.
  assert (Hdefault : (String.length "No text content" <= 200)%nat)
    by (apply Nat.leb_le; reflexivity).
  destruct body as [|s|[text|]|]; simpl; try (split; [discriminate | exact Hdefault]).
  - destruct s as [|c s]; [split; [discriminate | exact Hdefault]|].
    split; [apply (substring0_not_empty 199) | apply substring0_length].
  - destruct text as [|c s]; [split; [discriminate | exact Hdefault]|].
    split; [apply (substring0_not_empty 199) | apply substring0_length].
Qed.

(** X27. The comment text of a report is never empty and never longer
    than 200 characters: [extractCommentText] answers the first 200
    characters of a body that is a string, or of the first text of a
    document, and "No text content" otherwise. The last comment that
    [processIssue] records is the last of the list, has such a text and an
    author that is not empty; an issue without comments has none. *)
Theorem comment_text_is_short_and_not_empty now issue baseUrl daysStale :
  (forall body,
     extractCommentText body <> ""
     /\ (String.length (extractCommentText body) <= 200)%nat)
  /\ (forall c s, extractCommentText (BodyString (String c s))
                  = substring0 200 (String c s))
  /\ match IssueData.lastComment
             (CategorizedIssue.data (processIssue now issue baseUrl daysStale)) with
     | Some recorded =>
         exists comment,
           last (default [] (JiraIssue.comments issue)) = Some comment
           /\ LastComment.body recorded = extractCommentText (Comment.body comment)
           /\ LastComment.body recorded <> ""
           /\ (String.length (LastComment.body recorded) <= 200)%nat
           /\ LastComment.author recorded <> ""
     | None => default [] (JiraIssue.comments issue) = []
     end.
Proof.
  split; [apply extractCommentText_bounded|]. split; [reflexivity|].
  unfold processIssue. cbv zeta. simpl IssueData.lastComment.
  unfold extractLastComment.
  destruct (JiraIssue.comments issue) as [cs|]; simpl; [|reflexivity].
  destruct (last cs) as [comment|] eqn:Hlast.
  - exists comment. split; [reflexivity|]. simpl. split; [reflexivity|].
    destruct (extractCommentText_bounded (Comment.body comment)) as [Hne Hlen].
    split; [exact Hne|]. split; [exact Hlen|].
    destruct (Comment.author comment) as [[|c s]|]; simpl; discriminate.
  - destruct cs as [|c cs]; [reflexivity|].
    exfalso. clear -Hlast. revert c Hlast.
    induction cs as [|c' cs IH]; intros c; simpl; [discriminate|]. apply IH.
Qed.

(** X28. The errors of the [JiraError] factories (board, sprint or issue
    not found, permission denied) are [ApiError]s that the default retry
    policy does not retry: an operation that throws one of them is run
    once, without a wait, and the error passes to the caller unchanged.
    [ErrorHandler.handle] reports it with its own message and with status
    404, or 403 for a denied permission. *)
Theorem jira_errors_are_not_retried {T : Type} (operation : M T) options
    timestamp e tool w w1 :
  (exists boardId, e = JiraError.boardNotFound timestamp boardId)
  \/ (exists boardId, e = JiraError.sprintNotFound timestamp boardId)
  \/ (exists issueKey, e = JiraError.issueNotFound timestamp issueKey)
  \/ (exists resource, e = JiraError.permissionDenied timestamp resource) ->
  RetryOptions.shouldRetry options = None ->
  1 <= RetryHelper.maxAttemptsOf options ->
  operation w = (Threw (ThrownBase e), w1) ->
  RetryHelper.retry operation options w = (Threw (ThrownBase e), w1)
  /\ instanceofApiError (BaseError.cls e) = true
  /\ ErrorResponse.error (ErrorHandler.handle (ThrownBase e) tool) = BaseError.message e
  /\ ErrorResponse.status (ErrorHandler.handle (ThrownBase e) tool)
     = (if ErrorCode_eqb (BaseError.code e) JIRA_PERMISSION_DENIED
        then Some 403 else Some 404).
Proof.
  intros Hkind Hpolicy Hmax Hop.
  assert (Hno : forall attempt,
             RetryHelper.shouldRetryOf options (ThrownBase e) attempt = false).
  { intros attempt. unfold RetryHelper.shouldRetryOf. rewrite Hpolicy.
    destruct Hkind as [[b ->]|[[b ->]|[[k ->]|[r ->]]]]; reflexivity. }
  split.
  - unfold RetryHelper.retry.
    destruct (Z.to_nat (RetryHelper.maxAttemptsOf options)) as [|rounds] eqn:E; [lia|].
    apply retryFrom_give_up; [lia | exact Hop | right; apply Hno].
  - destruct Hkind as [[b ->]|[[b ->]|[[k ->]|[r ->]]]]; repeat split.
Qed.

End ClassifierFurther.

(* ================================================================== *)
(** * The further statements at work on the reference platform *)
(* ================================================================== *)

Lemma report_lists_are_the_categories_witness :
  @buildReport refRuntime (100 * day) (Sprint.mk 7 "Sprint 42")
    scenarioIssues (Some "WEB") 2 = inr scenarioReport
  /\ StandupReport.unassignedIssues scenarioReport
     = @recordsOfCategory refRuntime (100 * day) (Some "WEB") 2 unassigned
         scenarioIssues
  /\ StandupReport.blockedIssues scenarioReport
     = @recordsOfCategory refRuntime (100 * day) (Some "WEB") 2 blocked scenarioIssues
  /\ StandupReport.staleIssues scenarioReport
     = arraySort compareStale
         (@recordsOfCategory refRuntime (100 * day) (Some "WEB") 2 stale
            scenarioIssues)
  /\ StandupReport.overdueIssues scenarioReport
     = arraySort (@compareOverdue refRuntime)
         (@recordsOfCategory refRuntime (100 * day) (Some "WEB") 2 overdue
            scenarioIssues).
Proof.
  split; [vm_compute; reflexivity|].
  apply (@report_lists_are_the_categories refRuntime (100 * day)
           (Sprint.mk 7 "Sprint 42") scenarioIssues (Some "WEB") 2 scenarioReport).
  vm_compute; reflexivity.
Defined.

Lemma report_list_members_witness :
  @buildReport refRuntime (100 * day) (Sprint.mk 7 "Sprint 42")
    scenarioIssues (Some "WEB") 2 = inr scenarioReport
  /\ forall x, In x (StandupReport.staleIssues scenarioReport) ->
               exists days, IssueData.daysSinceUpdate x = Num days /\ 2 < days.
Proof.
  split; [vm_compute; reflexivity|].
  apply (@report_list_members refRuntime (100 * day)
           (Sprint.mk 7 "Sprint 42") scenarioIssues (Some "WEB") 2 scenarioReport).
  vm_compute; reflexivity.
Defined.

Lemma report_buckets_balance_witness :
  @buildReport refRuntime (100 * day) (Sprint.mk 7 "Sprint 42")
    scenarioIssues (Some "WEB") 2 = inr scenarioReport
  /\ bucketsWellFiled (StandupReport.byAssignee scenarioReport).
Proof.
  split; [vm_compute; reflexivity|].
  apply (@report_buckets_balance refRuntime (100 * day)
           (Sprint.mk 7 "Sprint 42") scenarioIssues (Some "WEB") 2 scenarioReport).
  vm_compute; reflexivity.
Defined.

Lemma fullStore_keys k e :
  In (k, e) (CacheManager.cache fullStore) -> k <> "".
Proof. intros [Heq|[Heq|[]]]; inversion Heq; discriminate. Qed.

Lemma evictOldest_witness :
  CacheManager.cache fullStore <> []
  /\ exists k e,
       In (k, e) (CacheManager.cache fullStore)
       /\ (forall k' e', In (k', e') (CacheManager.cache fullStore) ->
                         CacheEntry.expiry e <= CacheEntry.expiry e')
       /\ CacheManager.mapGet k
            (CacheManager.cache (CacheManager.evictOldest fullStore)) = None
       /\ forall k', k' <> k ->
                     CacheManager.mapGet k'
                       (CacheManager.cache (CacheManager.evictOldest fullStore))
                     = CacheManager.mapGet k' (CacheManager.cache fullStore).
Proof.
  split; [discriminate|].
  apply (evictOldest_removes_the_soonest_expiry fullStore);
    [discriminate | exact fullStore_keys].
Defined.

Lemma fullStore_wellFormed : storeWellFormed fullStore.
Proof.
  unfold storeWellFormed, storeKeys. simpl.
  split; [|split; [|split; lia]].
  - apply NoDup_cons. split; [|apply NoDup_singleton].
    intros Hin. apply list_elem_of_In in Hin. destruct Hin as [Heq|[]]. discriminate.
  - repeat constructor; discriminate.
Qed.

Lemma set_keeps_the_store_well_formed_witness :
  storeWellFormed fullStore
  /\ CacheManager.getFullKey fullStore "sprint:3" <> ""
  /\ storeWellFormed
       (CacheManager.set 500 fullStore "sprint:3" (DSprint (Sprint.mk 9 "Sprint 43"))
          None).
Proof.
  split; [exact fullStore_wellFormed|]. split; [discriminate|].
  apply (set_keeps_the_store_well_formed 500 fullStore "sprint:3"
           (DSprint (Sprint.mk 9 "Sprint 43")) None fullStore_wellFormed).
  discriminate.
Defined.

Lemma getOrSet_fills_the_store_once_witness :
  exists w1,
    getOrSet "sprint:1" (mret (DSprint (Sprint.mk 7 "Sprint 42"))) None startWorld
    = (Returned (DSprint (Sprint.mk 7 "Sprint 42")), w1)
    /\ exists entry,
         CacheManager.mapGet (CacheManager.getFullKey (World.sprintCache w1) "sprint:1")
           (CacheManager.cache (World.sprintCache w1)) = Some entry
         /\ CacheEntry.data entry = DSprint (Sprint.mk 7 "Sprint 42")
         /\ forall factory' ttlSeconds' w2,
              World.sprintCache w2 = World.sprintCache w1 ->
              World.clock w2 <= CacheEntry.expiry entry ->
              getOrSet "sprint:1" factory' ttlSeconds' w2
              = (Returned (DSprint (Sprint.mk 7 "Sprint 42")), afterHit w2).
Proof.
  eexists. split; [vm_compute; reflexivity|].
  eapply (getOrSet_fills_the_store_once "sprint:1"
            (mret (DSprint (Sprint.mk 7 "Sprint 42"))) None startWorld).
  vm_compute; reflexivity.
Defined.

Section ReferenceRequests.
Context `{Runtime} `{Upstream}.

Lemma request_adds_no_wait r w :
  sleepsOf (World.trace (snd (request r w))) = sleepsOf (World.trace w).
Proof.
  unfold request. destruct (respond _ _ r) as [latency [error|data]]; simpl;
    rewrite sleepsOf_app; simpl; apply app_nil_r.
Qed.

End ReferenceRequests.

Lemma retry_waits_follow_the_backoff_witness :
  exists k : nat,
    Z.of_nat k <= Z.max 0 (RetryHelper.maxAttemptsOf RetryOptions.empty - 1)
    /\ sleepsOf
         (World.trace
            (snd (RetryHelper.retry
                    (@sprintRequest refRuntime (flakyUpstream 2 503 []))
                    RetryOptions.empty startWorld)))
       = (sleepsOf (World.trace startWorld)
          ++ backoff RetryOptions.empty k
               (RetryHelper.initialDelayOf RetryOptions.empty))%list
    /\ forall i d,
         backoff RetryOptions.empty k (RetryHelper.initialDelayOf RetryOptions.empty)
           !! S i = Some d ->
         d <= RetryHelper.maxDelayOf RetryOptions.empty.
Proof.
  apply (@retry_waits_follow_the_backoff ResponseData.t
           (@sprintRequest refRuntime (flakyUpstream 2 503 []))
           RetryOptions.empty startWorld).
  intros w0. apply (@request_adds_no_wait refRuntime (flakyUpstream 2 503 [])).
Defined.

Lemma unknown_tool_is_refused_witness :
  ~ In "jira_delete_issue" jiraTools
  /\ @handleJiraTool refRuntime (pagedUpstream []) 1 "jira_delete_issue" VUndefined
       startWorld
     = (Returned
          (PError
             {| ErrorResponse.error := "Unknown Jira tool: " ++ "jira_delete_issue";
                ErrorResponse.tool := strOr (Some "jira_delete_issue") "unknown";
                ErrorResponse.status := Some 400;
                ErrorResponse.details :=
                  DetailsBase UNKNOWN_TOOL (World.clock startWorld) None |}),
        startWorld).
Proof.
  assert (Hnot : ~ In "jira_delete_issue" jiraTools).
  { unfold jiraTools. simpl. intuition discriminate. }
  split; [exact Hnot|].
  apply (@unknown_tool_is_refused refRuntime (pagedUpstream []) 1
           "jira_delete_issue" VUndefined startWorld Hnot).
Defined.

Lemma invalid_arguments_are_refused_first_witness :
  In "jira_get_sprint_issues" jiraTools
  /\ @schemaAccepts refRuntime "jira_get_sprint_issues"
       (VObject [("boardId", VInt 0)]) = false
  /\ @handleJiraTool refRuntime (pagedUpstream []) 1 "jira_get_sprint_issues"
       (VObject [("boardId", VInt 0)]) startWorld
     = (Returned
          (PError
             {| ErrorResponse.error := "Input validation failed";
                ErrorResponse.tool := "jira_get_sprint_issues";
                ErrorResponse.status := Some 500;
                ErrorResponse.details :=
                  if @development refRuntime then DetailsStack "ValidationError"
                  else DetailsText "An unexpected error occurred" |}),
        startWorld).
Proof.
  assert (Hin : In "jira_get_sprint_issues" jiraTools).
  { unfold jiraTools. simpl. tauto. }
  split; [exact Hin|]. split; [vm_compute; reflexivity|].
  apply (@invalid_arguments_are_refused_first refRuntime (pagedUpstream []) 1
           "jira_get_sprint_issues" (VObject [("boardId", VInt 0)]) startWorld Hin).
  vm_compute; reflexivity.
Defined.

Lemma upstream_failure_reaches_the_caller_witness :
  exists issueData response w',
    @CreateJiraIssueSchema refRuntime createArgs = Some issueData
    /\ @handleJiraTool refRuntime (failingUpstream 503) 1 "jira_create_issue"
         createArgs startWorld = (Returned (PError response), w')
    /\ ErrorResponse.status response = Some 503
    /\ World.trace w'
       = [ EvRequest (PostIssue issueData); EvSleep 1000;
           EvRequest (PostIssue issueData); EvSleep 2000;
           EvRequest (PostIssue issueData) ].
Proof.
  eexists.
  assert (Hv : @CreateJiraIssueSchema refRuntime createArgs
               = Some (CreateFields.mk "WEB" "A task" "" "Task" None None))
    by (vm_compute; reflexivity).
  destruct (@upstream_failure_reaches_the_caller refRuntime (failingUpstream 503) 1
              "jira_create_issue" createArgs
              (PostIssue (CreateFields.mk "WEB" "A task" "" "Task" None None))
              (httpFailure 503) startWorld
              (or_introl (conj eq_refl (ex_intro _ _ (conj Hv eq_refl))))
              (fun _ _ => eq_refl))
    as (response & w' & Hrun & Hstatus & _ & _ & _ & Htrace).
  exists response, w'. split; [exact Hv|]. split; [exact Hrun|].
  split; [exact Hstatus | exact Htrace].
Defined.

Lemma update_issue_invalidates_one_key_witness :
  @UpdateJiraIssueSchema refRuntime updateArgs
  = Some (UpdateJiraIssueInput.mk "WEB-1" [("summary", VString "New summary")])
  /\ forall key,
       key <> CacheKeys.issue "WEB-1" ->
       CacheManager.mapGet (CacheManager.getFullKey (World.sprintCache cachedWorld) key)
         (CacheManager.cache
            (World.sprintCache
               (snd (@handleJiraTool refRuntime (pagedUpstream scenarioIssues) 5
                       "jira_update_issue" updateArgs cachedWorld))))
       = CacheManager.mapGet
           (CacheManager.getFullKey (World.sprintCache cachedWorld) key)
           (CacheManager.cache (World.sprintCache cachedWorld)).
Proof.
  assert (Hv : @UpdateJiraIssueSchema refRuntime updateArgs
               = Some (UpdateJiraIssueInput.mk "WEB-1"
                         [("summary", VString "New summary")]))
    by (vm_compute; reflexivity).
  split; [exact Hv|].
  apply (@update_issue_invalidates_one_key refRuntime (pagedUpstream scenarioIssues)
           5 updateArgs _ cachedWorld Hv).
Defined.

Lemma sprint_overview_adds_up_witness :
  exists sprintName totalIssues byStatus byAssignee summary w',
    @handleJiraTool refRuntime (pagedUpstream scenarioIssues) 5
      "jira_get_sprint_issues" (VObject [("boardId", VInt 1)]) startWorld
    = (Returned (PSprintIssues sprintName totalIssues byStatus byAssignee summary), w')
    /\ SprintSummary.totalSprintIssues summary = totalIssues
    /\ SprintSummary.completedIssues summary + SprintSummary.inProgressIssues summary
       + SprintSummary.todoIssues summary = totalIssues.
Proof.
  do 6 eexists.
  assert (Hrun : @handleJiraTool refRuntime (pagedUpstream scenarioIssues) 5
                   "jira_get_sprint_issues" (VObject [("boardId", VInt 1)]) startWorld
                 = (Returned (PSprintIssues _ _ _ _ _), _))
    by (vm_compute; reflexivity).
  split; [exact Hrun|].
  pose proof (@sprint_overview_adds_up refRuntime (pagedUpstream scenarioIssues) 5
                _ _ _ _ _ _ _ _ Hrun) as (Htotal & Hsum & _).
  split; [exact Htotal | exact Hsum].
Defined.

Lemma fresh_report_is_served_for_five_minutes_witness :
  exists d,
    @handleJiraTool refRuntime (pagedUpstream scenarioIssues) 5
      "jira_daily_standup_report" (VObject [("boardId", VInt 1)]) startWorld
    = (Returned (PData d), cachedWorld)
    /\ @handleJiraTool refRuntime (pagedUpstream scenarioIssues) 5
         "jira_daily_standup_report"
         (VObject [("boardId", VInt 1); ("daysStale", VInt 7)]) cachedWorld
       = (Returned (PData d), afterHit cachedWorld).
Proof.
  eexists.
  assert (Hrun : @handleJiraTool refRuntime (pagedUpstream scenarioIssues) 5
                   "jira_daily_standup_report" (VObject [("boardId", VInt 1)])
                   startWorld
                 = (Returned (PData _), cachedWorld))
    by (vm_compute; reflexivity).
  split; [exact Hrun|].
  apply (@fresh_report_is_served_for_five_minutes refRuntime
           (pagedUpstream scenarioIssues) 5 (VObject [("boardId", VInt 1)])
           (DailyStandupReportInput.mk 1 None None None) startWorld _ cachedWorld
           eq_refl eq_refl Hrun 5
           (VObject [("boardId", VInt 1); ("daysStale", VInt 7)])
           (DailyStandupReportInput.mk 1 None (Some 7) None) cachedWorld
           eq_refl eq_refl eq_refl eq_refl).
  vm_compute; discriminate.
Defined.

Lemma missing_sprint_is_reported_witness :
  exists w',
    @handleJiraTool refRuntime sprintlessUpstream 5 "jira_get_sprint_issues"
      (VObject [("boardId", VInt 1)]) startWorld
    = (Returned
         (PError
            {| ErrorResponse.error :=
                 "No active sprint found for board " ++ @numToString refRuntime 1;
               ErrorResponse.tool := "jira_get_sprint_issues";
               ErrorResponse.status := Some 404;
               ErrorResponse.details :=
                 DetailsBase JIRA_SPRINT_NOT_FOUND (World.clock startWorld + 5)
                   (if @development refRuntime then Some (CtxBoardId 1) else None) |}),
       w')
    /\ World.clock w' = World.clock startWorld + 5
    /\ World.trace w' = (World.trace startWorld ++ [EvRequest (GetBoardSprints 1)])%list
    /\ forall k e,
         CacheManager.mapGet k (CacheManager.cache (World.sprintCache w')) = Some e ->
         CacheManager.mapGet k (CacheManager.cache (World.sprintCache startWorld))
         = Some e.
Proof.
  apply (@missing_sprint_is_reported refRuntime sprintlessUpstream 5
           "jira_get_sprint_issues" (VObject [("boardId", VInt 1)]) 1 startWorld 5
           (ResponseData.mk (Some []) None None None)).
  - left. split; [reflexivity | vm_compute; reflexivity].
  - vm_compute; reflexivity.
  - reflexivity.
  - reflexivity.
Defined.

Lemma report_arguments_are_in_range_witness :
  DailyStandupReportSchema (VObject [("boardId", VInt 1); ("daysStale", VInt 7)])
  = Some (DailyStandupReportInput.mk 1 None (Some 7) None)
  /\ 0 < 1
  /\ 1 <= orTwo (Some 7) <= 30.
Proof.
  split; [vm_compute; reflexivity|].
  pose proof (report_arguments_are_in_range
                (VObject [("boardId", VInt 1); ("daysStale", VInt 7)])
                (DailyStandupReportInput.mk 1 None (Some 7) None) eq_refl)
    as (Hboard & Hdays & _).
  split; [exact Hboard | exact Hdays].
Defined.

Lemma pdf_tool_goes_through_the_report_tool_witness :
  GenerateStandupPDFSchema (VObject [("boardId", VInt 1)])
  = Some (GenerateStandupPDFInput.mk 1 None None None)
  /\ @handleJiraTool refRuntime (pagedUpstream scenarioIssues) 5
       "jira_daily_standup_report"
       (nestedReportArgs (GenerateStandupPDFInput.mk 1 None None None)) startWorld
     = tryCatch
         (@standupReport refRuntime (pagedUpstream scenarioIssues) 5 1 None 2)
         (@handleError refRuntime "jira_daily_standup_report") startWorld.
Proof.
  split; [vm_compute; reflexivity|].
  apply (@pdf_tool_goes_through_the_report_tool refRuntime
           (pagedUpstream scenarioIssues) 5 (VObject [("boardId", VInt 1)])
           (GenerateStandupPDFInput.mk 1 None None None) startWorld eq_refl).
Defined.

Lemma jira_base_url_has_no_trailing_slash_witness :
  ConfigManager.getJiraBaseUrl sampleConfig
  = inr (codeUnitsOf "https://jira.example.com")
  /\ ConfigManager.getJiraApiUrl sampleConfig
     = inr (codeUnitsOf "https://jira.example.com" ++ codeUnitsOf "/rest/api/3")%list.
Proof.
  split; [vm_compute; reflexivity|].
  apply (jira_base_url_has_no_trailing_slash sampleConfig
           (codeUnitsOf "https://jira.example.com")).
  vm_compute; reflexivity.
Defined.

Lemma jira_errors_are_not_retried_witness :
  RetryHelper.retry
    (throw (ThrownBase (@JiraError.sprintNotFound refRuntime 0 1)) : M unit)
    RetryOptions.empty startWorld
  = (Threw (ThrownBase (@JiraError.sprintNotFound refRuntime 0 1)), startWorld).
Proof.
  apply (@jira_errors_are_not_retried refRuntime unit
           (throw (ThrownBase (@JiraError.sprintNotFound refRuntime 0 1)))
           RetryOptions.empty 0 (@JiraError.sprintNotFound refRuntime 0 1)
           "jira_get_sprint_issues" startWorld startWorld).
  - right. left. exists 1. reflexivity.
  - reflexivity.
  - vm_compute; discriminate.
  - reflexivity.
Defined.
